(** * Data preparation and workflow definition of the SageMaker immersion-day labs

    The first lab notebook ([Lab1+2v1.ipynb]) cleans the diabetes table with
    pandas and numpy and exports four CSV files; the Step Functions notebook
    chains five orchestration steps.  This development embeds those cells:

    - [Binary64]: the [int(0.7 * len(...))] arithmetic, with the IEEE-754
      rounding of the product written out over [Z] (and proved to be the
      product of the kernel's binary64 numbers);
    - [Frame]: data frames, and the pandas/numpy operations the cells call;
    - [Notebook]: the cells themselves, and what they guarantee;
    - [Workflow]: the [steps.Chain] workflow definition.

    Table cells are binary64 numbers (Rocq's primitive floats): the integer
    columns of the dataset hold small integers, which binary64 represents
    exactly, and the medians that numpy returns are binary64 in any case.
    Column labels are strings and every column has a dtype: the labels
    [get_dummies] gives the indicator columns depend on it (['Outcome_1']
    for an [int64] column, ['Outcome_1.0'] for a [float64] one), and a
    label may be carried by more than one column.  What the libraries
    decide on their own (the text of a float, the dtype of a column after
    [replace] or [concat]) is a parameter, the class [Frame.Pandas].
    The pandas modelled is the one the notebook runs on: [DataFrame.append]
    exists and [get_dummies] yields 0/1 columns of dtype [uint8] (pandas
    before 2.0). *)

From Stdlib Require Import String.
From Stdlib Require Import List ZArith Lia Bool Permutation Sorted PeanoNat.
From Stdlib Require Import Floats DecimalString.
Import ListNotations.

Local Open Scope Z_scope.

(** ** binary64 products truncated to an integer *)

Module Binary64.

(** [P / 2^k] rounded to the nearest integer, ties to even. *)
Definition round_half_even (P k : Z) : Z :=
  let q := P / 2 ^ k in
  let r := P mod 2 ^ k in
  if 2 * r <? 2 ^ k then q
  else if 2 ^ k <? 2 * r then q + 1
  else if Z.even q then q else q + 1.

(** Number of low bits a non-negative integer loses when it is stored with a
    53-bit significand. *)
Definition excess_bits (P : Z) : Z := Z.max 0 (Z.log2 P - 52).

(** The nearest multiple of [2 ^ excess_bits P] to [P], ties to even: the
    value of [P] once rounded to 53 significant bits. *)
Definition round53 (P : Z) : Z :=
  let k := excess_bits P in round_half_even P k * 2 ^ k.

(** [float(n)] for a Python integer [n >= 0], as the integer it denotes. *)
Definition float_of_int (n : Z) : Z := round53 n.

(** The literals [0.7] and [0.9] are stored as [m * 2^-53] with these [m]. *)
Definition lit_0_7 : Z := 6305039478318694.
Definition lit_0_9 : Z := 8106479329266893.

(** [int(c * n)] where [c] is the binary64 number [m * 2^-53] and [n] a
    non-negative Python integer: [n] is converted to binary64, the product is
    rounded to 53 bits, and [int] drops the fractional part. *)
Definition int_mul (m n : Z) : Z := round53 (m * float_of_int n) / 2 ^ 53.

(** The same computation on the kernel's binary64 numbers, for lengths that
    fit a machine integer. *)
Definition trunc (f : float) : Z :=
  match Prim2SF f with
  | S754_finite s m e =>
      let a := if 0 <=? e then Z.pos m * 2 ^ e else Z.pos m / 2 ^ (- e) in
      if s then - a else a
  | _ => 0
  end.

Definition prim_int_mul (c : float) (n : Z) : Z :=
  trunc (c * of_uint63 (Uint63.of_Z n))%float.

(** [0.7] and [0.9] as Python reads them (the nearest binary64 numbers). *)
Definition prim_0_7 : float := 0x1.6666666666666p-1%float.
Definition prim_0_9 : float := 0x1.ccccccccccccdp-1%float.

(** The integer part of [M * 2^E], for [M >= 0]. *)
Definition dyadic_floor (M E : Z) : Z :=
  if 0 <=? E then M * 2 ^ E else M / 2 ^ (- E).

(** Where a remainder [R] of a division by [d] lies: the round bit [r]
    says whether it reaches half of [d], the sticky bit [s] whether
    something is left beyond that. *)
Definition located (d R : Z) (r s : bool) : Prop :=
  match r, s with
  | false, false => R = 0
  | false, true => 0 < 2 * R < d
  | true, false => 2 * R = d
  | true, true => d < 2 * R
  end.

End Binary64.

(** ** Data frames and the pandas / numpy operations used by the notebook *)

Module Frame.

Local Open Scope nat_scope.

(** Column labels are strings, as in pandas. *)
Definition colname := string.

Definition colname_eqb (a b : colname) : bool := String.eqb a b.

(** The dtypes of the columns the notebook meets: [int64] and [float64] as
    [read_csv] infers them, [uint8] for the indicator columns of
    [get_dummies], and [category] over values of one of these. *)
Inductive numeric := Int64 | Float64 | Uint8.

Inductive dtype :=
  | Numeric (t : numeric)
  | Category (levels : numeric).

Definition numeric_eqb (a b : numeric) : bool :=
  match a, b with
  | Int64, Int64 | Float64, Float64 | Uint8, Uint8 => true
  | _, _ => false
  end.

Definition dtype_eqb (a b : dtype) : bool :=
  match a, b with
  | Numeric t, Numeric u | Category t, Category u => numeric_eqb t u
  | _, _ => false
  end.

Record Header := mkHeader { name : colname; kind : dtype }.

(** A row carries its index label and one cell per column.  Cells are
    binary64 numbers whatever the dtype of their column: a cell of an
    [int64] or [uint8] column holds the integer as a binary64 number. *)
Record Row := mkRow { label : nat; cells : list float }.

Record DataFrame := mkFrame { columns : list Header; rows : list Row }.

Record Series := mkSeries { sheader : Header; values : list float }.

(** What the libraries decide and the notebook has no say in, left open:
    - [str_float64 x] is [str(x)] for a numpy [float64], the shortest
      decimal text that reads back as [x] (['1.0'], ['0.5'], ['1e+16']);
    - [replace_dtype t xs old new] is the dtype pandas gives a column of
      dtype [t] and values [xs] once [replace] has written [new] over the
      cells equal to [old] (an [int64] column that receives a fractional
      value becomes [float64]);
    - [common_dtype t u] is the dtype [concat] gives a column that has the
      dtype [t] in one frame and another dtype [u] in the other. *)
Class Pandas := mkPandas {
  str_float64 : float -> string;
  replace_dtype : dtype -> list float -> float -> float -> dtype;
  common_dtype : dtype -> dtype -> dtype
}.

(** The exceptions: [KeyError c] is the [KeyError] of a lookup of the label
    [c]; [KeyError_not_found cs] is the [KeyError] of [drop], whose message
    is that the labels [cs] are not found in the axis. *)
Inductive exn :=
  | KeyError (c : colname)
  | KeyError_not_found (cs : list colname)
  | ValueError.

Inductive result (A : Type) :=
  | Ok (a : A)
  | Raise (e : exn).
Arguments Ok {A} a.
Arguments Raise {A} e.

Definition bind {A B} (r : result A) (k : A -> result B) : result B :=
  match r with
  | Ok a => k a
  | Raise e => Raise e
  end.

Notation "x <- r ;; k" := (bind r (fun x => k))
  (at level 61, r at next level, right associativity).

(** Position of the first column labelled [c]. *)
Fixpoint get_loc (c : colname) (hs : list Header) : option nat :=
  match hs with
  | [] => None
  | h :: hs' =>
      if colname_eqb c (name h) then Some 0
      else option_map S (get_loc c hs')
  end.

Definition cell (j : nat) (r : Row) : float := nth j (cells r) nan.

Definition column_values (j : nat) (rs : list Row) : list float :=
  map (cell j) rs.

(** [df[c]] for a label that one column carries (the labels of a table read
    by [read_csv] are distinct): the column, as a series. *)
Definition getitem (df : DataFrame) (c : colname) : result Series :=
  match get_loc c (columns df) with
  | Some j =>
      Ok (mkSeries (nth j (columns df) (mkHeader c (Numeric Float64)))
                   (column_values j (rows df)))
  | None => Raise (KeyError c)
  end.

(** [s == v], element by element. *)
Definition eq_scalar (s : Series) (v : float) : list bool :=
  map (fun x => (x =? v)%float) (values s).

Fixpoint select {A} (mask : list bool) (l : list A) : list A :=
  match mask, l with
  | b :: mask', x :: l' => if b then x :: select mask' l' else select mask' l'
  | _, _ => []
  end.

(** [df.loc[mask]] for a boolean mask computed from [df] itself, so that mask
    and frame are aligned position by position. *)
Definition loc (df : DataFrame) (mask : list bool) : DataFrame :=
  mkFrame (columns df) (select mask (rows df)).

(** Insertion sort by the binary64 order. *)
Fixpoint insert_sorted (x : float) (l : list float) : list float :=
  match l with
  | [] => [x]
  | y :: l' => if (x <=? y)%float then x :: l else y :: insert_sorted x l'
  end.

Definition sort (l : list float) : list float :=
  fold_right insert_sorted [] l.

(** [np.mean] of the one or two middle values, as numpy's reduction
    computes it: the sum starts from [0.0], the values are added from the
    left, and the sum is divided by their number. *)
Definition mean_1 (x : float) : float := ((zero + x) / 1)%float.

Definition mean_2 (x y : float) : float := ((zero + x + y) / 2)%float.

(** [np.median]: NaN as soon as one value is NaN or there is no value at all
    (numpy warns and returns NaN on an empty array); otherwise the mean of
    the middle value, or of the two middle values, of the sorted values. *)
Definition np_median (xs : list float) : float :=
  if existsb is_nan xs then nan
  else
    let s := sort xs in
    let n := length s in
    match n with
    | 0 => nan
    | _ =>
        if Nat.odd n then mean_1 (nth (n / 2) s nan)
        else mean_2 (nth (n / 2 - 1) s nan) (nth (n / 2) s nan)
    end.

Fixpoint replace_at (j : nat) (old new : float) (xs : list float) : list float :=
  match xs, j with
  | [], _ => []
  | x :: xs', 0 => (if (x =? old)%float then new else x) :: xs'
  | x :: xs', S j' => x :: replace_at j' old new xs'
  end.

Definition replace_row (j : nat) (old new : float) (r : Row) : Row :=
  mkRow (label r) (replace_at j old new (cells r)).

(** The dtype of the column at position [j] becomes [f] of what it was. *)
Fixpoint retype (j : nat) (f : dtype -> dtype) (hs : list Header) : list Header :=
  match hs, j with
  | [], _ => []
  | h :: hs', 0 => mkHeader (name h) (f (kind h)) :: hs'
  | h :: hs', S j' => h :: retype j' f hs'
  end.

Section Replacing.

Context {P : Pandas}.

(** [df.replace({c: old}, new)]: the cells of column [c] equal to [old]
    become [new]; a key that is not a column is skipped. *)
Definition replace (df : DataFrame) (c : colname) (old new : float) : DataFrame :=
  match get_loc c (columns df) with
  | Some j =>
      mkFrame (retype j (fun t => replace_dtype t (column_values j (rows df)) old new)
                      (columns df))
              (map (replace_row j old new) (rows df))
  | None => df
  end.

(** The header of a column of the concatenation of two frames. *)
Definition common (h h' : Header) : Header :=
  if dtype_eqb (kind h) (kind h') then h
  else mkHeader (name h) (common_dtype (kind h) (kind h')).

Fixpoint common_headers (hs hs' : list Header) : list Header :=
  match hs, hs' with
  | h :: hs1, h' :: hs1' => common h h' :: common_headers hs1 hs1'
  | _, _ => hs
  end.

(** [pd.concat([a, b])] and [a.append(b)] for two frames with the same
    column labels: the rows of [a], then the rows of [b], index labels
    kept. *)
Definition concat (a b : DataFrame) : DataFrame :=
  mkFrame (common_headers (columns a) (columns b)) (rows a ++ rows b).

End Replacing.

Definition as_category (k : dtype) : dtype :=
  match k with
  | Numeric t => Category t
  | Category t => Category t
  end.

(** The cast of the column [c] to [category], on a header. *)
Definition cast_category (c : colname) (h : Header) : Header :=
  if colname_eqb c (name h) then mkHeader (name h) (as_category (kind h)) else h.

(** [df.astype({c1: 'category', ...})]: every key must be a column. *)
Fixpoint astype_category (df : DataFrame) (cs : list colname) : result DataFrame :=
  match cs with
  | [] => Ok df
  | c :: cs' =>
      match get_loc c (columns df) with
      | Some _ => astype_category (mkFrame (map (cast_category c) (columns df)) (rows df)) cs'
      | None => Raise (KeyError c)
      end
  end.

Definition is_category (h : Header) : bool :=
  match kind h with Category _ => true | Numeric _ => false end.

Fixpoint dedupe (l : list float) : list float :=
  match l with
  | [] => []
  | x :: l' => x :: filter (fun y => negb (y =? x)%float) (dedupe l')
  end.

(** The categories of a column cast to [category]: its distinct values, NaN
    left out, in increasing order. *)
Definition categories (xs : list float) : list float :=
  sort (dedupe (filter (fun x => negb (is_nan x)) xs)).

Definition enumerate {A} (l : list A) : list (nat * A) :=
  combine (seq 0 (length l)) l.

Definition kept_columns (df : DataFrame) : list (nat * Header) :=
  filter (fun jh => negb (is_category (snd jh))) (enumerate (columns df)).

Definition encoded_columns (df : DataFrame) : list (nat * Header) :=
  filter (fun jh => is_category (snd jh)) (enumerate (columns df)).

(** [str(n)] for an integer [n]. *)
Definition str_int (n : Z) : string := NilZero.string_of_int (Z.to_int n).

(** The dtype of the values of a column. *)
Definition levels_of (h : Header) : numeric :=
  match kind h with
  | Numeric t => t
  | Category t => t
  end.

(** The label of an indicator column, [prefix + '_' + level]. *)
Definition dummy_name (prefix : colname) (level : string) : colname :=
  (prefix ++ "_" ++ level)%string.

Section Encoding.

Context {P : Pandas}.

(** [str(v)] for a category [v] of a column whose values have the dtype
    [t]: the digits of the integer for [int64] and [uint8], the text of the
    float for [float64]. *)
Definition str_level (t : numeric) (v : float) : string :=
  match t with
  | Float64 => str_float64 v
  | Int64 | Uint8 => str_int (Binary64.trunc v)
  end.

Definition indicator_headers (df : DataFrame) (jh : nat * Header) : list Header :=
  map (fun v => mkHeader (dummy_name (name (snd jh))
                                     (str_level (levels_of (snd jh)) v))
                         (Numeric Uint8))
      (categories (column_values (fst jh) (rows df))).

Definition indicator_cells (df : DataFrame) (r : Row) (jh : nat * Header) : list float :=
  map (fun v => if (cell (fst jh) r =? v)%float then one else zero)
      (categories (column_values (fst jh) (rows df))).

(** [pd.get_dummies(df)]: the columns that are not categorical, in their
    order, followed by one block of 0/1 indicator columns per categorical
    column, one indicator per category. *)
Definition get_dummies (df : DataFrame) : DataFrame :=
  mkFrame
    (map snd (kept_columns df) ++ flat_map (indicator_headers df) (encoded_columns df))
    (map (fun r =>
            mkRow (label r)
                  (map (fun jh => cell (fst jh) r) (kept_columns df)
                   ++ flat_map (indicator_cells df r) (encoded_columns df)))
         (rows df)).

End Encoding.

(** [df.take(locs)]: the rows at the given positions, in that order. *)
Definition take (locs : list nat) (df : DataFrame) : DataFrame :=
  mkFrame (columns df)
          (flat_map (fun i => match nth_error (rows df) i with
                              | Some r => [r]
                              | None => []
                              end) locs).

(** The Python slice [l[st:en]] for [0 <= st] and [0 <= en]. *)
Definition slice {A} (st en : nat) (l : list A) : list A :=
  firstn (en - st) (skipn st l).

Fixpoint split_from {A} (st : nat) (indices : list nat) (l : list A) : list (list A) :=
  match indices with
  | [] => [slice st (length l) l]
  | en :: indices' => slice st en l :: split_from en indices' l
  end.

(** [np.split(df, indices)] along the rows. *)
Definition np_split (df : DataFrame) (indices : list nat) : list DataFrame :=
  map (mkFrame (columns df)) (split_from 0 indices (rows df)).

Fixpoint remove_positions {A} (js : list nat) (i : nat) (l : list A) : list A :=
  match l with
  | [] => []
  | x :: l' =>
      if existsb (Nat.eqb i) js then remove_positions js (S i) l'
      else x :: remove_positions js (S i) l'
  end.

Fixpoint get_locs (cs : list colname) (hs : list Header) : result (list nat) :=
  match cs with
  | [] => Ok []
  | c :: cs' =>
      match get_loc c hs with
      | Some j => js <- get_locs cs' hs ;; Ok (j :: js)
      | None => Raise (KeyError c)
      end
  end.

(** The positions of all the columns whose header satisfies [p]. *)
Definition positions (p : Header -> bool) (hs : list Header) : list nat :=
  map fst (filter (fun jh => p (snd jh)) (enumerate hs)).

(** No label occurs twice. *)
Fixpoint is_unique (cs : list colname) : bool :=
  match cs with
  | [] => true
  | c :: cs' => negb (existsb (colname_eqb c) cs') && is_unique cs'
  end.

(** [df.drop(cs, axis=1)]: every label must be a column, and every column
    that carries one of the labels is removed.  When a label is not a
    column, the [KeyError] names the labels that are not found if the
    columns have distinct labels, and all of [cs] otherwise. *)
Definition drop (df : DataFrame) (cs : list colname) : result DataFrame :=
  match filter (fun c => match get_loc c (columns df) with
                         | None => true
                         | Some _ => false
                         end) cs with
  | [] =>
      let js := positions (fun h => existsb (colname_eqb (name h)) cs) (columns df) in
      Ok (mkFrame (remove_positions js 0 (columns df))
                  (map (fun r => mkRow (label r) (remove_positions js 0 (cells r)))
                       (rows df)))
  | missing =>
      Raise (KeyError_not_found
               (if is_unique (map name (columns df)) then missing else cs))
  end.

(** [df[c]] when several columns may carry the label [c] (the frame that
    [get_dummies] returns can have a label twice): all of them, in their
    order.  pandas returns a series when there is one such column and a
    frame otherwise; here the frame of these columns in both cases. *)
Definition getitem_all (df : DataFrame) (c : colname) : result DataFrame :=
  match positions (fun h => colname_eqb c (name h)) (columns df) with
  | [] => Raise (KeyError c)
  | js =>
      Ok (mkFrame (map (fun j => nth j (columns df) (mkHeader c (Numeric Float64))) js)
                  (map (fun r => mkRow (label r) (map (fun j => cell j r) js))
                       (rows df)))
  end.

Fixpoint zip_with {A B C} (f : A -> B -> C) (l : list A) (m : list B) : list C :=
  match l, m with
  | x :: l', y :: m' => f x y :: zip_with f l' m'
  | _, _ => []
  end.

(** [pd.concat([y, x], axis=1)] for two frames taken from the same frame,
    hence with the same index: the columns of [y], then those of [x]. *)
Definition concat_axis1 (y x : DataFrame) : DataFrame :=
  mkFrame (columns y ++ columns x)
          (zip_with (fun ry rx => mkRow (label rx) (cells ry ++ cells rx))
                    (rows y) (rows x)).

(** Fields of a CSV file; the text of a number is left abstract. *)
Inductive field :=
  | Num (x : float)
  | Name (c : colname)
  | Index (l : nat)
  | Blank.

Definition csv := list (list field).

(** [df.to_csv(path, index=..., header=...)], the content written. *)
Definition to_csv (df : DataFrame) (index header : bool) : csv :=
  (if header
   then [(if index then [Blank] else []) ++ map (fun h => Name (name h)) (columns df)]
   else [])
  ++ map (fun r => (if index then [Index (label r)] else []) ++ map Num (cells r))
         (rows df).

(** *** Auxiliary definitions for the statements *)

(** The element at position [i], if any, as a list. *)
Definition pick {A} (l : list A) (i : nat) : list A :=
  match nth_error l i with
  | Some x => [x]
  | None => []
  end.

(** [enumerate] counting from [s]. *)
Definition enum_from {A} (s : nat) (l : list A) : list (nat * A) :=
  combine (seq s (length l)) l.

End Frame.

(** ** The cells of the first lab notebook *)

Module Notebook.

Import Frame.
Local Open Scope nat_scope.
Local Open Scope string_scope.

(** numpy's pseudo-random generators, as far as the notebook uses them:
    [seeded s] is [np.random.RandomState(s)], and [permutation g n] draws an
    ordering of [0 .. n-1] from the state [g] and returns the state after. *)
Record Generator := mkGenerator {
  rng_state : Type;
  seeded : Z -> rng_state;
  permutation : rng_state -> nat -> list nat * rng_state
}.

(** [df.sample(frac=1, random_state=...)]: all the rows, reordered.  With an
    integer [random_state] the ordering comes from a generator seeded afresh
    and numpy's global generator [ambient] is left alone; without it the
    ordering is drawn from the global generator. *)
Definition sample (G : Generator) (ambient : rng_state G)
    (random_state : option Z) (df : DataFrame) : DataFrame * rng_state G :=
  let n := length (rows df) in
  match random_state with
  | Some s => (take (fst (permutation G (seeded G s) n)) df, ambient)
  | None => let (p, g) := permutation G ambient n in (take p df, g)
  end.

Definition Outcome : colname := "Outcome".
Definition Pregnancies : colname := "Pregnancies".
Definition Outcome_0 : colname := "Outcome_0".
Definition Outcome_1 : colname := "Outcome_1".

Definition columnsToImpute : list colname :=
  ["BloodPressure"; "BMI"; "Glucose"; "Insulin"; "SkinThickness"].

Section Cells.

Context {P : Pandas}.

(** The [for column in columnsToImpute] loop. *)
Fixpoint impute_loop (cs : list colname) (df1 df2 : DataFrame)
    : result (DataFrame * DataFrame) :=
  match cs with
  | [] => Ok (df1, df2)
  | column :: cs' =>
      s1 <- getitem df1 column ;;
      let df1' := replace df1 column zero (np_median (values s1)) in
      s2 <- getitem df2 column ;;
      let df2' := replace df2 column zero (np_median (values s2)) in
      impute_loop cs' df1' df2'
  end.

(** The imputation cell; the result is the new value of [data]. *)
Definition impute_cell (data : DataFrame) : result DataFrame :=
  o1 <- getitem data Outcome ;;
  let df1 := loc data (eq_scalar o1 one) in
  o2 <- getitem data Outcome ;;
  let df2 := loc data (eq_scalar o2 zero) in
  dfs <- impute_loop columnsToImpute df1 df2 ;;
  Ok (concat (fst dfs) (snd dfs)).

(** The encoding cell; the result is [model_data]. *)
Definition encode_cell (data : DataFrame) : result DataFrame :=
  data' <- astype_category data [Pregnancies; Outcome] ;;
  Ok (get_dummies data').

End Cells.

Record Splits := mkSplits {
  train_data : DataFrame;
  validation_data : DataFrame;
  test_data : DataFrame
}.

(** [int(0.7 * len(model_data))] and [int(0.9 * len(model_data))]. *)
Definition split_point_70 (n : nat) : nat :=
  Z.to_nat (Binary64.int_mul Binary64.lit_0_7 (Z.of_nat n)).

Definition split_point_90 (n : nat) : nat :=
  Z.to_nat (Binary64.int_mul Binary64.lit_0_9 (Z.of_nat n)).

(** The split cell. *)
Definition split_cell (G : Generator) (ambient : rng_state G)
    (model_data : DataFrame) : result Splits * rng_state G :=
  let (shuffled, g) := sample G ambient (Some 1729%Z) model_data in
  let n := length (rows model_data) in
  (match np_split shuffled [split_point_70 n; split_point_90 n] with
   | [a; b; c] => Ok (mkSplits a b c)
   | _ => Raise ValueError
   end, g).

Section Run.

Context {P : Pandas}.

(** The three cells in sequence, from the table read from the CSV file. *)
Definition prepare (G : Generator) (ambient : rng_state G)
    (data : DataFrame) : result Splits * rng_state G :=
  match (imputed <- impute_cell data ;; encode_cell imputed) with
  | Ok model_data => split_cell G ambient model_data
  | Raise e => (Raise e, ambient)
  end.

End Run.

(** Files written so far, most recent first. *)
Definition files := list (string * csv).

Fixpoint read_file (path : string) (fs : files) : option csv :=
  match fs with
  | [] => None
  | (p, c) :: fs' => if String.eqb path p then Some c else read_file path fs'
  end.

(** Computations that write files and may raise. *)
Definition io (A : Type) := files -> result A * files.

Definition io_bind {A B} (m : io A) (k : A -> io B) : io B :=
  fun fs => match m fs with
            | (Ok a, fs') => k a fs'
            | (Raise e, fs') => (Raise e, fs')
            end.

Definition lift {A} (r : result A) : io A := fun fs => (r, fs).

Definition write_file (path : string) (content : csv) : io unit :=
  fun fs => (Ok tt, (path, content) :: fs).

Notation "m1 >> m2" := (io_bind m1 (fun _ => m2))
  (at level 62, right associativity).

(** [pd.concat([df['Outcome_1'], df.drop(['Outcome_0', 'Outcome_1'], axis=1)], axis=1)] *)
Definition target_first (df : DataFrame) : result DataFrame :=
  y <- getitem_all df Outcome_1 ;;
  x <- drop df [Outcome_0; Outcome_1] ;;
  Ok (concat_axis1 y x).

Definition export_labelled (df : DataFrame) (path : string) : io unit :=
  io_bind (lift (target_first df))
          (fun out => write_file path (to_csv out false false)).

Definition export_features (df : DataFrame) (path : string) : io unit :=
  io_bind (lift (drop df [Outcome_0; Outcome_1]))
          (fun out => write_file path (to_csv out false false)).

Section Exporting.

Context {P : Pandas}.

(** The export cell. *)
Definition export_cell (s : Splits) : io unit :=
  export_labelled (train_data s) "train.csv" >>
  export_labelled (validation_data s) "validation.csv" >>
  export_labelled (test_data s) "test.csv" >>
  export_features (test_data s) "test-no-outcomes.csv" >>
  let merged_data := concat (train_data s) (validation_data s) in
  export_labelled merged_data "merged.csv".

(** The data preparation followed by the export, from no file at all: the
    three frames if nothing raised, and the files written. *)
Definition run (G : Generator) (ambient : rng_state G) (data : DataFrame)
    : result Splits * files :=
  match fst (prepare G ambient data) with
  | Ok s =>
      match export_cell s [] with
      | (Ok _, fs) => (Ok s, fs)
      | (Raise e, fs) => (Raise e, fs)
      end
  | Raise e => (Raise e, [])
  end.

End Exporting.

(** *** Vocabulary of the statements about the imputation *)

(** Row [r] has Outcome [k], the Outcome column being at position [jo]. *)
Definition in_class (jo : nat) (k : float) (r : Row) : bool :=
  (cell jo r =? k)%float.

Definition class_rows (jo : nat) (k : float) (rs : list Row) : list Row :=
  filter (in_class jo k) rs.

(** The per-class median of the column at position [j]: the median of that
    column over the rows of [rs] whose Outcome is [k]. *)
Definition class_median (rs : list Row) (jo : nat) (k : float) (j : nat) : float :=
  np_median (column_values j (class_rows jo k rs)).



Definition binary (jo : nat) (r : Row) : bool :=
  in_class jo one r || in_class jo zero r.


Definition is_imputed (c : colname) : bool :=
  existsb (colname_eqb c) columnsToImpute.

(** The loop of the imputation cell as it acts on one of its two frames. *)
Fixpoint impute_frame {P : Pandas} (cs : list colname) (df : DataFrame)
    : result DataFrame :=
  match cs with
  | [] => Ok df
  | column :: cs' =>
      s <- getitem df column ;;
      impute_frame cs' (replace df column zero (np_median (values s)))
  end.

(** One iteration on the rows, for the column at position [j]. *)
Definition impute_step (j : nat) (rs : list Row) : list Row :=
  map (replace_row j zero (np_median (column_values j rs))) rs.

Definition impute_rows (js : list nat) (rs : list Row) : list Row :=
  fold_left (fun acc j => impute_step j acc) js rs.

(** What the iterations do to a single row [r] of the rows [rs]. *)
Fixpoint impute_row (js : list nat) (rs : list Row) (r : Row) : Row :=
  match js with
  | [] => r
  | j :: js' =>
      impute_row js' rs (replace_row j zero (np_median (column_values j rs)) r)
  end.

(** *** Vocabulary of the statements about the encoding *)

(** What the two casts of the encoding cell do to a column header. *)
Definition cast (h : Header) : Header :=
  cast_category Outcome (cast_category Pregnancies h).

Definition is_encoded (c : colname) : bool :=
  colname_eqb Pregnancies c || colname_eqb Outcome c.

(** *** Vocabulary of the statements about the export *)




(** The positions of the columns labelled [c]. *)
Definition labelled (c : colname) (hs : list Header) : list nat :=
  positions (fun h => colname_eqb c (name h)) hs.

(** The positions of the columns that [drop(['Outcome_0', 'Outcome_1'])]
    removes. *)
Definition dropped (hs : list Header) : list nat :=
  positions (fun h => existsb (colname_eqb (name h)) [Outcome_0; Outcome_1]) hs.

(** The line of a row in a labelled file, whatever the labels are: its
    cells in the columns labelled Outcome_1, then its cells in the columns
    that are not dropped. *)
Definition target_line (hs : list Header) (r : Row) : list field :=
  map Num (map (fun j => cell j r) (labelled Outcome_1 hs)
           ++ remove_positions (dropped hs) 0 (cells r)).

Definition rest_line (hs : list Header) (r : Row) : list field :=
  map Num (remove_positions (dropped hs) 0 (cells r)).

(** A small table in the shape of [diabetes.csv], for examples: the columns
    and the dtypes that [read_csv] gives them. *)
Definition diabetes_columns : list Header :=
  [ mkHeader "Pregnancies" (Numeric Int64);
    mkHeader "Glucose" (Numeric Int64);
    mkHeader "BloodPressure" (Numeric Int64);
    mkHeader "SkinThickness" (Numeric Int64);
    mkHeader "Insulin" (Numeric Int64);
    mkHeader "BMI" (Numeric Float64);
    mkHeader "DiabetesPedigreeFunction" (Numeric Float64);
    mkHeader "Age" (Numeric Int64);
    mkHeader "Outcome" (Numeric Int64) ].

Definition sample_table : DataFrame :=
  mkFrame diabetes_columns
    [ mkRow 0 [6; 148; 72; 35; 0; 33.5; 0.625; 50; 1]%float;
      mkRow 1 [1; 85; 66; 29; 0; 26.5; 0.375; 31; 0]%float;
      mkRow 2 [8; 183; 64; 0; 0; 23.25; 0.75; 32; 1]%float;
      mkRow 3 [1; 89; 66; 23; 94; 28.125; 0.125; 21; 0]%float;
      mkRow 4 [0; 137; 40; 35; 168; 43; 2.25; 33; 1]%float;
      mkRow 5 [5; 116; 74; 0; 0; 25.5; 0.25; 30; 0]%float ].

(** The libraries for the examples.  The only floats the examples print
    are integers of a few digits, whose text is the digits and ['.0'] (as
    ['1.0'] for [1.0]).  No example reads the dtype of a column that
    [replace] or [concat] may have changed: here a column that receives a
    fractional value, or that is [float64] in one of the two frames, becomes
    [float64]. *)
Definition fractional (x : float) : bool :=
  negb (PrimFloat.Leibniz.eqb x (of_uint63 (Uint63.of_Z (Binary64.trunc x)))).

Definition str_integral (x : float) : string :=
  str_int (Binary64.trunc x) ++ ".0".

Definition sample_pandas : Pandas :=
  mkPandas
    str_integral
    (fun t xs old new =>
       match t with
       | Numeric Int64 =>
           if existsb (fun x => (x =? old)%float) xs && fractional new
           then Numeric Float64 else t
       | _ => t
       end)
    (fun _ _ => Numeric Float64).

Definition imputed_sample : DataFrame :=
  match impute_cell (P := sample_pandas) sample_table with
  | Ok d => d
  | Raise _ => sample_table
  end.

Definition model_sample : DataFrame :=
  match encode_cell (P := sample_pandas) imputed_sample with
  | Ok d => d
  | Raise _ => imputed_sample
  end.

(** A generator for examples: the ordering drawn is [0 .. n-1] reversed. *)
Definition reversing : Generator :=
  mkGenerator nat (fun s => Z.to_nat s) (fun g n => (rev (seq 0 n), S g)).

Definition sample_splits : Splits :=
  match fst (prepare (P := sample_pandas) reversing 0 sample_table) with
  | Ok s => s
  | Raise _ => mkSplits sample_table sample_table sample_table
  end.

(** A table with the five imputed columns and Outcome, and no other. *)
Definition six_columns_table : DataFrame :=
  mkFrame
    [ mkHeader "BloodPressure" (Numeric Int64);
      mkHeader "BMI" (Numeric Float64);
      mkHeader "Glucose" (Numeric Int64);
      mkHeader "Insulin" (Numeric Int64);
      mkHeader "SkinThickness" (Numeric Int64);
      mkHeader "Outcome" (Numeric Int64) ]
    [ mkRow 0 [72; 33.5; 148; 0; 35; 1]%float;
      mkRow 1 [66; 26.5; 85; 0; 29; 0]%float ].

(** A generator whose orderings depend on its state: [0 .. n-1] rotated by
    the state. *)
Definition rotating : Generator :=
  mkGenerator nat (fun s => Z.to_nat s)
    (fun g n => (map (fun i => (i + g) mod n) (seq 0 n), S g)).

(** A frame of ninety rows, with no column. *)
Definition ninety_rows : DataFrame :=
  mkFrame [] (map (fun i => mkRow i []) (seq 0 90)).

End Notebook.

(** ** The Step Functions workflow *)

Module Workflow.

Local Open Scope string_scope.

Inductive step_kind :=
  | TrainingStep
  | ModelStep
  | TransformStep
  | EndpointConfigStep
  | EndpointStep.

(** A state of the workflow: its name, what it does, and the state that
    follows it ([None] ends the execution). *)
Record State := mkState {
  state_id : string;
  step_type : step_kind;
  next_state : option string
}.

Definition training_step := mkState "Train Step" TrainingStep None.
Definition model_step := mkState "Save model" ModelStep None.
Definition transform_step := mkState "Transform Input Dataset" TransformStep None.
Definition endpoint_config_step := mkState "Create Endpoint Config" EndpointConfigStep None.
Definition endpoint_step := mkState "Create Endpoint" EndpointStep None.

(** [steps.Chain(l)] makes every step but the last continue with the step
    that follows it in [l]. *)
Fixpoint Chain (l : list State) : list State :=
  match l with
  | a :: l' =>
      match l' with
      | b :: _ => mkState (state_id a) (step_type a) (Some (state_id b)) :: Chain l'
      | [] => [a]
      end
  | [] => []
  end.

Definition workflow_definition : list State :=
  Chain [training_step; model_step; transform_step; endpoint_config_step; endpoint_step].

Definition find_state (id : string) (states : list State) : option State :=
  find (fun s => String.eqb id (state_id s)) states.

(** The steps an execution goes through from state [id], following the
    successor of each state; [fuel] bounds the number of steps. *)
Fixpoint trace (fuel : nat) (states : list State) (id : string) : list step_kind :=
  match fuel with
  | O => []
  | S fuel' =>
      match find_state id states with
      | None => []
      | Some s =>
          step_type s ::
          match next_state s with
          | Some id' => trace fuel' states id'
          | None => []
          end
      end
  end.

Definition start_at (states : list State) : option string :=
  option_map state_id (hd_error states).

End Workflow.

(** ** Vocabulary of further statements about the notebook *)

Module NotebookMore.

Import Frame Notebook.
Local Open Scope nat_scope.
Local Open Scope string_scope.

(** The first label of [cs] that is not a column. *)
Definition first_missing (cs : list colname) (hs : list Header) : option colname :=
  find (fun c => match get_loc c hs with None => true | Some _ => false end) cs.

(** A frame is rectangular when every row has one cell per column. *)
Definition rectangular (df : DataFrame) : Prop :=
  Forall (fun r => length (cells r) = length (columns df)) (rows df).

(** The label [l] reads as the label of an indicator column of the column
    [c]: it is [c], an underscore and some text. *)
Definition indicator_label (c l : colname) : bool := String.prefix (c ++ "_") l.

(** [h] heads a column that reads as an indicator column of [c]. *)
Definition is_indicator_of (c : colname) (h : Header) : Prop :=
  indicator_label c (name h) = true.

(** The label of [h] is plain: it reads neither as an indicator of
    Pregnancies nor as an indicator of Outcome. *)
Definition plain (h : Header) : bool :=
  negb (indicator_label Pregnancies (name h))
  && negb (indicator_label Outcome (name h)).

(** A table as [pd.read_csv] returns it for the dataset: columns that are
    not categorical, under distinct plain labels, among them the seven that
    the cells name, Outcome being an [int64] column. *)
Definition dataset_shaped (data : DataFrame) : Prop :=
  Forall (fun h => is_category h = false /\ plain h = true) (columns data)
  /\ NoDup (map name (columns data))
  /\ Forall (fun c => get_loc c (columns data) <> None)
            (Pregnancies :: Outcome :: columnsToImpute)
  /\ In (mkHeader Outcome (Numeric Int64)) (columns data).

(** The error of the export cell when the frames, of columns [hs], have no
    indicator column of the class [k] of Outcome: the lookup of Outcome_1
    fails for the class 1, and [drop] does not find Outcome_0 for the class
    0. *)
Definition missing_indicator (k : float) (hs : list Header) : exn :=
  if (k =? one)%float then KeyError Outcome_1
  else KeyError_not_found
         (if is_unique (map name hs) then [Outcome_0] else [Outcome_0; Outcome_1]).

(** The rows of the small table that have Outcome 1, for examples. *)
Definition positives : DataFrame :=
  mkFrame diabetes_columns (class_rows 8 one (rows sample_table)).

(** The files the export cell writes. *)
Definition exported : list string :=
  ["train.csv"; "validation.csv"; "test.csv"; "test-no-outcomes.csv"; "merged.csv"].

(** The rows of the small table that have Outcome 0, for examples. *)
Definition negatives : DataFrame :=
  mkFrame diabetes_columns (class_rows 8 zero (rows sample_table)).

(** The files the run leaves from the small table. *)
Definition sample_files : files :=
  snd (run (P := sample_pandas) reversing 0 sample_table).

End NotebookMore.

(** * Properties *)

(** ** Rounding to 53 bits *)

Module Binary64Facts.

Import Binary64.
Local Open Scope Z_scope.

Lemma round_half_even_error P k :
  0 <= k ->
  2 * Z.abs (round_half_even P k * 2 ^ k - P) <= 2 ^ k.
Proof.
  intros Hk. unfold round_half_even.
  assert (Hd : 0 < 2 ^ k) by (apply Z.pow_pos_nonneg; lia).
  pose proof (Z.div_mod P (2 ^ k) ltac:(lia)) as Hdm.
  pose proof (Z.mod_pos_bound P (2 ^ k) Hd) as Hr.
  set (d := 2 ^ k) in *. set (q := P / d) in *. set (r := P mod d) in *.
  destruct (2 * r <? d) eqn:E1; [apply Z.ltb_lt in E1; nia|].
  apply Z.ltb_ge in E1.
  destruct (d <? 2 * r) eqn:E2; [apply Z.ltb_lt in E2; nia|].
  apply Z.ltb_ge in E2.
  destruct (Z.even q); nia.
Qed.

(** Rounding to 53 bits moves a number by at most one part in [2^53]. *)
Lemma round53_error P :
  0 <= P ->
  2 ^ 53 * Z.abs (round53 P - P) <= P.
Proof.
  intros HP. unfold round53, excess_bits.
  destruct (Z.max_spec 0 (Z.log2 P - 52)) as [[Hlt ->] | [Hge ->]].
  - pose proof (round_half_even_error P (Z.log2 P - 52) ltac:(lia)) as He.
    assert (HPpos : 0 < P).
    { destruct (Z.eq_dec P 0) as [-> | ]; [simpl in Hlt; lia | lia]. }
    pose proof (Z.log2_spec P HPpos) as [Hlo _].
    replace (Z.log2 P) with ((Z.log2 P - 52) + 52) in Hlo at 1 by lia.
    rewrite Z.pow_add_r in Hlo by lia.
    set (d := 2 ^ (Z.log2 P - 52)) in *.
    assert (0 < d) by (apply Z.pow_pos_nonneg; lia).
    change (2 ^ 53) with (2 * 2 ^ 52). change (2 ^ 52) with 4503599627370496 in *.
    lia.
  - pose proof (round_half_even_error P 0 ltac:(lia)) as He.
    change (2 ^ 0) with 1 in *. lia.
Qed.

Lemma round53_nonneg P : 0 <= P -> 0 <= round53 P.
Proof.
  intros HP. pose proof (round53_error P HP) as He.
  change (2 ^ 53) with 9007199254740992 in He. lia.
Qed.

Lemma int_mul_nonneg m n : 0 <= m -> 0 <= n -> 0 <= int_mul m n.
Proof.
  intros Hm Hn. unfold int_mul, float_of_int.
  apply Z.div_pos; [|reflexivity].
  apply round53_nonneg. pose proof (round53_nonneg n Hn). nia.
Qed.

(** [int(0.7 * n) <= int(0.9 * n)] for every length [n]. *)
Lemma int_mul_0_7_le_0_9 n :
  0 <= n -> int_mul lit_0_7 n <= int_mul lit_0_9 n.
Proof.
  intros Hn. unfold int_mul, float_of_int.
  pose proof (round53_nonneg n Hn) as Hf.
  set (f := round53 n) in *.
  apply Z.div_le_mono; [reflexivity|].
  pose proof (round53_error (lit_0_7 * f) ltac:(unfold lit_0_7; lia)) as E7.
  pose proof (round53_error (lit_0_9 * f) ltac:(unfold lit_0_9; lia)) as E9.
  unfold lit_0_7, lit_0_9 in *.
  change (2 ^ 53) with 9007199254740992 in *. lia.
Qed.

(** [int(0.9 * n) <= n] for every length [n]. *)
Lemma int_mul_0_9_le n :
  0 <= n -> int_mul lit_0_9 n <= n.
Proof.
  intros Hn. unfold int_mul, float_of_int.
  pose proof (round53_nonneg n Hn) as Hf.
  pose proof (round53_error n Hn) as En.
  set (f := round53 n) in *.
  pose proof (round53_error (lit_0_9 * f) ltac:(unfold lit_0_9; lia)) as E9.
  apply Z.div_le_upper_bound; [reflexivity|].
  unfold lit_0_9 in *.
  change (2 ^ 53) with 9007199254740992 in *. lia.
Qed.

(** Below [2^51] rows, [int(0.7 * n)] is [floor(7n/10)] or one less. *)
Lemma int_mul_0_7_near_floor n :
  0 <= n <= 2 ^ 51 ->
  7 * n / 10 - 1 <= int_mul lit_0_7 n <= 7 * n / 10.
Proof.
  intros Hn. unfold int_mul, float_of_int.
  change (2 ^ 51) with 2251799813685248 in Hn.
  assert (Hf : round53 n = n).
  { pose proof (round53_error n ltac:(lia)) as En.
    unfold round53, excess_bits in *.
    assert (Z.log2 n <= 52).
    { destruct (Z.eq_dec n 0) as [-> | ]; [simpl; lia|].
      apply Z.lt_succ_r, Z.log2_lt_pow2; [lia|].
      change (2 ^ Z.succ 52) with 9007199254740992. lia. }
    rewrite Z.max_l by lia. unfold round_half_even.
    change (2 ^ 0) with 1. rewrite Z.div_1_r, Z.mod_1_r. simpl. lia. }
  rewrite Hf.
  pose proof (round53_error (lit_0_7 * n) ltac:(unfold lit_0_7; lia)) as E7.
  pose proof (Z.div_mod (7 * n) 10 ltac:(lia)) as Hq.
  pose proof (Z.mod_pos_bound (7 * n) 10 ltac:(lia)) as Hr.
  set (q := 7 * n / 10) in *.
  set (R := round53 (lit_0_7 * n)) in *.
  unfold lit_0_7 in *. change (2 ^ 53) with 9007199254740992 in *.
  split.
  - apply Z.div_le_lower_bound; [reflexivity|]. lia.
  - apply Z.lt_succ_r, Z.div_lt_upper_bound; [reflexivity|]. lia.
Qed.

Example int_0_7_times_90 :
  int_mul lit_0_7 90 = 62 /\ prim_int_mul prim_0_7 90 = 62 /\ 7 * 90 / 10 = 63.
Proof. vm_compute. repeat split. Qed.

Example int_split_points_768 :
  int_mul lit_0_7 768 = 537 /\ int_mul lit_0_9 768 = 691.
Proof. vm_compute. split; reflexivity. Qed.

(** *** The library's specification of binary64 rounding *)

Lemma iter_pos_nat {A} (f : A -> A) p x :
  iter_pos f p x = Nat.iter (Pos.to_nat p) f x.
Proof.
  revert x. induction p as [p IH | p IH |]; intros x; cbn [iter_pos].
  - rewrite !IH, Pos2Nat.inj_xI, Nat.iter_succ_r, <- Nat.iter_add.
    f_equal. lia.
  - rewrite !IH, Pos2Nat.inj_xO, <- Nat.iter_add. f_equal. lia.
  - reflexivity.
Qed.

Lemma shr_1_spec q r s :
  0 <= q ->
  shr_1 (Build_shr_record q r s) = Build_shr_record (q / 2) (Z.odd q) (r || s).
Proof.
  intros Hq. destruct q as [| p | p]; [reflexivity | | lia].
  destruct p as [p | p |]; cbn [shr_1 Z.odd]; f_equal.
  - apply Z.div_unique with 1; lia.
  - apply Z.div_unique with 0; lia.
Qed.

Lemma shr_iter m n :
  0 <= m ->
  exists q r s R,
    Nat.iter n shr_1 (Build_shr_record m false false) = Build_shr_record q r s
    /\ 0 <= q
    /\ m = q * 2 ^ Z.of_nat n + R
    /\ 0 <= R < 2 ^ Z.of_nat n
    /\ located (2 ^ Z.of_nat n) R r s.
Proof.
  intros Hm. induction n as [| n IH].
  - exists m, false, false, 0. simpl. repeat split; lia.
  - destruct IH as (q & r & s & R & Hrec & Hq & Hmq & HR & Hloc).
    exists (q / 2), (Z.odd q), (r || s), ((if Z.odd q then 2 ^ Z.of_nat n else 0) + R).
    rewrite Nat2Z.inj_succ, Z.pow_succ_r by lia.
    assert (Hpos : 0 < 2 ^ Z.of_nat n) by (apply Z.pow_pos_nonneg; lia).
    pose proof (Z.div_mod q 2 ltac:(lia)) as Hdm.
    rewrite Zmod_odd in Hdm.
    cbn [Nat.iter nat_rect]. unfold Nat.iter in Hrec. rewrite Hrec, shr_1_spec by assumption.
    split; [reflexivity|].
    split; [apply Z.div_pos; lia|].
    split; [destruct (Z.odd q); nia|].
    split; [destruct (Z.odd q); lia|].
    unfold located in *. destruct r, s, (Z.odd q); cbn [orb]; cbv beta iota; lia.
Qed.

(** The shift the library performs before rounding, and the rounding. *)
Lemma round_after_shr m n :
  0 <= m ->
  let rec := Nat.iter n shr_1 (Build_shr_record m false false) in
  round_nearest_even (shr_m rec) (loc_of_shr_record rec)
  = round_half_even m (Z.of_nat n).
Proof.
  intros Hm rec0. subst rec0.
  destruct (shr_iter m n Hm) as (q & r & s & R & -> & Hq & Hmq & HR & Hloc).
  cbn [shr_m]. unfold round_half_even.
  assert (Hpos : 0 < 2 ^ Z.of_nat n) by (apply Z.pow_pos_nonneg; lia).
  assert (Hdiv : m / 2 ^ Z.of_nat n = q).
  { symmetry. apply Z.div_unique with R; lia. }
  assert (Hmod : m mod 2 ^ Z.of_nat n = R).
  { symmetry. apply Z.mod_unique with q; lia. }
  rewrite Hdiv, Hmod. unfold located in Hloc.
  destruct r, s; cbn [loc_of_shr_record round_nearest_even].
  - destruct (2 * R <? 2 ^ Z.of_nat n) eqn:E1; [apply Z.ltb_lt in E1; lia|].
    destruct (2 ^ Z.of_nat n <? 2 * R) eqn:E2; [reflexivity|].
    apply Z.ltb_ge in E2. lia.
  - destruct (2 * R <? 2 ^ Z.of_nat n) eqn:E1; [apply Z.ltb_lt in E1; lia|].
    destruct (2 ^ Z.of_nat n <? 2 * R) eqn:E2; [apply Z.ltb_lt in E2; lia|].
    reflexivity.
  - destruct (2 * R <? 2 ^ Z.of_nat n) eqn:E1; [reflexivity|].
    apply Z.ltb_ge in E1. lia.
  - destruct (2 * R <? 2 ^ Z.of_nat n) eqn:E1; [reflexivity|].
    apply Z.ltb_ge in E1. lia.
Qed.

Lemma digits2_pos_size p : digits2_pos p = Pos.size p.
Proof. induction p; simpl; congruence. Qed.

Lemma Zdigits2_log2 m : 0 < m -> Zdigits2 m = Z.log2 m + 1.
Proof.
  destruct m as [| p | p]; try lia. intros _. unfold Zdigits2.
  rewrite digits2_pos_size. destruct p; simpl; lia.
Qed.

Lemma round_half_even_0 m : round_half_even m 0 = m.
Proof.
  unfold round_half_even. change (2 ^ 0) with 1.
  now rewrite Z.div_1_r, Z.mod_1_r.
Qed.

Lemma round_half_even_bounds m k :
  0 <= k -> m / 2 ^ k <= round_half_even m k <= m / 2 ^ k + 1.
Proof.
  intros _. unfold round_half_even.
  destruct (_ <? _); [lia|]. destruct (_ <? _); [lia|].
  destruct (Z.even _); lia.
Qed.

Lemma round53_eq m :
  0 < m -> 52 <= Z.log2 m ->
  round53 m = round_half_even m (Z.log2 m - 52) * 2 ^ (Z.log2 m - 52).
Proof. intros _ H. unfold round53, excess_bits. now rewrite Z.max_r by lia. Qed.

(** Rounding by the library's [binary_round_aux]: on a positive integer [m]
    of at least 53 bits, scaled by [2^e], away from underflow and overflow,
    the result is [round53 m] scaled by [2^e], with a 53-bit significand. *)
Lemma binary_round_aux_spec sx m e :
  0 < m ->
  52 <= Z.log2 m ->
  -1074 <= Z.log2 m - 52 + e ->
  Z.log2 m - 52 + e + 1 <= 971 ->
  exists M E,
    binary_round_aux prec emax sx m e loc_Exact = S754_finite sx M E
    /\ e <= E <= e + (Z.log2 m - 52) + 1
    /\ Z.pos M * 2 ^ (E - e) = round53 m
    /\ 2 ^ 52 <= Z.pos M < 2 ^ 53.
Proof.
  intros Hm Hlog Hlo Hhi.
  set (k := Z.log2 m - 52) in *.
  assert (Hk : 0 <= k) by lia.
  assert (H2k : 0 < 2 ^ k) by (apply Z.pow_pos_nonneg; lia).
  pose proof (Z.log2_spec m Hm) as [Hml Hmu].
  replace (Z.log2 m) with (52 + k) in Hml by lia.
  replace (Z.succ (Z.log2 m)) with (53 + k) in Hmu by lia.
  rewrite Z.pow_add_r in Hml, Hmu by lia.
  set (q' := round_half_even m k).
  assert (Hq' : 2 ^ 52 <= q' <= 2 ^ 53).
  { pose proof (round_half_even_bounds m k Hk) as Hb. fold q' in Hb.
    assert (2 ^ 52 <= m / 2 ^ k) by (apply Z.div_le_lower_bound; lia).
    assert (m / 2 ^ k < 2 ^ 53) by (apply Z.div_lt_upper_bound; lia).
    lia. }
  (* the first shift *)
  assert (Hfirst : exists mrs,
             shr_fexp prec emax m e loc_Exact = (mrs, e + k)
             /\ round_nearest_even (shr_m mrs) (loc_of_shr_record mrs) = q').
  { unfold shr_fexp, fexp, emin, prec, emax.
    rewrite Zdigits2_log2 by assumption.
    replace (Z.max (Z.log2 m + 1 + e - 53) (3 - 1024 - 53) - e) with k by lia.
    cbn [shr_record_of_loc]. unfold shr.
    destruct k as [| p | p] eqn:Ek; [| | lia].
    - eexists. split; [f_equal; lia|]. cbn. unfold q'. now rewrite round_half_even_0.
    - eexists. split; [reflexivity|].
      rewrite iter_pos_nat. rewrite round_after_shr by lia.
      now rewrite positive_nat_Z. }
  destruct Hfirst as (mrs & Hshr & Hrne).
  unfold binary_round_aux. rewrite Hshr, Hrne.
  change (2 ^ 52) with 4503599627370496 in *.
  change (2 ^ 53) with 9007199254740992 in *.
  destruct (Z.eq_dec q' 9007199254740992) as [Heq | Hne].
  - (* the significand overflowed to 2^53: one more shift *)
    rewrite Heq. unfold shr_fexp, fexp, emin, prec, emax.
    change (Zdigits2 9007199254740992) with 54.
    replace (Z.max (54 + (e + k) - 53) (3 - 1024 - 53) - (e + k)) with 1 by lia.
    cbn [shr_record_of_loc shr iter_pos shr_1 shr_m].
    replace (e + k + 1 <=? 1024 - 53) with true by (symmetry; apply Z.leb_le; lia).
    exists 4503599627370496%positive, (e + k + 1).
    split; [reflexivity|]. split; [lia|]. split; [|lia].
    rewrite round53_eq by assumption. fold k q'. rewrite Heq.
    replace (e + k + 1 - e) with (k + 1) by lia.
    rewrite Z.pow_add_r by lia. change (2 ^ 1) with 2. lia.
  - assert (Hlog' : Z.log2 q' = 52).
    { apply Z.log2_unique; [lia|]. change (2 ^ 52) with 4503599627370496.
      change (2 ^ Z.succ 52) with 9007199254740992. lia. }
    unfold shr_fexp, fexp, emin, prec, emax.
    rewrite Zdigits2_log2 by lia. rewrite Hlog'.
    replace (Z.max (52 + 1 + (e + k) - 53) (3 - 1024 - 53) - (e + k)) with 0 by lia.
    cbn [shr_record_of_loc shr shr_m].
    destruct q' as [| M | M] eqn:EM; try lia.
    replace (e + k <=? 1024 - 53) with true by (symmetry; apply Z.leb_le; lia).
    exists M, (e + k). split; [reflexivity|]. split; [lia|]. split; [|lia].
    rewrite round53_eq by assumption. fold k. fold q'.
    rewrite EM. now replace (e + k - e) with k by lia.
Qed.

Lemma Pos_iter_xO p n : Z.pos (Pos.iter xO p n) = Z.pos p * 2 ^ Z.pos n.
Proof.
  induction n as [| n IH] using Pos.peano_ind.
  - cbn [Pos.iter]. rewrite Z.pow_1_r. lia.
  - rewrite Pos.iter_succ, Pos2Z.inj_xO, IH, Pos2Z.inj_succ, Z.pow_succ_r by lia.
    lia.
Qed.

(** [float(n)], as the library specifies the conversion: a 53-bit
    significand [M] and an exponent [E] with [M * 2^E = round53 n]. *)
Lemma binary_normalize_spec n :
  0 < n < 2 ^ 63 ->
  exists M E,
    binary_normalize prec emax n 0 false = S754_finite false M E
    /\ 2 ^ 52 <= Z.pos M < 2 ^ 53
    /\ -52 <= E <= 11
    /\ ((0 <= E /\ round53 n = Z.pos M * 2 ^ E)
        \/ (E < 0 /\ Z.pos M = n * 2 ^ (- E) /\ round53 n = n)).
Proof.
  intros [Hn Hn63]. destruct n as [| p | p]; try lia.
  unfold binary_normalize, binary_round, shl_align, fexp, emin, prec, emax.
  pose proof (Zdigits2_log2 (Z.pos p) Hn) as Hd. cbn [Zdigits2] in Hd.
  rewrite Hd.
  pose proof (Z.log2_spec (Z.pos p) Hn) as [Hlo Hhi].
  pose proof (Z.log2_nonneg (Z.pos p)) as Hl0.
  assert (Hl62 : Z.log2 (Z.pos p) <= 62).
  { apply Z.lt_succ_r, Z.log2_lt_pow2; [lia | exact Hn63]. }
  set (l := Z.log2 (Z.pos p)) in *.
  replace (Z.max (l + 1 + 0 - 53) (3 - 1024 - 53) - 0) with (l - 52) by lia.
  destruct (l - 52) as [| j | j] eqn:Ej.
  - (* exactly 53 bits *)
    destruct (binary_round_aux_spec false (Z.pos p) 0 Hn) as (M & E & Hr & HE & HM & Hb);
      fold l; try lia.
    fold l in HE. unfold prec, emax in Hr. rewrite Hr. exists M, E.
    assert (Hrn : round53 (Z.pos p) = Z.pos p).
    { rewrite round53_eq by (fold l; lia). fold l. rewrite Ej.
      rewrite round_half_even_0. change (2 ^ 0) with 1. lia. }
    split; [f_equal; lia|]. split; [exact Hb|]. split; [lia|].
    left. split; [lia|]. rewrite <- HM. now rewrite Z.sub_0_r.
  - (* more than 53 bits: the conversion rounds *)
    destruct (binary_round_aux_spec false (Z.pos p) 0 Hn) as (M & E & Hr & HE & HM & Hb);
      fold l; try lia.
    fold l in HE. unfold prec, emax in Hr. rewrite Hr. exists M, E.
    split; [f_equal; lia|]. split; [exact Hb|]. split; [lia|].
    left. split; [lia|]. rewrite <- HM. now rewrite Z.sub_0_r.
  - (* fewer than 53 bits: the significand is shifted left, nothing is lost *)
    assert (Hj : Z.pos j = 52 - l) by lia.
    assert (Hmz : Z.pos (Pos.iter xO p j) = Z.pos p * 2 ^ (52 - l)).
    { now rewrite Pos_iter_xO, Hj. }
    assert (H2 : 0 < 2 ^ (52 - l)) by (apply Z.pow_pos_nonneg; lia).
    assert (Hlog : Z.log2 (Z.pos (Pos.iter xO p j)) = 52).
    { rewrite Hmz, Z.log2_mul_pow2 by lia. fold l. lia. }
    destruct (binary_round_aux_spec false (Z.pos (Pos.iter xO p j)) (l - 52))
      as (M & E & Hr & HE & HM & Hb); try (rewrite Hlog; lia); try lia.
    rewrite Hlog in HE.
    replace (l + 1 + 0 - 53) with (l - 52) by lia.
    change (Z.max (l - 52) (3 - 1024 - 53)) with (Z.max (l - 52) (-1074)).
    rewrite Z.max_l by lia. unfold prec, emax in Hr. rewrite Hr. exists M, E.
    assert (Hrn : round53 (Z.pos (Pos.iter xO p j)) = Z.pos (Pos.iter xO p j)).
    { rewrite round53_eq by (rewrite ?Hlog; lia). rewrite Hlog.
      change (52 - 52) with 0. rewrite round_half_even_0.
      change (2 ^ 0) with 1. lia. }
    rewrite Hrn in HM.
    assert (HEeq : E = l - 52).
    { destruct (Z.eq_dec E (l - 52)) as [-> | Hne]; [reflexivity|].
      assert (E - (l - 52) = 1) as Hone by lia. rewrite Hone in HM.
      change (2 ^ 1) with 2 in HM.
      pose proof (Z.log2_spec (Z.pos (Pos.iter xO p j)) ltac:(lia)) as [_ Hup].
      rewrite Hlog in Hup. change (2 ^ Z.succ 52) with (2 ^ 53) in Hup.
      change (2 ^ 52) with 4503599627370496 in *.
      change (2 ^ 53) with 9007199254740992 in *. lia. }
    subst E. rewrite Z.sub_diag in HM. change (2 ^ 0) with 1 in HM.
    split; [reflexivity|]. split; [exact Hb|]. split; [lia|].
    right. split; [lia|]. split.
    + replace (- (l - 52)) with (52 - l) by lia. lia.
    + unfold round53, excess_bits. fold l. rewrite Z.max_l by lia.
      rewrite round_half_even_0. change (2 ^ 0) with 1. lia.
Qed.

Lemma dyadic_floor_scale M E a :
  0 <= a -> dyadic_floor (M * 2 ^ a) (E - a) = dyadic_floor M E.
Proof.
  intros Ha. unfold dyadic_floor.
  destruct (Z.leb_spec 0 (E - a)) as [H1 | H1];
    destruct (Z.leb_spec 0 E) as [H2 | H2]; try lia.
  - rewrite <- Z.mul_assoc, <- Z.pow_add_r by lia. do 2 f_equal. lia.
  - replace a with (E + (a - E)) at 1 by lia.
    rewrite Z.pow_add_r, Z.mul_assoc by lia.
    replace (- (E - a)) with (a - E) by lia.
    apply Z.div_mul. apply Z.pow_nonzero; lia.
  - replace (- (E - a)) with (- E + a) by lia.
    rewrite Z.pow_add_r by lia.
    apply Z.div_mul_cancel_r; apply Z.pow_nonzero; lia.
Qed.

Lemma round53_scale x j :
  0 < x -> 52 <= Z.log2 x -> 0 <= j ->
  round53 (x * 2 ^ j) = round53 x * 2 ^ j.
Proof.
  intros Hx Hlog Hj.
  assert (H2j : 0 < 2 ^ j) by (apply Z.pow_pos_nonneg; lia).
  assert (Hlog' : Z.log2 (x * 2 ^ j) = Z.log2 x + j).
  { rewrite Z.log2_mul_pow2 by lia. lia. }
  rewrite (round53_eq (x * 2 ^ j)) by lia.
  rewrite (round53_eq x) by lia. rewrite Hlog'.
  set (k := Z.log2 x - 52). replace (Z.log2 x + j - 52) with (k + j) by lia.
  assert (Hk : 0 <= k) by lia.
  assert (H2k : 0 < 2 ^ k) by (apply Z.pow_pos_nonneg; lia).
  rewrite Z.pow_add_r by lia.
  assert (Hrhe : round_half_even (x * 2 ^ j) (k + j) = round_half_even x k).
  { unfold round_half_even. rewrite Z.pow_add_r by lia.
    rewrite Z.div_mul_cancel_r by lia.
    rewrite Z.mul_mod_distr_r by lia.
    set (r := x mod 2 ^ k).
    replace (2 * (r * 2 ^ j) <? 2 ^ k * 2 ^ j) with (2 * r <? 2 ^ k).
    2:{ destruct (Z.ltb_spec (2 * r) (2 ^ k));
        destruct (Z.ltb_spec (2 * (r * 2 ^ j)) (2 ^ k * 2 ^ j)); try reflexivity; nia. }
    replace (2 ^ k * 2 ^ j <? 2 * (r * 2 ^ j)) with (2 ^ k <? 2 * r).
    2:{ destruct (Z.ltb_spec (2 ^ k) (2 * r));
        destruct (Z.ltb_spec (2 ^ k * 2 ^ j) (2 * (r * 2 ^ j))); try reflexivity; nia. }
    reflexivity. }
  rewrite Hrhe. lia.
Qed.

Lemma trunc_finite f M E :
  Prim2SF f = S754_finite false M E -> trunc f = dyadic_floor (Z.pos M) E.
Proof. unfold trunc, dyadic_floor. now intros ->. Qed.

(** The product of a binary64 number [m * 2^-53], [2^52 <= m < 2^53], by
    [float(n)], truncated: the arithmetic over [Z] is the library's. *)
Lemma SF_int_mul m n :
  2 ^ 52 <= Z.pos m < 2 ^ 53 ->
  0 < n < 2 ^ 63 ->
  exists M E,
    SF64mul (S754_finite false m (-53)) (binary_normalize prec emax n 0 false)
    = S754_finite false M E
    /\ dyadic_floor (Z.pos M) E = int_mul (Z.pos m) n.
Proof.
  intros Hm Hn.
  destruct (binary_normalize_spec n Hn) as (Mf & Ef & -> & HMf & HEf & Hval).
  unfold SF64mul, SFmul. cbn [xorb]. rewrite Pos2Z.inj_mul.
  set (Y := Z.pos m * Z.pos Mf).
  change (2 ^ 52) with 4503599627370496 in *.
  change (2 ^ 53) with 9007199254740992 in *.
  assert (HY : 0 < Y) by (unfold Y; lia).
  assert (HlogY : 104 <= Z.log2 Y <= 105).
  { split.
    - apply Z.log2_le_pow2; [lia|].
      change (2 ^ 104) with (4503599627370496 * 4503599627370496). unfold Y. nia.
    - apply Z.lt_succ_r, Z.log2_lt_pow2; [lia|].
      change (2 ^ Z.succ 105) with (9007199254740992 * 9007199254740992).
      unfold Y. nia. }
  destruct (binary_round_aux_spec false Y (-53 + Ef) HY) as (M & E & Hr & HE & HM & Hb);
    try lia.
  exists M, E. split; [exact Hr|].
  unfold int_mul, float_of_int.
  (* the value of the product is [round53 Y * 2^(Ef - 53)] *)
  rewrite <- (dyadic_floor_scale (Z.pos M) E (E - (-53 + Ef))) by lia.
  rewrite HM. replace (E - (E - (-53 + Ef))) with (Ef - 53) by lia.
  change (round53 (Z.pos m * round53 n) / 2 ^ 53)
    with (dyadic_floor (round53 (Z.pos m * round53 n)) (-53)).
  destruct Hval as [[HE0 Hrn] | (HE0 & HMfn & Hrn)].
  - rewrite Hrn, Z.mul_assoc. fold Y.
    rewrite round53_scale by lia.
    rewrite <- (dyadic_floor_scale (round53 Y) (Ef - 53) Ef) by lia.
    f_equal. lia.
  - rewrite Hrn. unfold Y. rewrite HMfn, Z.mul_assoc.
    assert (H52 : 52 <= Z.log2 (Z.pos m * n)).
    { apply Z.log2_le_pow2; [lia|]. change (2 ^ 52) with 4503599627370496. nia. }
    rewrite round53_scale by lia. symmetry.
    rewrite <- (dyadic_floor_scale (round53 (Z.pos m * n)) (-53) (- Ef)) by lia.
    f_equal. lia.
Qed.

(** For every length that fits a machine integer, [int_mul] is the product
    computed by the kernel's binary64 multiplication, truncated. *)
Theorem int_mul_is_binary64 c m n :
  Prim2SF c = S754_finite false m (-53) ->
  2 ^ 52 <= Z.pos m < 2 ^ 53 ->
  0 <= n < 2 ^ 63 ->
  prim_int_mul c n = int_mul (Z.pos m) n.
Proof.
  intros Hc Hm Hn. unfold prim_int_mul.
  destruct (Z.eq_dec n 0) as [-> | Hn0].
  - unfold trunc. rewrite mul_spec, Hc. reflexivity.
  - destruct (SF_int_mul m n Hm ltac:(lia)) as (M & E & Hmul & Hfloor).
    rewrite <- Hfloor. apply trunc_finite.
    rewrite mul_spec, of_uint63_spec, Hc.
    rewrite Uint63.of_Z_spec, Z.mod_small by (change Uint63.wB with (2 ^ 63); lia).
    exact Hmul.
Qed.

Corollary split_points_are_binary64 n :
  0 <= n < 2 ^ 63 ->
  prim_int_mul prim_0_7 n = int_mul lit_0_7 n
  /\ prim_int_mul prim_0_9 n = int_mul lit_0_9 n.
Proof.
  intros Hn. split; apply int_mul_is_binary64; try assumption;
    solve [reflexivity | vm_compute; split; [discriminate | reflexivity]].
Qed.

End Binary64Facts.

(** ** Labels, positions and cells *)

Module FrameFacts.

Import Frame.
Local Open Scope nat_scope.

Lemma colname_eqb_eq a b : colname_eqb a b = true <-> a = b.
Proof. apply String.eqb_eq. Qed.

Lemma colname_eqb_refl a : colname_eqb a a = true.
Proof. now apply colname_eqb_eq. Qed.

Lemma colname_eqb_neq a b : a <> b -> colname_eqb a b = false.
Proof.
  intros Hne. destruct (colname_eqb a b) eqn:E; [|reflexivity].
  apply colname_eqb_eq in E. contradiction.
Qed.

(** Comparisons with NaN, one and zero. *)
Lemma nan_eqb x : (nan =? x)%float = false.
Proof. rewrite eqb_spec. reflexivity. Qed.

Lemma eqb_one_not_zero x :
  (x =? one)%float = true -> (x =? zero)%float = false.
Proof.
  rewrite !eqb_spec.
  change (Prim2SF one) with (S754_finite false 4503599627370496 (-52)).
  change (Prim2SF zero) with (S754_zero false).
  destruct (Prim2SF x) as [s | s | | s m e]; unfold SFeqb, SFcompare.
  - destruct s; intros H; discriminate H.
  - destruct s; intros H; discriminate H.
  - intros H; discriminate H.
  - intros _. destruct s; reflexivity.
Qed.

Lemma get_loc_nth_error c hs j :
  get_loc c hs = Some j -> exists h, nth_error hs j = Some h /\ name h = c.
Proof.
  revert j. induction hs as [| h hs IH]; intros j; simpl; [discriminate|].
  destruct (colname_eqb c (name h)) eqn:E.
  - intros [= <-]. exists h. apply colname_eqb_eq in E. auto.
  - destruct (get_loc c hs) as [j' |]; simpl; [|discriminate].
    intros [= <-]. apply (IH j' eq_refl).
Qed.

Lemma get_loc_lt c hs j : get_loc c hs = Some j -> j < length hs.
Proof.
  intros H. apply get_loc_nth_error in H as (h & Hn & _).
  apply nth_error_Some. congruence.
Qed.

Lemma get_loc_inj c c' hs j :
  get_loc c hs = Some j -> get_loc c' hs = Some j -> c = c'.
Proof.
  intros H H'.
  apply get_loc_nth_error in H as (h & Hn & <-).
  apply get_loc_nth_error in H' as (h' & Hn' & <-).
  congruence.
Qed.

Lemma get_loc_In c hs :
  get_loc c hs <> None <-> In c (map name hs).
Proof.
  induction hs as [| h hs IH]; simpl; [tauto|].
  destruct (colname_eqb c (name h)) eqn:E.
  - apply colname_eqb_eq in E. split; [auto | discriminate].
  - assert (name h <> c).
    { intros <-. rewrite colname_eqb_refl in E. discriminate. }
    destruct (get_loc c hs); simpl in *.
    + split; [intros _; right; apply IH; discriminate | discriminate].
    + split; [congruence | intros [? | ?]; [contradiction | tauto]].
Qed.

Lemma get_locs_spec cs hs js :
  get_locs cs hs = Ok js ->
  Forall2 (fun c j => get_loc c hs = Some j) cs js.
Proof.
  revert js. induction cs as [| c cs IH]; intros js; simpl.
  - intros [= <-]. constructor.
  - destruct (get_loc c hs) as [j |] eqn:E; [|discriminate].
    destruct (get_locs cs hs) as [js' | e]; simpl; [|discriminate].
    intros [= <-]. constructor; auto.
Qed.

Lemma get_locs_total cs hs :
  Forall (fun c => get_loc c hs <> None) cs -> exists js, get_locs cs hs = Ok js.
Proof.
  induction 1 as [| c cs Hc _ [js IH]]; simpl; [now exists []|].
  destruct (get_loc c hs) as [j |]; [|contradiction].
  rewrite IH. simpl. now exists (j :: js).
Qed.

Lemma Forall2_locs_In cs js hs j :
  Forall2 (fun c j => get_loc c hs = Some j) cs js ->
  In j js <-> exists c, In c cs /\ get_loc c hs = Some j.
Proof.
  induction 1 as [| c j0 cs js Hc _ IH]; simpl.
  - split; [tauto | intros (c & [] & _)].
  - rewrite IH. split.
    + intros [<- | (c' & Hin & Hl)]; [exists c; auto | exists c'; auto].
    + intros (c' & [<- | Hin] & Hl); [left; congruence | right; exists c'; auto].
Qed.

Lemma Forall2_locs_NoDup cs js hs :
  Forall2 (fun c j => get_loc c hs = Some j) cs js ->
  NoDup cs -> NoDup js.
Proof.
  induction 1 as [| c j cs js Hc HF IH]; intros Hnd; [constructor|].
  inversion Hnd as [| ? ? Hnotin Hnd']; subst.
  constructor; [|auto].
  intros Hin. apply (Forall2_locs_In _ _ _ _ HF) in Hin as (c' & Hin & Hl).
  assert (c = c') by (eapply get_loc_inj; eauto). subst. contradiction.
Qed.

(** Membership of a position among those of the labels [cs]. *)
Lemma locs_existsb cs js hs c j :
  Forall2 (fun c j => get_loc c hs = Some j) cs js ->
  get_loc c hs = Some j ->
  existsb (Nat.eqb j) js = existsb (colname_eqb c) cs.
Proof.
  intros HF Hc.
  destruct (existsb (colname_eqb c) cs) eqn:E.
  - apply existsb_exists in E as (c' & Hin & Heq).
    apply colname_eqb_eq in Heq. subst c'.
    apply existsb_exists. exists j. split; [|apply Nat.eqb_refl].
    apply (Forall2_locs_In _ _ _ _ HF). eauto.
  - destruct (existsb (Nat.eqb j) js) eqn:E'; [|reflexivity].
    apply existsb_exists in E' as (j' & Hin & Heq).
    apply Nat.eqb_eq in Heq. subst j'.
    apply (Forall2_locs_In _ _ _ _ HF) in Hin as (c' & Hin & Hl).
    assert (c = c') by (eapply get_loc_inj; eauto). subst c'.
    assert (existsb (colname_eqb c) cs = true); [|congruence].
    apply existsb_exists. exists c. split; [auto | apply colname_eqb_refl].
Qed.

Lemma select_map {A} (f : A -> bool) l : select (map f l) l = filter f l.
Proof.
  induction l as [| x l IH]; simpl; [reflexivity|].
  rewrite IH. reflexivity.
Qed.

Lemma nth_replace_at j j' old new xs :
  nth j' (replace_at j old new xs) nan =
  if (j' =? j) && (nth j xs nan =? old)%float then new else nth j' xs nan.
Proof.
  revert j j'. induction xs as [| x xs IH]; intros j j'; simpl.
  - destruct j, j'; simpl; rewrite ?nan_eqb, ?andb_false_r; reflexivity.
  - destruct j as [| j], j' as [| j']; simpl; try reflexivity.
    apply IH.
Qed.

Lemma cell_replace_row j j' old new r :
  cell j' (replace_row j old new r) =
  if (j' =? j) && (cell j r =? old)%float then new else cell j' r.
Proof. unfold cell, replace_row. simpl. apply nth_replace_at. Qed.

Lemma column_values_replace_other j j' old new rs :
  j' <> j ->
  column_values j' (map (replace_row j old new) rs) = column_values j' rs.
Proof.
  intros Hne. unfold column_values. rewrite map_map.
  apply map_ext. intros r. rewrite cell_replace_row.
  apply Nat.eqb_neq in Hne. now rewrite Hne.
Qed.

(** [np.median] on a few arrays. *)
Example np_median_examples :
  np_median [1; 3; 2]%float = 2%float
  /\ np_median [4; 1; 3; 2]%float = 2.5%float
  /\ np_median [0; 0; 168]%float = 0%float
  /\ np_median [] = nan
  /\ np_median [1; nan; 2]%float = nan
  /\ np_median [neg_zero] = zero
  /\ np_median [neg_zero; neg_zero] = zero.
Proof. repeat split; reflexivity. Qed.

End FrameFacts.

(** ** Equality of binary64 numbers, and the categories of a column *)

Module CategoryFacts.

Import Frame FrameFacts.
Local Open Scope nat_scope.

Lemma SFeqb_true x y :
  SFeqb x y = true ->
  match x, y with
  | S754_zero _, S754_zero _ => True
  | S754_infinity s, S754_infinity t => s = t
  | S754_finite s m e, S754_finite t n f => s = t /\ m = n /\ e = f
  | _, _ => False
  end.
Proof.
  unfold SFeqb, SFcompare.
  destruct x as [s | s | | s m e], y as [t | t | | t n f];
    try discriminate; try (destruct s; discriminate); try (destruct t; discriminate);
    auto.
  - destruct s, t; try discriminate; reflexivity.
  - pose proof (Pos.compare_eq m n) as Hmn. unfold Pos.compare in Hmn.
    destruct s, t; try discriminate;
      destruct (Z.compare_spec e f) as [-> | |]; try discriminate;
      destruct (Pos.compare_cont Eq m n); try discriminate;
      rewrite Hmn by reflexivity; auto.
Qed.


Lemma SFeqb_sym x y : SFeqb x y = true -> SFeqb y x = true.
Proof.
  intros H. pose proof (SFeqb_true x y H) as Hc.
  destruct x as [s | s | | s m e], y as [t | t | | t n f]; try contradiction.
  - reflexivity.
  - subst. exact H.
  - destruct Hc as (-> & -> & ->). exact H.
Qed.

Lemma SFeqb_trans x y z : SFeqb x y = true -> SFeqb y z = true -> SFeqb x z = true.
Proof.
  intros H1 H2. pose proof (SFeqb_true x y H1) as Hc.
  destruct x as [s | s | | s m e], y as [t | t | | t n f]; try contradiction.
  - pose proof (SFeqb_true _ _ H2) as Hc2.
    destruct z; try contradiction; reflexivity.
  - subst. exact H2.
  - destruct Hc as (-> & -> & ->). exact H2.
Qed.

Lemma eqb_refl x : is_nan x = false -> (x =? x)%float = true.
Proof. unfold is_nan. now intros H%negb_false_iff. Qed.

Lemma eqb_sym x y : (x =? y)%float = true -> (y =? x)%float = true.
Proof. rewrite !eqb_spec. apply SFeqb_sym. Qed.

Lemma eqb_trans x y z :
  (x =? y)%float = true -> (y =? z)%float = true -> (x =? z)%float = true.
Proof. rewrite !eqb_spec. apply SFeqb_trans. Qed.

Lemma eqb_false_sym x y : (x =? y)%float = false -> (y =? x)%float = false.
Proof.
  intros H. destruct (y =? x)%float eqn:E; [|reflexivity].
  apply eqb_sym in E. congruence.
Qed.

(** Only [1.0] compares equal to [1.0]. *)
Lemma eqb_one_eq x : (x =? one)%float = true -> x = one.
Proof.
  rewrite eqb_spec. intros H. apply SFeqb_true in H.
  apply Prim2SF_inj.
  change (Prim2SF one) with (S754_finite false 4503599627370496 (-52)) in *.
  destruct (Prim2SF x) as [s | s | | s m e]; try contradiction.
  now destruct H as (-> & -> & ->).
Qed.

Lemma In_insert_sorted x y l : In y (insert_sorted x l) <-> y = x \/ In y l.
Proof.
  induction l as [| z l IH]; simpl; [intuition|].
  destruct (x <=? z)%float; simpl; [intuition|]. rewrite IH. intuition.
Qed.

Lemma In_sort y l : In y (sort l) <-> In y l.
Proof.
  unfold sort. induction l as [| x l IH]; simpl; [tauto|].
  rewrite In_insert_sorted, IH. intuition.
Qed.

Lemma length_insert_sorted x l : length (insert_sorted x l) = S (length l).
Proof.
  induction l as [| z l IH]; simpl; [reflexivity|].
  destruct (x <=? z)%float; simpl; [reflexivity | now rewrite IH].
Qed.

Lemma In_dedupe_incl y l : In y (dedupe l) -> In y l.
Proof.
  revert y. induction l as [| x l IH]; intros y; simpl; [tauto|].
  intros [<- | H]; [auto|]. apply filter_In in H as [H _]. auto.
Qed.

(** Every value that is not NaN has a representative among the distinct
    values. *)
Lemma dedupe_covers l x :
  In x l -> is_nan x = false ->
  exists v, In v (dedupe l) /\ (x =? v)%float = true.
Proof.
  induction l as [| a l IH]; simpl; [tauto|].
  intros [-> | Hin] Hx.
  - exists x. split; [auto | now apply eqb_refl].
  - destruct (IH Hin Hx) as (v & Hv & Hxv).
    destruct (v =? a)%float eqn:E.
    + exists a. split; [auto | eapply eqb_trans; eauto].
    + exists v. split; [|exact Hxv]. right. apply filter_In. now rewrite E.
Qed.

(** Two distinct values never compare equal. *)
Lemma dedupe_distinct l v w :
  In v (dedupe l) -> In w (dedupe l) -> (v =? w)%float = true -> v = w.
Proof.
  revert v w. induction l as [| a l IH]; intros v w; simpl; [tauto|].
  intros [<- | Hv] [<- | Hw] E; try reflexivity.
  - apply filter_In in Hw as [_ Hw]. apply negb_true_iff in Hw.
    apply eqb_sym in E. congruence.
  - apply filter_In in Hv as [_ Hv]. apply negb_true_iff in Hv. congruence.
  - apply filter_In in Hv as [Hv _]. apply filter_In in Hw as [Hw _]. auto.
Qed.

(** A value of the column that is not NaN belongs to exactly one category. *)
Lemma categories_one_hot xs x :
  In x xs -> is_nan x = false ->
  exists v,
    In v (categories xs)
    /\ (x =? v)%float = true
    /\ forall w, In w (categories xs) -> (x =? w)%float = true -> w = v.
Proof.
  intros Hin Hx. unfold categories.
  destruct (dedupe_covers (filter (fun y => negb (is_nan y)) xs) x) as (v & Hv & Hxv);
    [apply filter_In; now rewrite Hx | exact Hx |].
  exists v. split; [now apply In_sort|]. split; [exact Hxv|].
  intros w Hw Hxw. apply (proj1 (In_sort _ _)) in Hw.
  apply (dedupe_distinct _ w v Hw Hv).
  eapply eqb_trans; [apply eqb_sym; exact Hxw | exact Hxv].
Qed.

Lemma categories_incl xs v : In v (categories xs) -> In v xs.
Proof.
  unfold categories. intros H. apply (proj1 (In_sort _ _)) in H.
  apply In_dedupe_incl in H. now apply filter_In in H.
Qed.

Lemma Permutation_insert_sorted x l : Permutation (insert_sorted x l) (x :: l).
Proof.
  induction l as [| y l IH]; simpl; [reflexivity|].
  destruct (x <=? y)%float; [reflexivity|].
  rewrite IH. apply perm_swap.
Qed.

Lemma Permutation_sort l : Permutation (sort l) l.
Proof.
  unfold sort. induction l as [| x l IH]; simpl; [reflexivity|].
  rewrite Permutation_insert_sorted. now constructor.
Qed.

End CategoryFacts.

(** ** The median *)

Module MedianFacts.

Import Binary64 Binary64Facts Frame Notebook FrameFacts CategoryFacts.
Local Open Scope nat_scope.



(** *** The order of binary64 numbers is total away from NaN *)



(** *** Insertion sort sorts *)





(** *** Dividing by [1.0] changes nothing *)

Local Open Scope Z_scope.






Local Open Scope nat_scope.

(** *** What [np.median] returns is the median *)








End MedianFacts.

(** ** The imputation cell *)

Module ImputeFacts.

Import Frame Notebook FrameFacts MedianFacts.
Local Open Scope nat_scope.

Lemma columnsToImpute_NoDup : NoDup columnsToImpute.
Proof.
  unfold columnsToImpute.
  repeat (constructor; [simpl; intuition discriminate|]).
  constructor.
Qed.

Lemma Outcome_not_imputed : is_imputed Outcome = false.
Proof. reflexivity. Qed.

Lemma getitem_Ok df c s :
  getitem df c = Ok s ->
  exists j, get_loc c (columns df) = Some j /\ values s = column_values j (rows df).
Proof.
  unfold getitem. destruct (get_loc c (columns df)) as [j |]; [|discriminate].
  intros [= <-]. exists j. auto.
Qed.

(** The loop treats its two frames independently of each other. *)
Lemma impute_loop_frames {P : Pandas} cs df1 df2 d1 d2 :
  impute_loop cs df1 df2 = Ok (d1, d2) <->
  impute_frame cs df1 = Ok d1 /\ impute_frame cs df2 = Ok d2.
Proof.
  revert df1 df2. induction cs as [| c cs IH]; intros df1 df2; simpl.
  - split; [intros [= -> ->]; auto | intros [[= ->] [= ->]]; reflexivity].
  - destruct (getitem df1 c) as [s1 | e1]; simpl.
    + destruct (getitem df2 c) as [s2 | e2]; simpl; [apply IH|].
      split; [discriminate | intros [_ H]; discriminate H].
    + split; [discriminate | intros [H _]; discriminate H].
Qed.

Lemma map_name_retype j f hs : map name (retype j f hs) = map name hs.
Proof.
  revert j. induction hs as [| h hs IH]; intros [| j]; simpl; try reflexivity.
  now rewrite IH.
Qed.

(** Looking a label up reads the labels only. *)
Lemma get_loc_names c hs hs' :
  map name hs = map name hs' -> get_loc c hs = get_loc c hs'.
Proof.
  revert hs'. induction hs as [| h hs IH]; intros [| h' hs']; simpl;
    try discriminate; [reflexivity|].
  intros [= -> Ht]. now rewrite (IH hs' Ht).
Qed.

Lemma get_locs_names cs hs hs' :
  map name hs = map name hs' -> get_locs cs hs = get_locs cs hs'.
Proof.
  intros H. induction cs as [| c cs IH]; simpl; [reflexivity|].
  now rewrite (get_loc_names c hs hs' H), IH.
Qed.

Lemma nth_error_retype j f hs i :
  i <> j -> nth_error (retype j f hs) i = nth_error hs i.
Proof.
  revert j i. induction hs as [| h hs IH]; intros [| j] [| i] Hne; simpl;
    try reflexivity; [contradiction|].
  apply IH. congruence.
Qed.

(** The loop on one frame: the labels stay, the columns that are not
    imputed keep their header, and the rows are imputed position by
    position. *)
Lemma impute_frame_rows {P : Pandas} cs df d :
  impute_frame cs df = Ok d ->
  exists js, get_locs cs (columns df) = Ok js
             /\ map name (columns d) = map name (columns df)
             /\ (forall i, ~ In i js ->
                   nth_error (columns d) i = nth_error (columns df) i)
             /\ rows d = impute_rows js (rows df).
Proof.
  revert df. induction cs as [| c cs IH]; intros df; simpl.
  - intros [= <-]. exists []. auto.
  - unfold getitem, replace.
    destruct (get_loc c (columns df)) as [j |] eqn:Ej; simpl; [|discriminate].
    intros H. apply IH in H as (js & Hjs & Hc & Hk & Hr). cbn [columns rows] in *.
    rewrite (get_locs_names cs _ (columns df) (map_name_retype _ _ _)) in Hjs.
    exists (j :: js). rewrite Hjs. cbn [bind].
    split; [reflexivity|]. split; [now rewrite Hc, map_name_retype|].
    split; [|exact Hr].
    intros i Hi. rewrite Hk by (intros Hin; apply Hi; now right).
    apply nth_error_retype. intros ->. apply Hi. now left.
Qed.

Lemma impute_frame_total {P : Pandas} cs df :
  Forall (fun c => get_loc c (columns df) <> None) cs ->
  exists d, impute_frame cs df = Ok d.
Proof.
  revert df. induction cs as [| c cs IH]; intros df Hall; simpl.
  - now exists df.
  - inversion Hall as [| ? ? Hc Hcs]; subst.
    unfold getitem, replace.
    destruct (get_loc c (columns df)) as [j |] eqn:Ej; [|contradiction].
    cbn [bind values]. apply IH. cbn [columns].
    eapply Forall_impl; [|exact Hcs]. intros c' Hc'. cbn beta in *.
    now rewrite (get_loc_names c' _ (columns df) (map_name_retype _ _ _)).
Qed.

Lemma impute_row_ext js rs rs' r :
  (forall j, In j js -> column_values j rs = column_values j rs') ->
  impute_row js rs r = impute_row js rs' r.
Proof.
  revert r. induction js as [| j js IH]; intros r Hcv; simpl; [reflexivity|].
  rewrite (Hcv j (or_introl eq_refl)). apply IH.
  intros j' Hin. apply Hcv. now right.
Qed.

(** With distinct positions, every iteration computes its median on values
    that the earlier iterations left alone: the loop maps one function over
    the rows it started from. *)
Lemma impute_rows_map js rs :
  NoDup js -> impute_rows js rs = map (impute_row js rs) rs.
Proof.
  revert rs. induction js as [| j js IH]; intros rs Hnd; simpl.
  - now rewrite map_id.
  - inversion Hnd as [| ? ? Hnotin Hnd']; subst.
    unfold impute_rows in *. rewrite IH by assumption.
    unfold impute_step. rewrite map_map. apply map_ext. intros r.
    apply impute_row_ext. intros j' Hin.
    apply column_values_replace_other. intros ->. contradiction.
Qed.

Lemma label_impute_row js rs r : label (impute_row js rs r) = label r.
Proof.
  revert r. induction js as [| j js IH]; intros r; simpl; [reflexivity|].
  now rewrite IH.
Qed.

Lemma cell_impute_row js rs r j :
  NoDup js ->
  cell j (impute_row js rs r) =
  if existsb (Nat.eqb j) js && (cell j r =? zero)%float
  then np_median (column_values j rs) else cell j r.
Proof.
  revert r. induction js as [| j0 js IH]; intros r Hnd; simpl; [reflexivity|].
  inversion Hnd as [| ? ? Hnotin Hnd']; subst.
  rewrite IH by assumption. rewrite cell_replace_row.
  destruct (Nat.eqb_spec j j0) as [-> | Hne]; simpl.
  - assert (Hex : existsb (Nat.eqb j0) js = false).
    { destruct (existsb (Nat.eqb j0) js) eqn:E; [|reflexivity].
      apply existsb_exists in E as (x & Hin & Hx).
      apply Nat.eqb_eq in Hx. subst. contradiction. }
    rewrite Hex. simpl.
    destruct (cell j0 r =? zero)%float; reflexivity.
  - reflexivity.
Qed.

Lemma loc_eq_scalar data jo h v :
  loc data (eq_scalar (mkSeries h (column_values jo (rows data))) v)
  = mkFrame (columns data) (class_rows jo v (rows data)).
Proof.
  unfold loc, eq_scalar, column_values, class_rows. simpl.
  rewrite map_map.
  now rewrite (select_map (fun r => (cell jo r =? v)%float)).
Qed.

Lemma dtype_eqb_refl t : dtype_eqb t t = true.
Proof. now destruct t as [[] | []]. Qed.

Lemma map_name_common_headers {P : Pandas} hs hs' :
  map name (common_headers hs hs') = map name hs.
Proof.
  revert hs'. induction hs as [| h hs IH]; intros [| h' hs']; simpl;
    try reflexivity.
  rewrite IH. f_equal. unfold common. now destruct (dtype_eqb (kind h) (kind h')).
Qed.

Lemma nth_error_common_headers {P : Pandas} hs hs' i :
  nth_error hs' i = nth_error hs i ->
  nth_error (common_headers hs hs') i = nth_error hs i.
Proof.
  revert hs' i. induction hs as [| h hs IH]; intros [| h' hs'] [| i]; simpl;
    try reflexivity; try discriminate.
  - intros [= ->]. unfold common. now rewrite dtype_eqb_refl.
  - apply IH.
Qed.

(** The rows of the frame the cell builds: the rows of class 1, imputed
    with the medians of class 1, then the rows of class 0, imputed with the
    medians of class 0.  The labels are those of the table, and a column
    that is not imputed keeps its header. *)
Lemma impute_cell_rows {P : Pandas} data out jo :
  impute_cell data = Ok out ->
  get_loc Outcome (columns data) = Some jo ->
  exists js,
    Forall2 (fun c j => get_loc c (columns data) = Some j) columnsToImpute js
    /\ NoDup js
    /\ map name (columns out) = map name (columns data)
    /\ (forall i, ~ In i js ->
          nth_error (columns out) i = nth_error (columns data) i)
    /\ rows out =
         map (impute_row js (class_rows jo one (rows data)))
             (class_rows jo one (rows data))
         ++ map (impute_row js (class_rows jo zero (rows data)))
                (class_rows jo zero (rows data)).
Proof.
  unfold impute_cell, getitem. intros H Hjo. rewrite Hjo in H.
  cbn [bind] in H. rewrite !loc_eq_scalar in H.
  destruct (impute_loop _ _ _) as [[d1 d2] | e] eqn:Eloop;
    cbn [bind fst snd] in H; [|discriminate].
  injection H as <-.
  apply impute_loop_frames in Eloop as [E1 E2].
  apply impute_frame_rows in E1 as (js1 & Hjs1 & Hc1 & Hk1 & Hr1).
  apply impute_frame_rows in E2 as (js2 & Hjs2 & Hc2 & Hk2 & Hr2).
  cbn [columns rows] in *. rewrite Hjs1 in Hjs2. injection Hjs2 as <-.
  apply get_locs_spec in Hjs1.
  assert (Hnd : NoDup js1).
  { eapply Forall2_locs_NoDup; [exact Hjs1 | apply columnsToImpute_NoDup]. }
  exists js1. unfold concat. cbn [columns rows].
  split; [exact Hjs1|]. split; [exact Hnd|].
  split; [now rewrite map_name_common_headers|].
  split.
  - intros i Hi. rewrite nth_error_common_headers; [now apply Hk1|].
    now rewrite Hk1, Hk2.
  - rewrite Hr1, Hr2, !impute_rows_map by assumption. reflexivity.
Qed.

(** A row is in exactly one class at most. *)
Lemma in_class_exclusive jo r :
  in_class jo one r = true -> in_class jo zero r = false.
Proof. apply eqb_one_not_zero. Qed.

Lemma cell_outcome_kept js rs r jo hs :
  Forall2 (fun c j => get_loc c hs = Some j) columnsToImpute js ->
  NoDup js ->
  get_loc Outcome hs = Some jo ->
  cell jo (impute_row js rs r) = cell jo r.
Proof.
  intros HF Hnd Hjo. rewrite cell_impute_row by assumption.
  rewrite (locs_existsb _ _ _ _ _ HF Hjo).
  fold (is_imputed Outcome). rewrite Outcome_not_imputed. reflexivity.
Qed.

Lemma in_class_impute_row js rs r jo hs k :
  Forall2 (fun c j => get_loc c hs = Some j) columnsToImpute js ->
  NoDup js ->
  get_loc Outcome hs = Some jo ->
  in_class jo k (impute_row js rs r) = in_class jo k r.
Proof.
  intros HF Hnd Hjo. unfold in_class.
  now rewrite (cell_outcome_kept _ _ _ _ _ HF Hnd Hjo).
Qed.

Lemma class_rows_in_class jo k rs :
  Forall (fun r => in_class jo k r = true) (class_rows jo k rs).
Proof.
  apply Forall_forall. intros r Hin. now apply filter_In in Hin.
Qed.

(** Rows of class 1, rows of class 0 and rows of neither class add up. *)
Lemma class_count jo rs :
  length (class_rows jo one rs) + length (class_rows jo zero rs)
  + length (filter (fun r => negb (binary jo r)) rs) = length rs.
Proof.
  unfold class_rows, binary.
  induction rs as [| r rs IH]; simpl; [reflexivity|].
  destruct (in_class jo one r) eqn:E1.
  - rewrite (in_class_exclusive _ _ E1). simpl. lia.
  - destruct (in_class jo zero r); simpl; lia.
Qed.

Lemma no_other_class_iff jo rs :
  length (filter (fun r => negb (binary jo r)) rs) = 0
  <-> Forall (fun r => binary jo r = true) rs.
Proof.
  induction rs as [| r rs IH]; simpl.
  - split; [constructor | reflexivity].
  - destruct (binary jo r) eqn:E; simpl.
    + rewrite IH. split; [now constructor | now inversion 1].
    + split; [discriminate | inversion 1; congruence].
Qed.



(** C8. In the result of the imputation cell every row whose Outcome is 1
    comes before every row whose Outcome is 0, whatever the order of the
    rows in the table: the result is the rows of class 1, in their order,
    followed by the rows of class 0, in their order. *)
Theorem impute_puts_class_1_first {P : Pandas} data out jo :
  impute_cell data = Ok out ->
  get_loc Outcome (columns data) = Some jo ->
  (exists ones zeros,
      rows out = ones ++ zeros
      /\ Forall (fun r => in_class jo one r = true) ones
      /\ Forall (fun r => in_class jo zero r = true) zeros
      /\ map label ones = map label (class_rows jo one (rows data))
      /\ map label zeros = map label (class_rows jo zero (rows data)))
  /\ forall i i' r r',
      nth_error (rows out) i = Some r ->
      nth_error (rows out) i' = Some r' ->
      in_class jo one r = true ->
      in_class jo zero r' = true ->
      i < i'.
Proof.
  intros Hout Hjo.
  destruct (impute_cell_rows _ _ _ Hout Hjo) as (js & HF & Hnd & _ & _ & Hrows).
  set (ones := map (impute_row js (class_rows jo one (rows data)))
                   (class_rows jo one (rows data))) in *.
  set (zeros := map (impute_row js (class_rows jo zero (rows data)))
                    (class_rows jo zero (rows data))) in *.
  assert (H1 : Forall (fun r => in_class jo one r = true) ones).
  { apply Forall_map. eapply Forall_impl; [|apply class_rows_in_class].
    intros r Hr. cbn beta.
    now rewrite (in_class_impute_row _ _ _ _ _ _ HF Hnd Hjo). }
  assert (H0 : Forall (fun r => in_class jo zero r = true) zeros).
  { apply Forall_map. eapply Forall_impl; [|apply class_rows_in_class].
    intros r Hr. cbn beta.
    now rewrite (in_class_impute_row _ _ _ _ _ _ HF Hnd Hjo). }
  split.
  - exists ones, zeros. repeat split; try assumption.
    + unfold ones. rewrite map_map. apply map_ext. intros r. apply label_impute_row.
    + unfold zeros. rewrite map_map. apply map_ext. intros r. apply label_impute_row.
  - intros i i' r r' Hi Hi' Hr Hr'. rewrite Hrows in Hi, Hi'.
    rewrite Forall_forall in H1, H0.
    destruct (Nat.lt_ge_cases i (length ones)) as [Hlt | Hge].
    + destruct (Nat.lt_ge_cases i' (length ones)) as [Hlt' | Hge']; [|lia].
      rewrite nth_error_app1 in Hi' by assumption.
      apply nth_error_In, H1 in Hi'.
      rewrite (in_class_exclusive _ _ Hi') in Hr'. discriminate.
    + rewrite nth_error_app2 in Hi by assumption.
      apply nth_error_In, H0 in Hi.
      rewrite (in_class_exclusive _ _ Hr) in Hi. discriminate.
Qed.

Lemma impute_puts_class_1_first_witness :
  (exists ones zeros,
      rows imputed_sample = ones ++ zeros
      /\ Forall (fun r => in_class 8 one r = true) ones
      /\ Forall (fun r => in_class 8 zero r = true) zeros
      /\ map label ones = map label (class_rows 8 one (rows sample_table))
      /\ map label zeros = map label (class_rows 8 zero (rows sample_table)))
  /\ forall i i' r r',
      nth_error (rows imputed_sample) i = Some r ->
      nth_error (rows imputed_sample) i' = Some r' ->
      in_class 8 one r = true ->
      in_class 8 zero r' = true ->
      i < i'.
Proof.
  apply (impute_puts_class_1_first (P := sample_pandas) sample_table imputed_sample 8).
  - vm_compute. reflexivity.
  - reflexivity.
Defined.

(** C9. The result of the imputation cell holds the rows whose Outcome is 1
    or 0 and no other: a row whose Outcome is neither is dropped, without an
    error.  The result has as many rows as the table exactly when every
    Outcome of the table is 0 or 1. *)
Theorem impute_drops_rows_of_no_class {P : Pandas} data out jo :
  impute_cell data = Ok out ->
  get_loc Outcome (columns data) = Some jo ->
  Forall (fun r => binary jo r = true) (rows out)
  /\ map label (rows out)
     = map label (class_rows jo one (rows data))
       ++ map label (class_rows jo zero (rows data))
  /\ length (rows out) + length (filter (fun r => negb (binary jo r)) (rows data))
     = length (rows data)
  /\ (length (rows out) = length (rows data)
      <-> Forall (fun r => binary jo r = true) (rows data)).
Proof.
  intros Hout Hjo.
  destruct (impute_cell_rows _ _ _ Hout Hjo) as (js & HF & Hnd & _ & _ & Hrows).
  pose proof (class_count jo (rows data)) as Hcount.
  assert (Hlen : length (rows out)
                 = length (class_rows jo one (rows data))
                   + length (class_rows jo zero (rows data))).
  { rewrite Hrows, length_app, !length_map. reflexivity. }
  split; [|split; [|split]].
  - rewrite Hrows. apply Forall_app. split; apply Forall_map;
      (eapply Forall_impl; [|apply class_rows_in_class]);
      intros r Hr; cbn beta; unfold binary;
      rewrite !(in_class_impute_row _ _ _ _ _ _ HF Hnd Hjo), Hr;
      [reflexivity | apply orb_true_r].
  - rewrite Hrows, map_app, !map_map. f_equal; apply map_ext; intros r;
      apply label_impute_row.
  - lia.
  - rewrite <- no_other_class_iff. lia.
Qed.

Lemma impute_drops_rows_of_no_class_witness :
  Forall (fun r => binary 8 r = true) (rows imputed_sample)
  /\ map label (rows imputed_sample)
     = map label (class_rows 8 one (rows sample_table))
       ++ map label (class_rows 8 zero (rows sample_table))
  /\ length (rows imputed_sample)
     + length (filter (fun r => negb (binary 8 r)) (rows sample_table))
     = length (rows sample_table)
  /\ (length (rows imputed_sample) = length (rows sample_table)
      <-> Forall (fun r => binary 8 r = true) (rows sample_table)).
Proof.
  apply (impute_drops_rows_of_no_class (P := sample_pandas) sample_table imputed_sample 8).
  - vm_compute. reflexivity.
  - reflexivity.
Defined.

(** A table with a row whose Outcome is 2: the row is dropped. *)
Example impute_drops_outcome_2 :
  option_map (fun d => map label (rows d))
    (match impute_cell (P := sample_pandas)
             (mkFrame diabetes_columns
                [ mkRow 0 [6; 148; 72; 35; 0; 33.5; 0.625; 50; 1]%float;
                  mkRow 1 [1; 85; 66; 29; 0; 26.5; 0.375; 31; 2]%float;
                  mkRow 2 [1; 89; 66; 23; 94; 28.125; 0.125; 21; 0]%float ])
     with Ok d => Some d | Raise _ => None end)
  = Some [0; 2].
Proof. vm_compute. reflexivity. Qed.

(** On the sample table: row 2 has Outcome 1 and no SkinThickness; the
    class-1 median of SkinThickness is 35.  Its Insulin is 0 too, and stays
    0, the class-1 median of Insulin being 0. *)
Example impute_sample_row_2 :
  map cells (filter (fun r => Nat.eqb (label r) 2) (rows imputed_sample))
  = [[8; 183; 64; 35; 0; 23.25; 0.75; 32; 1]%float].
Proof. vm_compute. reflexivity. Qed.

End ImputeFacts.

(** ** The split cell *)

Module SplitFacts.

Import Frame Notebook FrameFacts.
Local Open Scope nat_scope.

Lemma flat_map_pick_shift {A} (x : A) l s :
  flat_map (pick (x :: l)) (map S s) = flat_map (pick l) s.
Proof.
  induction s as [| i s IH]; simpl; [reflexivity|].
  now rewrite IH.
Qed.

(** Taking the positions [0 .. n-1] in order gives the list back. *)
Lemma flat_map_pick_seq {A} (l : list A) :
  flat_map (pick l) (seq 0 (length l)) = l.
Proof.
  induction l as [| x l IH]; simpl; [reflexivity|].
  rewrite <- seq_shift, flat_map_pick_shift, IH. reflexivity.
Qed.

Lemma take_Permutation p df :
  Permutation p (seq 0 (length (rows df))) ->
  Permutation (rows (take p df)) (rows df).
Proof.
  intros Hp. unfold take. cbn [rows].
  change (fun i => match nth_error (rows df) i with
                   | Some r => [r]
                   | None => []
                   end) with (pick (rows df)).
  rewrite (Permutation_flat_map (pick (rows df)) Hp).
  now rewrite flat_map_pick_seq.
Qed.

Lemma slices_cover {A} (l : list A) a b :
  a <= b ->
  slice 0 a l ++ slice a b l ++ slice b (length l) l = l.
Proof.
  intros Hab. unfold slice. rewrite Nat.sub_0_r. cbn [skipn].
  rewrite (firstn_all2 (n := length l - b)) by (rewrite length_skipn; lia).
  replace (skipn b l) with (skipn (b - a) (skipn a l))
    by (rewrite skipn_skipn; f_equal; lia).
  now rewrite firstn_skipn, firstn_skipn.
Qed.

Lemma split_points_ordered n :
  split_point_70 n <= split_point_90 n /\ split_point_90 n <= n.
Proof.
  unfold split_point_70, split_point_90.
  pose proof (Binary64Facts.int_mul_0_7_le_0_9 (Z.of_nat n) ltac:(lia)).
  pose proof (Binary64Facts.int_mul_0_9_le (Z.of_nat n) ltac:(lia)).
  split; lia.
Qed.

(** Up to [2^63] rows the split points are the ones numpy's binary64
    arithmetic gives. *)
Lemma split_points_binary64 n :
  (Z.of_nat n < 2 ^ 63)%Z ->
  split_point_70 n
  = Z.to_nat (Binary64.prim_int_mul Binary64.prim_0_7 (Z.of_nat n))
  /\ split_point_90 n
     = Z.to_nat (Binary64.prim_int_mul Binary64.prim_0_9 (Z.of_nat n)).
Proof.
  intros Hn. unfold split_point_70, split_point_90.
  destruct (Binary64Facts.split_points_are_binary64 (Z.of_nat n)
              (conj (Nat2Z.is_nonneg n) Hn)) as [-> ->].
  split; reflexivity.
Qed.

Lemma split_cell_Ok G ambient model_data :
  let n := length (rows model_data) in
  let shuffled := take (fst (permutation G (seeded G 1729%Z) n)) model_data in
  fst (split_cell G ambient model_data)
  = Ok (mkSplits
          (mkFrame (columns model_data)
             (slice 0 (split_point_70 n) (rows shuffled)))
          (mkFrame (columns model_data)
             (slice (split_point_70 n) (split_point_90 n) (rows shuffled)))
          (mkFrame (columns model_data)
             (slice (split_point_90 n) (length (rows shuffled)) (rows shuffled)))).
Proof. reflexivity. Qed.

Lemma reversing_ok g n :
  Permutation (fst (permutation reversing g n)) (seq 0 n).
Proof. simpl. apply Permutation_sym, Permutation_rev. Qed.

Section Shuffle.

Variable G : Generator.
Hypothesis permutation_ok :
  forall g n, Permutation (fst (permutation G g n)) (seq 0 n).

Lemma shuffled_Permutation s df :
  Permutation
    (rows (take (fst (permutation G (seeded G s) (length (rows df)))) df))
    (rows df).
Proof. apply take_Permutation, permutation_ok. Qed.

(** C2. The split cell never raises, and the rows of its three frames,
    taken together, are the rows of [model_data], each as many times as it
    occurs there: none is lost, none is duplicated. *)
Theorem split_partitions_rows (ambient : rng_state G) model_data :
  exists s,
    fst (split_cell G ambient model_data) = Ok s
    /\ Permutation
         (rows (train_data s) ++ rows (validation_data s) ++ rows (test_data s))
         (rows model_data)
    /\ columns (train_data s) = columns model_data
    /\ columns (validation_data s) = columns model_data
    /\ columns (test_data s) = columns model_data.
Proof.
  eexists. split; [apply split_cell_Ok|]. cbn [train_data validation_data test_data rows columns].
  split; [|auto].
  rewrite slices_cover by apply split_points_ordered.
  apply shuffled_Permutation.
Qed.

(** C3 (as the code has it). The split cell reorders the rows with a
    generator seeded with 1729, whatever numpy's global generator holds, and
    cuts the reordered rows in three contiguous ranges: the first
    [int(0.7 * n)] rows, the next [int(0.9 * n) - int(0.7 * n)] rows and the
    [n - int(0.9 * n)] remaining ones, the products being binary64 products.
    Below [2^51] rows [int(0.7 * n)] is [floor(7n/10)] or one less. *)
Theorem split_is_shuffle_then_slices (ambient : rng_state G) model_data :
  let n := length (rows model_data) in
  let shuffled := take (fst (permutation G (seeded G 1729%Z) n)) model_data in
  let a := split_point_70 n in
  let b := split_point_90 n in
  exists s,
    fst (split_cell G ambient model_data) = Ok s
    /\ Permutation (rows shuffled) (rows model_data)
    /\ rows (train_data s) = firstn a (rows shuffled)
    /\ rows (validation_data s) = firstn (b - a) (skipn a (rows shuffled))
    /\ rows (test_data s) = skipn b (rows shuffled)
    /\ length (rows (train_data s)) = a
    /\ length (rows (validation_data s)) = b - a
    /\ length (rows (test_data s)) = n - b
    /\ a <= b <= n
    /\ ((Z.of_nat n <= 2 ^ 51)%Z ->
        (7 * Z.of_nat n / 10 - 1 <= Z.of_nat a <= 7 * Z.of_nat n / 10)%Z).
Proof.
  intros n shuffled a b.
  pose proof (split_points_ordered n) as [Hab Hbn]. fold a b in Hab, Hbn.
  pose proof (shuffled_Permutation 1729%Z model_data) as Hperm.
  fold n shuffled in Hperm.
  assert (Hlen : length (rows shuffled) = n) by apply (Permutation_length Hperm).
  eexists. split; [apply split_cell_Ok|].
  cbn [train_data validation_data test_data rows columns].
  fold n shuffled a b. unfold slice. rewrite Nat.sub_0_r. cbn [skipn].
  assert (Hlast : firstn (length (rows shuffled) - b) (skipn b (rows shuffled))
                  = skipn b (rows shuffled)).
  { apply firstn_all2. rewrite length_skipn. lia. }
  rewrite Hlast.
  assert (Hfloor : (Z.of_nat n <= 2 ^ 51)%Z ->
                   (7 * Z.of_nat n / 10 - 1 <= Z.of_nat a <= 7 * Z.of_nat n / 10)%Z).
  { intros Hn. unfold a, split_point_70.
    pose proof (Binary64Facts.int_mul_0_7_near_floor (Z.of_nat n)
                  (conj (Nat2Z.is_nonneg n) Hn)) as Hnear.
    pose proof (Binary64Facts.int_mul_nonneg Binary64.lit_0_7 (Z.of_nat n)
                  ltac:(unfold Binary64.lit_0_7; lia) (Nat2Z.is_nonneg n)).
    rewrite Z2Nat.id by assumption. exact Hnear. }
  split; [exact Hperm|].
  do 3 (split; [reflexivity|]).
  split; [rewrite length_firstn; lia|].
  split; [rewrite length_firstn, length_skipn; lia|].
  split; [rewrite length_skipn; lia|].
  split; [split; assumption | exact Hfloor].
Qed.

End Shuffle.

Lemma split_partitions_rows_witness :
  exists s,
    fst (split_cell reversing 0 sample_table) = Ok s
    /\ Permutation
         (rows (train_data s) ++ rows (validation_data s) ++ rows (test_data s))
         (rows sample_table)
    /\ columns (train_data s) = columns sample_table
    /\ columns (validation_data s) = columns sample_table
    /\ columns (test_data s) = columns sample_table.
Proof.
  apply (split_partitions_rows reversing reversing_ok 0 sample_table).
Defined.

Lemma split_is_shuffle_then_slices_witness :
  exists s,
    fst (split_cell reversing 0 sample_table) = Ok s
    /\ Permutation (rev (rows sample_table)) (rows sample_table)
    /\ rows (train_data s) = firstn 4 (rev (rows sample_table))
    /\ rows (validation_data s) = firstn (5 - 4) (skipn 4 (rev (rows sample_table)))
    /\ rows (test_data s) = skipn 5 (rev (rows sample_table))
    /\ length (rows (train_data s)) = 4
    /\ length (rows (validation_data s)) = 5 - 4
    /\ length (rows (test_data s)) = 6 - 5
    /\ 4 <= 5 <= 6
    /\ ((Z.of_nat 6 <= 2 ^ 51)%Z ->
        (7 * Z.of_nat 6 / 10 - 1 <= Z.of_nat 4 <= 7 * Z.of_nat 6 / 10)%Z).
Proof.
  apply (split_is_shuffle_then_slices reversing reversing_ok 0 sample_table).
Defined.

(** C3 as stated fails on ninety rows: [floor(0.7 * 90)] is 63, but the
    binary64 product [0.7 * 90] is just below 63 and the training frame
    gets 62 rows. *)
Lemma split_of_ninety_rows_trains_on_62 :
  exists s,
    fst (split_cell reversing 0 ninety_rows) = Ok s
    /\ length (rows (train_data s)) = 62
    /\ 7 * length (rows ninety_rows) / 10 = 63
    /\ length (rows (train_data s)) <> 7 * length (rows ninety_rows) / 10.
Proof.
  eexists. split; [apply split_cell_Ok|].
  vm_compute. repeat split. discriminate.
Qed.

End SplitFacts.

(** ** The three cells in sequence *)

Module PrepareFacts.

Import Frame Notebook FrameFacts ImputeFacts SplitFacts.
Local Open Scope nat_scope.

Lemma impute_cell_total {P : Pandas} data :
  Forall (fun c => get_loc c (columns data) <> None) (Outcome :: columnsToImpute) ->
  exists out, impute_cell data = Ok out
              /\ map name (columns out) = map name (columns data).
Proof.
  intros Hall. inversion Hall as [| ? ? Ho Hcs]; subst.
  unfold impute_cell, getitem.
  destruct (get_loc Outcome (columns data)) as [jo |] eqn:Ejo; [|contradiction].
  cbn [bind]. rewrite !loc_eq_scalar.
  destruct (impute_frame_total columnsToImpute
              (mkFrame (columns data) (class_rows jo one (rows data))) Hcs)
    as [d1 H1].
  destruct (impute_frame_total columnsToImpute
              (mkFrame (columns data) (class_rows jo zero (rows data))) Hcs)
    as [d2 H2].
  rewrite (proj2 (impute_loop_frames _ _ _ d1 d2) (conj H1 H2)).
  cbn [bind fst snd]. eexists. split; [reflexivity|].
  apply impute_frame_rows in H1 as (js & _ & Hc & _).
  unfold concat. cbn [columns]. now rewrite map_name_common_headers.
Qed.

Lemma name_cast_category c h : name (cast_category c h) = name h.
Proof. unfold cast_category. now destruct (colname_eqb c (name h)). Qed.

Lemma get_loc_cast_category c c' hs :
  get_loc c (map (cast_category c') hs) = get_loc c hs.
Proof.
  induction hs as [| h hs IH]; simpl; [reflexivity|].
  now rewrite name_cast_category, IH.
Qed.

Lemma encode_cell_Ok {P : Pandas} data :
  get_loc Pregnancies (columns data) <> None ->
  get_loc Outcome (columns data) <> None ->
  encode_cell data
  = Ok (get_dummies
          (mkFrame (map (cast_category Outcome)
                        (map (cast_category Pregnancies) (columns data)))
                   (rows data))).
Proof.
  intros Hp Ho. unfold encode_cell, astype_category. cbn [columns rows].
  rewrite get_loc_cast_category.
  destruct (get_loc Pregnancies (columns data)); [|contradiction].
  destruct (get_loc Outcome (columns data)); [|contradiction].
  reflexivity.
Qed.

(** C7 (as the code has it). On a table that has the columns the cells
    name (the five imputed columns, Outcome and Pregnancies), the
    imputation, the encoding and the split run to the end without raising:
    the medians are computed whatever the rows are, even for a class that
    has no row. *)
Theorem prepare_never_raises {P : Pandas} G (ambient : rng_state G) data :
  Forall (fun c => get_loc c (columns data) <> None)
         (Pregnancies :: Outcome :: columnsToImpute) ->
  exists s, fst (prepare G ambient data) = Ok s.
Proof.
  intros Hall. inversion Hall as [| ? ? Hp Hrest]; subst.
  destruct (impute_cell_total data Hrest) as (out & Hout & Hcols).
  inversion Hrest as [| ? ? Ho _]; subst.
  unfold prepare. rewrite Hout. cbn [bind].
  rewrite encode_cell_Ok
    by (rewrite (get_loc_names _ _ _ Hcols); assumption).
  eexists. apply split_cell_Ok.
Qed.

Lemma prepare_never_raises_witness :
  exists s, fst (prepare (P := sample_pandas) reversing 0 sample_table) = Ok s.
Proof.
  apply (prepare_never_raises (P := sample_pandas) reversing 0 sample_table).
  repeat constructor; discriminate.
Defined.

(** C7 as stated fails: the table below has the five imputed columns and
    Outcome, which is all the claim asks for, and no Pregnancies column; the
    imputation runs, and the encoding cell raises [KeyError] when it casts
    Pregnancies. *)
Lemma prepare_raises_without_pregnancies :
  Forall (fun c => get_loc c (columns six_columns_table) <> None)
         (Outcome :: columnsToImpute)
  /\ (exists imputed, impute_cell (P := sample_pandas) six_columns_table = Ok imputed)
  /\ fst (prepare (P := sample_pandas) reversing 0 six_columns_table)
     = Raise (KeyError Pregnancies).
Proof.
  split; [repeat constructor; discriminate|].
  split; [eexists; vm_compute; reflexivity | vm_compute; reflexivity].
Qed.

(** A table without any row of class 1: the medians of the empty class are
    NaN and nothing raises. *)
Example prepare_single_class :
  match fst (prepare (P := sample_pandas) reversing 0
               (mkFrame diabetes_columns
                  [ mkRow 0 [1; 85; 66; 29; 0; 26.5; 0.375; 31; 0]%float;
                    mkRow 1 [1; 89; 0; 23; 94; 28.125; 0.125; 21; 0]%float ]))
  with
  | Ok s => map (fun d => map label (rows d))
                [train_data s; validation_data s; test_data s]
  | Raise _ => []
  end = [[1]; []; [0]].
Proof. vm_compute. reflexivity. Qed.

(** Without the Outcome column the first cell raises [KeyError]. *)
Example prepare_without_outcome :
  fst (prepare (P := sample_pandas) reversing 0
         (mkFrame [mkHeader "BMI"%string (Numeric Float64)] []))
  = Raise (KeyError Outcome).
Proof. reflexivity. Qed.

(** C5. The data preparation is deterministic: two runs on the same table
    give the same training, validation and test frames and write the same
    files, whatever state numpy's global generator is in at each run, since
    the shuffle draws from a generator seeded with 1729. *)
Theorem prepare_is_deterministic {P : Pandas} G (ambient1 ambient2 : rng_state G) data :
  fst (prepare G ambient1 data) = fst (prepare G ambient2 data)
  /\ run G ambient1 data = run G ambient2 data.
Proof.
  assert (H : fst (prepare G ambient1 data) = fst (prepare G ambient2 data)).
  { unfold prepare.
    destruct (imputed <- impute_cell data ;; encode_cell imputed) as [md | e];
      [|reflexivity].
    now rewrite !split_cell_Ok. }
  split; [exact H|]. unfold run. now rewrite H.
Qed.

(** The seed is what makes it so: drawn from the global generator, the
    ordering changes with the state of that generator. *)
Example sample_unseeded_depends_on_state :
  fst (sample rotating 0 None sample_table) <> fst (sample rotating 1 None sample_table)
  /\ fst (sample rotating 0 (Some 1729%Z) sample_table)
     = fst (sample rotating 1 (Some 1729%Z) sample_table).
Proof. split; [vm_compute; discriminate | reflexivity]. Qed.

End PrepareFacts.

(** ** The encoding cell *)

Module EncodeFacts.

Import Frame Notebook FrameFacts PrepareFacts.
Local Open Scope nat_scope.

Lemma enumerate_enum_from {A} (l : list A) : enumerate l = enum_from 0 l.
Proof. reflexivity. Qed.

Lemma In_enum_from {A} (l : list A) s j x :
  nth_error l j = Some x -> In (s + j, x) (enum_from s l).
Proof.
  revert s j. induction l as [| y l IH]; intros s j; [now destruct j|].
  destruct j as [| j]; simpl.
  - intros [= ->]. left. f_equal. lia.
  - intros H. right. replace (s + S j) with (S s + j) by lia. now apply IH.
Qed.

Lemma In_enum_from_inv {A} (l : list A) s i x :
  In (i, x) (enum_from s l) -> exists j, i = s + j /\ nth_error l j = Some x.
Proof.
  revert s. induction l as [| y l IH]; intros s; simpl; [tauto|].
  intros [[= <- <-] | Hin].
  - exists 0. split; [lia | reflexivity].
  - apply IH in Hin as (j & -> & Hj). exists (S j). split; [lia | exact Hj].
Qed.

Lemma get_loc_app_l c l1 l2 j :
  get_loc c l1 = Some j -> get_loc c (l1 ++ l2) = Some j.
Proof.
  revert j. induction l1 as [| h l1 IH]; intros j; simpl; [discriminate|].
  destruct (colname_eqb c (name h)); [auto|].
  destruct (get_loc c l1) as [j1 |]; simpl; [|discriminate].
  intros [= <-]. now rewrite (IH j1 eq_refl).
Qed.

Lemma get_loc_None c hs :
  Forall (fun h => name h <> c) hs -> get_loc c hs = None.
Proof.
  induction 1 as [| h hs Hh _ IH]; simpl; [reflexivity|].
  rewrite colname_eqb_neq by congruence. now rewrite IH.
Qed.

(** A column that the filter keeps is found again, by its label, among the
    columns kept; [j'] is its new position. *)
Lemma get_loc_filter_enum (P : Header -> bool) c hs s j :
  get_loc c hs = Some j ->
  (forall h, nth_error hs j = Some h -> P h = true) ->
  exists j' h,
    get_loc c (map snd (filter (fun jh => P (snd jh)) (enum_from s hs))) = Some j'
    /\ nth_error (filter (fun jh => P (snd jh)) (enum_from s hs)) j' = Some (s + j, h).
Proof.
  revert s j. induction hs as [| h0 hs IH]; intros s j; simpl; [discriminate|].
  destruct (colname_eqb c (name h0)) eqn:E.
  - intros [= <-] HP. rewrite (HP h0 eq_refl). simpl. rewrite E.
    exists 0, h0. split; [reflexivity|]. simpl. do 2 f_equal. lia.
  - destruct (get_loc c hs) as [j1 |] eqn:E1; simpl; [|discriminate].
    intros [= <-] HP.
    destruct (IH (S s) j1 eq_refl HP) as (j' & h & Hg & Hn).
    fold (enum_from (S s) hs).
    replace (s + S j1) with (S s + j1) by lia.
    destruct (P h0); simpl.
    + rewrite E, Hg. simpl. exists (S j'), h. auto.
    + exists j', h. auto.
Qed.

(** Families of blocks of the same lengths, laid side by side: an element
    of a block is at the same position [k] in every layout. *)
Lemma flat_map_nth_error {X A} (f : X -> list A) xs x i a :
  In x xs ->
  nth_error (f x) i = Some a ->
  exists k,
    nth_error (flat_map f xs) k = Some a
    /\ forall B (g : X -> list B) b,
         (forall y, length (g y) = length (f y)) ->
         nth_error (g x) i = Some b ->
         nth_error (flat_map g xs) k = Some b.
Proof.
  intros Hin Ha.
  induction xs as [| y xs IH]; simpl in *; [contradiction|].
  destruct Hin as [-> | Hin].
  - exists i. assert (i < length (f x)) by (apply nth_error_Some; congruence).
    split; [now rewrite nth_error_app1|].
    intros B g b Hlen Hb. rewrite nth_error_app1 by (rewrite Hlen; assumption).
    exact Hb.
  - destruct (IH Hin) as (k & Hka & Hkb).
    exists (length (f y) + k). split.
    + rewrite nth_error_app2 by lia.
      now replace (length (f y) + k - length (f y)) with k by lia.
    + intros B g b Hlen Hb. rewrite nth_error_app2 by (rewrite Hlen; lia).
      rewrite Hlen.
      replace (length (f y) + k - length (f y)) with k by lia. eauto.
Qed.

Lemma Forall2_map_same {A B} (R : A -> B -> Prop) (F : A -> B) l :
  (forall x, R x (F x)) -> Forall2 R l (map F l).
Proof. intros H. induction l; simpl; constructor; auto. Qed.

Lemma name_cast h : name (cast h) = name h.
Proof. unfold cast. now rewrite !name_cast_category. Qed.

Lemma levels_of_cast_category c h :
  levels_of (cast_category c h) = levels_of h.
Proof.
  unfold cast_category, levels_of.
  destruct (colname_eqb c (name h)); [|reflexivity].
  cbn [kind]. now destruct (kind h).
Qed.

Lemma levels_of_cast h : levels_of (cast h) = levels_of h.
Proof. unfold cast. now rewrite !levels_of_cast_category. Qed.

(** After the two casts a column that was not categorical is categorical
    exactly when it is labelled Pregnancies or Outcome. *)
Lemma is_category_cast h :
  is_category h = false -> is_category (cast h) = is_encoded (name h).
Proof.
  destruct h as [c k]. unfold is_category. cbn [name kind].
  destruct k as [t | t]; [intros _ | discriminate].
  unfold cast, cast_category, is_encoded. cbn [name kind].
  destruct (colname_eqb Pregnancies c); cbn [name kind];
    destruct (colname_eqb Outcome c); reflexivity.
Qed.

Lemma cast_not_encoded h :
  is_encoded (name h) = false -> cast h = h.
Proof.
  destruct h as [c k]. cbn [name kind]. intros He.
  unfold is_encoded in He. apply orb_false_iff in He as [E1 E2].
  unfold cast, cast_category. cbn [name kind]. rewrite E1. cbn [name kind].
  now rewrite E2.
Qed.

Lemma is_encoded_spec c :
  is_encoded c = true <-> c = Pregnancies \/ c = Outcome.
Proof.
  unfold is_encoded. rewrite orb_true_iff, !colname_eqb_eq.
  split; intros [H | H]; auto.
Qed.

Lemma get_loc_cast c hs : get_loc c (map cast hs) = get_loc c hs.
Proof.
  unfold cast.
  rewrite <- (map_map (cast_category Pregnancies) (cast_category Outcome)).
  now rewrite !get_loc_cast_category.
Qed.

Lemma nth_error_cast hs j h' :
  nth_error (map cast hs) j = Some h' ->
  exists h, nth_error hs j = Some h /\ h' = cast h.
Proof.
  rewrite nth_error_map. destruct (nth_error hs j) as [h |]; simpl; [|discriminate].
  intros [= <-]. eauto.
Qed.

Lemma encode_cell_inv {P : Pandas} data out :
  encode_cell data = Ok out ->
  out = get_dummies (mkFrame (map cast (columns data)) (rows data)).
Proof.
  intros H.
  assert (Hp : get_loc Pregnancies (columns data) <> None).
  { intros E. unfold encode_cell, astype_category in H. rewrite E in H.
    discriminate. }
  assert (Ho : get_loc Outcome (columns data) <> None).
  { intros E. unfold encode_cell, astype_category in H. cbn [columns rows] in H.
    rewrite get_loc_cast_category, E in H.
    destruct (get_loc Pregnancies (columns data)); discriminate. }
  rewrite (encode_cell_Ok data Hp Ho) in H. injection H as <-.
  rewrite map_map. reflexivity.
Qed.

Lemma kept_is_untouched data jh :
  Forall (fun h => is_category h = false) (columns data) ->
  In jh (enumerate (map cast (columns data))) ->
  is_category (snd jh) = false ->
  In (snd jh) (columns data) /\ is_encoded (name (snd jh)) = false.
Proof.
  intros Hnum Hin Hcat. destruct jh as [i h']. cbn [snd] in *.
  apply In_enum_from_inv in Hin as (j & _ & Hj).
  apply nth_error_cast in Hj as (h & Hj & ->).
  apply nth_error_In in Hj.
  rewrite Forall_forall in Hnum.
  rewrite is_category_cast in Hcat by auto.
  rewrite cast_not_encoded by auto. auto.
Qed.

Lemma encoded_is_cast data jh :
  Forall (fun h => is_category h = false) (columns data) ->
  In jh (enumerate (map cast (columns data))) ->
  is_category (snd jh) = true ->
  is_encoded (name (snd jh)) = true.
Proof.
  intros Hnum Hin Hcat. destruct jh as [i h']. cbn [snd] in *.
  apply In_enum_from_inv in Hin as (j & _ & Hj).
  apply nth_error_cast in Hj as (h & Hj & ->).
  apply nth_error_In in Hj.
  rewrite Forall_forall in Hnum.
  rewrite is_category_cast in Hcat by auto.
  now rewrite name_cast.
Qed.

(** The columns of the encoded frame: the columns of the table that are
    neither Pregnancies nor Outcome, as they were, and indicator columns of
    Pregnancies and of Outcome. *)
Lemma encoded_columns_shape {P : Pandas} data :
  Forall (fun h => is_category h = false) (columns data) ->
  Forall (fun h =>
            (In h (columns data) /\ is_encoded (name h) = false)
            \/ (exists c t v,
                   is_encoded c = true
                   /\ h = mkHeader (dummy_name c (str_level t v)) (Numeric Uint8)))
         (columns (get_dummies (mkFrame (map cast (columns data)) (rows data)))).
Proof.
  intros Hnum. unfold get_dummies, kept_columns, encoded_columns.
  cbn [columns rows]. apply Forall_app. split; apply Forall_forall.
  - intros h Hin. apply in_map_iff in Hin as (jh & <- & Hin).
    apply filter_In in Hin as [Hin Hcat]. apply negb_true_iff in Hcat.
    left. now apply kept_is_untouched.
  - intros h Hin. apply in_flat_map in Hin as (jh & Hin & Hh).
    apply filter_In in Hin as [Hin Hcat].
    unfold indicator_headers in Hh.
    apply in_map_iff in Hh as (v & <- & _).
    right. exists (name (snd jh)), (levels_of (snd jh)), v.
    split; [|reflexivity].
    now apply (encoded_is_cast data).
Qed.

(** A label that starts like an indicator label of Pregnancies or Outcome
    is neither of the two labels. *)
Lemma dummy_name_not_encoded c level :
  is_encoded c = true -> is_encoded (dummy_name c level) = false.
Proof.
  intros Hc. apply is_encoded_spec in Hc as [-> | ->]; reflexivity.
Qed.

(** C4 (as the code has it). The encoding cell one-hot encodes the two
    columns it casts to [category], Pregnancies and Outcome: neither is a
    column of the result, which has instead one 0/1 indicator column per
    value of Pregnancies and per value of Outcome, labelled by the column
    and the value.  Every other column of the table is a column of the
    result, with unchanged values, and the result has no further column. *)
Theorem encode_expands_pregnancies_and_outcome {P : Pandas} data out :
  encode_cell data = Ok out ->
  Forall (fun h => is_category h = false) (columns data) ->
  Forall (fun h =>
            (In h (columns data)
             /\ name h <> Pregnancies /\ name h <> Outcome)
            \/ (exists c t v,
                   (c = Pregnancies \/ c = Outcome)
                   /\ h = mkHeader (dummy_name c (str_level t v)) (Numeric Uint8)))
         (columns out)
  /\ get_loc Pregnancies (columns out) = None
  /\ get_loc Outcome (columns out) = None
  /\ (forall c j,
        get_loc c (columns data) = Some j ->
        c <> Pregnancies -> c <> Outcome ->
        exists j',
          get_loc c (columns out) = Some j'
          /\ Forall2 (fun r r' => label r' = label r /\ cell j' r' = cell j r)
                     (rows data) (rows out))
  /\ (forall c j h v,
        get_loc c (columns data) = Some j ->
        nth_error (columns data) j = Some h ->
        c = Pregnancies \/ c = Outcome ->
        In v (categories (column_values j (rows data))) ->
        exists j',
          nth_error (columns out) j'
          = Some (mkHeader (dummy_name c (str_level (levels_of h) v))
                           (Numeric Uint8))
          /\ Forall2 (fun r r' =>
                        label r' = label r
                        /\ cell j' r' = if (cell j r =? v)%float then one else zero)
                     (rows data) (rows out)).
Proof.
  intros Hout Hnum. apply encode_cell_inv in Hout. subst out.
  pose proof (encoded_columns_shape data Hnum) as Hshape.
  assert (Hnot : forall c, is_encoded c = false ->
                           c <> Pregnancies /\ c <> Outcome).
  { intros c Hc. split; intros ->; discriminate Hc. }
  assert (Habsent : forall c0, is_encoded c0 = true ->
            get_loc c0
              (columns (get_dummies (mkFrame (map cast (columns data)) (rows data))))
            = None).
  { intros c0 Hc0. apply get_loc_None.
    eapply Forall_impl; [|exact Hshape]. cbn beta.
    intros h [[_ He] | (c & t & v & Hc & ->)]; [congruence|].
    cbn [name]. intros E.
    pose proof (dummy_name_not_encoded c (str_level t v) Hc) as Hd.
    rewrite E in Hd. congruence. }
  split; [|split; [|split; [|split]]].
  - eapply Forall_impl; [|exact Hshape]. cbn beta.
    intros h [[Hin He] | (c & t & v & Hc & ->)].
    + left. split; [exact Hin | now apply Hnot].
    + right. exists c, t, v. split; [now apply is_encoded_spec | reflexivity].
  - now apply Habsent.
  - now apply Habsent.
  - intros c j Hc Hp Ho.
    assert (He : is_encoded c = false).
    { destruct (is_encoded c) eqn:E; [|reflexivity].
      apply is_encoded_spec in E as [-> | ->]; contradiction. }
    destruct (get_loc_filter_enum (fun h => negb (is_category h)) c
                (map cast (columns data)) 0 j) as (j' & h' & Hg & Hn).
    { now rewrite get_loc_cast. }
    { intros h0 H0. apply nth_error_cast in H0 as (h & Hj & ->).
      destruct (get_loc_nth_error _ _ _ Hc) as (h1 & Hj1 & Hname).
      assert (h1 = h) by congruence. subst h1.
      rewrite Forall_forall in Hnum.
      rewrite is_category_cast by (apply Hnum; eapply nth_error_In; eauto).
      now rewrite Hname, He. }
    exists j'. unfold get_dummies, kept_columns. cbn [columns rows].
    rewrite enumerate_enum_from. split; [now apply get_loc_app_l|].
    apply Forall2_map_same. intros r. cbn [label]. split; [reflexivity|].
    unfold cell at 1. cbn [cells]. apply nth_error_nth.
    rewrite nth_error_app1.
    + rewrite nth_error_map, Hn. reflexivity.
    + rewrite length_map. apply nth_error_Some. congruence.
  - intros c j h v Hc Hj Hpo Hv.
    assert (He : is_encoded c = true) by now apply is_encoded_spec.
    destruct (get_loc_nth_error _ _ _ Hc) as (h1 & Hj1 & Hname).
    assert (h1 = h) by congruence. subst h1.
    assert (Hcat : is_category (cast h) = true).
    { rewrite Forall_forall in Hnum.
      rewrite is_category_cast by (apply Hnum; eapply nth_error_In; eauto).
      now rewrite Hname. }
    set (df := mkFrame (map cast (columns data)) (rows data)).
    assert (Hin : In (j, cast h) (encoded_columns df)).
    { unfold encoded_columns. apply filter_In. split; [|exact Hcat].
      rewrite enumerate_enum_from.
      apply (In_enum_from (map cast (columns data)) 0 j).
      rewrite nth_error_map, Hj. reflexivity. }
    apply In_nth_error in Hv as (i & Hi).
    destruct (flat_map_nth_error (indicator_headers df) (encoded_columns df)
                (j, cast h) i
                (mkHeader (dummy_name c (str_level (levels_of h) v)) (Numeric Uint8))
                Hin)
      as (k & Hk & Hrows).
    { unfold indicator_headers. cbn [fst snd].
      rewrite nth_error_map. unfold df at 1. cbn [rows].
      now rewrite Hi, name_cast, levels_of_cast, Hname. }
    exists (length (map snd (kept_columns df)) + k).
    unfold get_dummies. cbn [columns rows]. split.
    + rewrite nth_error_app2 by lia.
      now replace (length (map snd (kept_columns df)) + k
                   - length (map snd (kept_columns df))) with k by lia.
    + apply Forall2_map_same. intros r. cbn [label]. split; [reflexivity|].
      unfold cell at 1. cbn [cells]. apply nth_error_nth.
      rewrite nth_error_app2 by (rewrite !length_map; lia).
      rewrite !length_map.
      replace (length (kept_columns df) + k - length (kept_columns df))
        with k by lia.
      apply Hrows.
      * intros y. unfold indicator_cells, indicator_headers.
        now rewrite !length_map.
      * unfold indicator_cells. cbn [fst snd].
        rewrite nth_error_map. unfold df at 1. cbn [rows].
        now rewrite Hi.
Qed.

Lemma encode_expands_pregnancies_and_outcome_witness :
  Forall (fun h =>
            (In h (columns imputed_sample)
             /\ name h <> Pregnancies /\ name h <> Outcome)
            \/ (exists c t v,
                   (c = Pregnancies \/ c = Outcome)
                   /\ h = mkHeader (dummy_name c (str_level (P := sample_pandas) t v))
                                   (Numeric Uint8)))
         (columns model_sample)
  /\ get_loc Pregnancies (columns model_sample) = None
  /\ get_loc Outcome (columns model_sample) = None
  /\ (forall c j,
        get_loc c (columns imputed_sample) = Some j ->
        c <> Pregnancies -> c <> Outcome ->
        exists j',
          get_loc c (columns model_sample) = Some j'
          /\ Forall2 (fun r r' => label r' = label r /\ cell j' r' = cell j r)
                     (rows imputed_sample) (rows model_sample))
  /\ (forall c j h v,
        get_loc c (columns imputed_sample) = Some j ->
        nth_error (columns imputed_sample) j = Some h ->
        c = Pregnancies \/ c = Outcome ->
        In v (categories (column_values j (rows imputed_sample))) ->
        exists j',
          nth_error (columns model_sample) j'
          = Some (mkHeader (dummy_name c (str_level (P := sample_pandas)
                                            (levels_of h) v))
                           (Numeric Uint8))
          /\ Forall2 (fun r r' =>
                        label r' = label r
                        /\ cell j' r' = if (cell j r =? v)%float then one else zero)
                     (rows imputed_sample) (rows model_sample)).
Proof.
  apply (encode_expands_pregnancies_and_outcome (P := sample_pandas)
           imputed_sample model_sample).
  - vm_compute. reflexivity.
  - repeat constructor.
Defined.

(** C4 as stated fails: on the sample table the encoding cell encodes
    Outcome too; the Outcome column, which is not the Pregnancies column, is
    not a column of the result, where its indicators stand instead. *)
Lemma encode_removes_outcome_column :
  encode_cell (P := sample_pandas) imputed_sample = Ok model_sample
  /\ get_loc Outcome (columns imputed_sample) = Some 8
  /\ Outcome <> Pregnancies
  /\ get_loc Outcome (columns model_sample) = None
  /\ get_loc Outcome_0 (columns model_sample) = Some 12
  /\ get_loc Outcome_1 (columns model_sample) = Some 13.
Proof.
  split; [vm_compute; reflexivity|].
  repeat split; try reflexivity. discriminate.
Qed.

End EncodeFacts.

(** ** The export cell *)

Module ExportFacts.

Import Frame Notebook FrameFacts ImputeFacts EncodeFacts.
Local Open Scope nat_scope.
Local Open Scope string_scope.


Lemma zip_with_map {A B C D} (f : B -> C -> D) (g : A -> B) (h : A -> C) l :
  zip_with f (map g l) (map h l) = map (fun x => f (g x) (h x)) l.
Proof. induction l as [| x l IH]; simpl; [reflexivity | now rewrite IH]. Qed.


Lemma positions_from p hs s :
  map fst (filter (fun jh => p (snd jh)) (enum_from s hs))
  = map (Nat.add s) (positions p hs).
Proof.
  unfold positions. rewrite enumerate_enum_from. revert s.
  induction hs as [| h hs IH]; intros s; [reflexivity|].
  change (enum_from s (h :: hs)) with ((s, h) :: enum_from (S s) hs).
  change (enum_from 0 (h :: hs)) with ((0, h) :: enum_from 1 hs).
  cbn [filter snd].
  destruct (p h); cbn [map fst]; rewrite (IH (S s)), (IH 1), !map_map;
    [f_equal; [lia|] |]; apply map_ext; intros j; lia.
Qed.

Lemma positions_cons p h hs :
  positions p (h :: hs)
  = ((if p h then [0] else []) ++ map S (positions p hs))%list.
Proof.
  unfold positions at 1. rewrite enumerate_enum_from.
  change (enum_from 0 (h :: hs)) with ((0, h) :: enum_from 1 hs).
  cbn [filter snd]. pose proof (positions_from p hs 1) as H.
  destruct (p h); cbn [map fst app]; now rewrite H.
Qed.

(** The columns with a given label depend on the labels only. *)
Lemma positions_names (q : colname -> bool) hs hs' :
  map name hs = map name hs' ->
  positions (fun h => q (name h)) hs = positions (fun h => q (name h)) hs'.
Proof.
  revert hs'. induction hs as [| h hs IH]; intros [| h' hs'];
    try discriminate; [reflexivity|].
  cbn [map]. intros [= Hn Hrest]. rewrite !positions_cons, Hn.
  now rewrite (IH hs' Hrest).
Qed.

(** [get_loc] finds the first of the columns that carry the label. *)
Lemma get_loc_labelled c hs : get_loc c hs = hd_error (labelled c hs).
Proof.
  unfold labelled. induction hs as [| h hs IH]; [reflexivity|].
  rewrite positions_cons. cbn [get_loc].
  destruct (colname_eqb c (name h)); [reflexivity|].
  rewrite IH. cbn [app].
  now destruct (positions (fun h0 => colname_eqb c (name h0)) hs).
Qed.







(** [drop] finds its two labels as soon as each is the label of a column. *)
Lemma drop_outcomes_Ok df :
  get_loc Outcome_0 (columns df) <> None ->
  get_loc Outcome_1 (columns df) <> None ->
  drop df [Outcome_0; Outcome_1]
  = Ok (mkFrame (remove_positions (dropped (columns df)) 0 (columns df))
                (map (fun r => mkRow (label r)
                                     (remove_positions (dropped (columns df)) 0 (cells r)))
                     (rows df))).
Proof.
  intros H0 H1. unfold drop. cbn [filter].
  destruct (get_loc Outcome_0 (columns df)); [|contradiction].
  destruct (get_loc Outcome_1 (columns df)); [|contradiction].
  reflexivity.
Qed.

Lemma getitem_all_Ok df c :
  get_loc c (columns df) <> None ->
  getitem_all df c
  = Ok (mkFrame (map (fun j => nth j (columns df) (mkHeader c (Numeric Float64)))
                     (labelled c (columns df)))
                (map (fun r => mkRow (label r)
                                     (map (fun j => cell j r) (labelled c (columns df))))
                     (rows df))).
Proof.
  intros Hc. unfold getitem_all. rewrite get_loc_labelled in Hc.
  unfold labelled in *.
  now destruct (positions (fun h => colname_eqb c (name h)) (columns df)).
Qed.

Lemma to_csv_plain df :
  to_csv df false false = map (fun r => map Num (cells r)) (rows df).
Proof. reflexivity. Qed.

Lemma export_labelled_Ok df path fs :
  get_loc Outcome_0 (columns df) <> None ->
  get_loc Outcome_1 (columns df) <> None ->
  export_labelled df path fs
  = (Ok tt, (path, map (target_line (columns df)) (rows df)) :: fs).
Proof.
  intros H0 H1. unfold export_labelled, io_bind, lift, target_first.
  rewrite (getitem_all_Ok df Outcome_1 H1). cbn [bind].
  rewrite (drop_outcomes_Ok df H0 H1). cbn [bind].
  unfold write_file. rewrite to_csv_plain. unfold concat_axis1.
  cbn [rows]. rewrite zip_with_map, map_map.
  reflexivity.
Qed.

Lemma export_features_Ok df path fs :
  get_loc Outcome_0 (columns df) <> None ->
  get_loc Outcome_1 (columns df) <> None ->
  export_features df path fs
  = (Ok tt, (path, map (rest_line (columns df)) (rows df)) :: fs).
Proof.
  intros H0 H1. unfold export_features, io_bind, lift.
  rewrite (drop_outcomes_Ok df H0 H1).
  unfold write_file. rewrite to_csv_plain. cbn [rows]. rewrite map_map.
  reflexivity.
Qed.

Lemma labelled_names c hs hs' :
  map name hs = map name hs' -> labelled c hs = labelled c hs'.
Proof. intros H. unfold labelled. now apply (positions_names (colname_eqb c)). Qed.

Lemma dropped_names hs hs' :
  map name hs = map name hs' -> dropped hs = dropped hs'.
Proof.
  intros H. unfold dropped.
  now apply (positions_names (fun c => existsb (colname_eqb c) [Outcome_0; Outcome_1])).
Qed.

Lemma target_line_names hs hs' r :
  map name hs = map name hs' -> target_line hs r = target_line hs' r.
Proof.
  intros H. unfold target_line.
  now rewrite (labelled_names _ _ _ H), (dropped_names _ _ H).
Qed.

Lemma rest_line_names hs hs' r :
  map name hs = map name hs' -> rest_line hs r = rest_line hs' r.
Proof. intros H. unfold rest_line. now rewrite (dropped_names _ _ H). Qed.

(** The export cell on three frames with the same column labels, among
    which Outcome_0 and Outcome_1, whatever the number of columns that carry
    them: nothing is raised, and the five files are as follows. *)
Lemma export_cell_Ok {P : Pandas} s fs :
  map name (columns (validation_data s)) = map name (columns (train_data s)) ->
  map name (columns (test_data s)) = map name (columns (train_data s)) ->
  get_loc Outcome_0 (columns (train_data s)) <> None ->
  get_loc Outcome_1 (columns (train_data s)) <> None ->
  export_cell s fs
  = (Ok tt,
     ([ ("merged.csv",
        map (target_line (columns (train_data s)))
            (rows (train_data s) ++ rows (validation_data s)));
       ("test-no-outcomes.csv",
        map (rest_line (columns (train_data s))) (rows (test_data s)));
       ("test.csv",
        map (target_line (columns (train_data s))) (rows (test_data s)));
       ("validation.csv",
        map (target_line (columns (train_data s))) (rows (validation_data s)));
       ("train.csv",
        map (target_line (columns (train_data s))) (rows (train_data s))) ]
      ++ fs)%list).
Proof.
  intros Hv Ht H0 H1.
  assert (Hv0 := H0). assert (Hv1 := H1).
  rewrite <- (get_loc_names Outcome_0 _ _ Hv) in Hv0.
  rewrite <- (get_loc_names Outcome_1 _ _ Hv) in Hv1.
  assert (Ht0 := H0). assert (Ht1 := H1).
  rewrite <- (get_loc_names Outcome_0 _ _ Ht) in Ht0.
  rewrite <- (get_loc_names Outcome_1 _ _ Ht) in Ht1.
  assert (Hm : map name (columns (concat (train_data s) (validation_data s)))
               = map name (columns (train_data s))).
  { unfold concat. cbn [columns]. apply map_name_common_headers. }
  assert (Hm0 := H0). assert (Hm1 := H1).
  rewrite <- (get_loc_names Outcome_0 _ _ Hm) in Hm0.
  rewrite <- (get_loc_names Outcome_1 _ _ Hm) in Hm1.
  unfold export_cell, io_bind.
  rewrite (export_labelled_Ok _ _ _ H0 H1).
  rewrite (export_labelled_Ok _ _ _ Hv0 Hv1).
  rewrite (export_labelled_Ok _ _ _ Ht0 Ht1).
  rewrite (export_features_Ok _ _ _ Ht0 Ht1).
  rewrite (export_labelled_Ok _ _ _ Hm0 Hm1).
  cbn [app]. do 2 f_equal.
  { f_equal. apply map_ext. intros r. now apply target_line_names. }
  f_equal.
  { f_equal. apply map_ext. intros r. now apply rest_line_names. }
  f_equal.
  { f_equal. apply map_ext. intros r. now apply target_line_names. }
  f_equal.
  f_equal. apply map_ext. intros r. now apply target_line_names.
Qed.



(** The training file of the sample table: four rows, the target first. *)
Example export_sample_train :
  option_map (map (firstn 3))
    (read_file "train.csv" (snd (export_cell (P := sample_pandas) sample_splits [])))
  = Some [ [Num 0; Num 116; Num 74]; [Num 0; Num 89; Num 66];
           [Num 0; Num 85; Num 66]; [Num 1; Num 137; Num 40] ]%float.
Proof. vm_compute. reflexivity. Qed.

(** With [header=True] and [index=True] the file would start with the
    labels, and each line with the index label. *)
Example to_csv_with_header_and_index :
  to_csv (mkFrame [mkHeader "BMI" (Numeric Float64)] [mkRow 7 [33.5%float]]) true true
  = [[Blank; Name "BMI"]; [Index 7; Num 33.5%float]].
Proof. reflexivity. Qed.

(** Without the indicator columns of Outcome the export raises. *)
Example export_without_indicators :
  fst (export_cell (P := sample_pandas)
         (mkSplits sample_table sample_table sample_table) [])
  = Raise (KeyError Outcome_1).
Proof. reflexivity. Qed.

(** A frame in which two columns carry the label Outcome_1, a column of the
    table and the indicator of the class 1: [df['Outcome_1']] is the two of
    them and [drop] removes both, so that a line of a labelled file starts
    with two fields and a line of test-no-outcomes.csv lacks three cells. *)
Example export_with_a_label_twice :
  let df := mkFrame [ mkHeader "Outcome_1" (Numeric Int64);
                      mkHeader "Age" (Numeric Int64);
                      mkHeader "Outcome_0" (Numeric Uint8);
                      mkHeader "Outcome_1" (Numeric Uint8) ]
                    [ mkRow 0 [7; 50; 0; 1]%float ] in
  snd (export_cell (P := sample_pandas) (mkSplits df df df) [])
  = [ ("merged.csv", [[Num 7; Num 1; Num 50]; [Num 7; Num 1; Num 50]]);
      ("test-no-outcomes.csv", [[Num 50]]);
      ("test.csv", [[Num 7; Num 1; Num 50]]);
      ("validation.csv", [[Num 7; Num 1; Num 50]]);
      ("train.csv", [[Num 7; Num 1; Num 50]]) ]%float.
Proof. vm_compute. reflexivity. Qed.

End ExportFacts.

(** ** The workflow definition *)

Module WorkflowFacts.

Import Workflow.
Local Open Scope nat_scope.
Local Open Scope string_scope.

Lemma Chain_step_types l : map step_type (Chain l) = map step_type l.
Proof.
  induction l as [| a l IH]; [reflexivity|].
  destruct l as [| b l]; [reflexivity|].
  change (Chain (a :: b :: l))
    with (mkState (state_id a) (step_type a) (Some (state_id b)) :: Chain (b :: l)).
  cbn [map step_type]. now rewrite IH.
Qed.

Lemma Chain_state_ids l : map state_id (Chain l) = map state_id l.
Proof.
  induction l as [| a l IH]; [reflexivity|].
  destruct l as [| b l]; [reflexivity|].
  change (Chain (a :: b :: l))
    with (mkState (state_id a) (step_type a) (Some (state_id b)) :: Chain (b :: l)).
  cbn [map state_id]. now rewrite IH.
Qed.

Lemma Chain_length l : length (Chain l) = length l.
Proof. now rewrite <- (length_map step_type), Chain_step_types, length_map. Qed.

Lemma Chain_nth_error l i s :
  nth_error l i = Some s ->
  nth_error (Chain l) i
  = Some (mkState (state_id s) (step_type s)
            (match nth_error l (S i) with
             | Some b => Some (state_id b)
             | None => next_state s
             end)).
Proof.
  revert i. induction l as [| a l IH]; intros i; [now destruct i|].
  destruct l as [| b l].
  - destruct i as [| i]; [|now destruct i].
    intros [= ->]. now destruct s.
  - change (Chain (a :: b :: l))
      with (mkState (state_id a) (step_type a) (Some (state_id b)) :: Chain (b :: l)).
    destruct i as [| i]; [now intros [= ->]|].
    intros H. apply (IH i H).
Qed.

Lemma find_state_nth_error states i s :
  NoDup (map state_id states) ->
  nth_error states i = Some s ->
  find_state (state_id s) states = Some s.
Proof.
  unfold find_state. revert i.
  induction states as [| a states IH]; intros i Hnd; [now destruct i|].
  inversion Hnd as [| ? ? Hnotin Hnd']; subst.
  destruct i as [| i]; simpl.
  - intros [= ->]. now rewrite String.eqb_refl.
  - intros H. destruct (String.eqb_spec (state_id s) (state_id a)) as [E | _].
    + exfalso. apply Hnotin. rewrite <- E.
      apply in_map, (nth_error_In _ _ H).
    + now apply (IH i).
Qed.

Lemma skipn_nth_error {A} (l : list A) i x :
  nth_error l i = Some x -> skipn i l = x :: skipn (S i) l.
Proof.
  revert i. induction l as [| a l IH]; intros i; [now destruct i|].
  destruct i as [| i]; [now intros [= ->]|].
  intros H. apply (IH i H).
Qed.

(** An execution of a chain of steps with distinct names goes through the
    steps in the order of the chain, from whichever step it starts at, and
    ends after the last one. *)
Lemma trace_Chain l :
  NoDup (map state_id l) ->
  Forall (fun s => next_state s = None) l ->
  forall fuel i s,
    nth_error l i = Some s ->
    length l <= i + fuel ->
    trace fuel (Chain l) (state_id s) = map step_type (skipn i l).
Proof.
  intros Hnd Hend.
  induction fuel as [| fuel IH]; intros i s Hi Hlen.
  - assert (i < length l) by (apply nth_error_Some; congruence). lia.
  - pose proof (Chain_nth_error l i s Hi) as Hc.
    pose proof (find_state_nth_error (Chain l) i _
                  ltac:(now rewrite Chain_state_ids) Hc) as Hf.
    cbn [state_id] in Hf. cbn [trace]. rewrite Hf.
    cbn [step_type next_state].
    rewrite (skipn_nth_error l i s Hi). cbn [map]. f_equal.
    destruct (nth_error l (S i)) as [b |] eqn:Eb.
    + apply IH; [exact Eb | lia].
    + rewrite Forall_forall in Hend.
      rewrite (Hend s (nth_error_In _ _ Hi)).
      apply nth_error_None in Eb. now rewrite skipn_all2.
Qed.

(** C6. The workflow definition is a chain of exactly five steps: the
    training step, then the model step, then the transform step, then the
    endpoint configuration step, then the endpoint step; each continues with
    the next one and the last ends the execution, so that an execution
    started at the first state goes through the five steps in that order. *)
Theorem workflow_is_a_five_step_chain :
  length workflow_definition = 5
  /\ map step_type workflow_definition
     = [TrainingStep; ModelStep; TransformStep; EndpointConfigStep; EndpointStep]
  /\ map state_id workflow_definition
     = ["Train Step"; "Save model"; "Transform Input Dataset";
        "Create Endpoint Config"; "Create Endpoint"]
  /\ map next_state workflow_definition
     = [Some "Save model"; Some "Transform Input Dataset";
        Some "Create Endpoint Config"; Some "Create Endpoint"; None]
  /\ start_at workflow_definition = Some "Train Step"
  /\ forall fuel,
       trace (5 + fuel) workflow_definition "Train Step"
       = [TrainingStep; ModelStep; TransformStep; EndpointConfigStep; EndpointStep].
Proof.
  unfold workflow_definition.
  rewrite Chain_length, Chain_step_types, Chain_state_ids.
  repeat split; reflexivity.
Qed.

End WorkflowFacts.

(** ** More on the imputation cell *)

Module ImputeMore.

Import Frame Notebook NotebookMore FrameFacts ImputeFacts.
Local Open Scope nat_scope.

Lemma names_replace {P : Pandas} df c old new :
  map name (columns (replace df c old new)) = map name (columns df).
Proof.
  unfold replace. destruct (get_loc c (columns df)); [|reflexivity].
  cbn [columns]. apply map_name_retype.
Qed.

Lemma first_missing_names cs hs hs' :
  map name hs = map name hs' -> first_missing cs hs = first_missing cs hs'.
Proof.
  intros H. unfold first_missing. induction cs as [| c cs IH]; [reflexivity|].
  cbn [find]. now rewrite (get_loc_names c _ _ H), IH.
Qed.

Lemma impute_loop_raise {P : Pandas} cs df1 df2 c :
  map name (columns df2) = map name (columns df1) ->
  first_missing cs (columns df1) = Some c ->
  impute_loop cs df1 df2 = Raise (KeyError c).
Proof.
  revert df1 df2. induction cs as [| c0 cs IH]; intros df1 df2 Hcols; [discriminate|].
  cbn [first_missing find impute_loop]. unfold getitem.
  rewrite (get_loc_names c0 _ _ Hcols).
  destruct (get_loc c0 (columns df1)) as [j |] eqn:E.
  - intros Hm. cbn [bind]. apply IH.
    + now rewrite !names_replace.
    + now rewrite (first_missing_names cs _ _ (names_replace df1 c0 _ _)).
  - now intros [= ->].
Qed.

Lemma first_missing_None cs hs :
  first_missing cs hs = None <-> Forall (fun c => get_loc c hs <> None) cs.
Proof.
  unfold first_missing. induction cs as [| c cs IH]; simpl.
  - split; [constructor | reflexivity].
  - destruct (get_loc c hs) eqn:E.
    + rewrite IH. split; [constructor; congruence | now inversion 1].
    + split; [discriminate | inversion 1; contradiction].
Qed.

(** X1. The imputation cell raises exactly when one of the six columns it
    names is missing, and the [KeyError] then names the first missing one in
    the order Outcome, BloodPressure, BMI, Glucose, Insulin, SkinThickness;
    otherwise it returns a frame with the column labels of the table, in
    which every column other than the five imputed ones has the dtype it
    had. *)
Theorem impute_cell_raises_first_missing {P : Pandas} data :
  match first_missing (Outcome :: columnsToImpute) (columns data) with
  | Some c => impute_cell data = Raise (KeyError c)
  | None =>
      exists out,
        impute_cell data = Ok out
        /\ map name (columns out) = map name (columns data)
        /\ forall c j,
             get_loc c (columns data) = Some j ->
             is_imputed c = false ->
             nth_error (columns out) j = nth_error (columns data) j
  end.
Proof.
  destruct (first_missing _ _) as [c |] eqn:Hm.
  - unfold impute_cell, getitem. cbn [first_missing find] in Hm.
    destruct (get_loc Outcome (columns data)) as [jo |] eqn:Ejo.
    + cbn [bind]. rewrite (impute_loop_raise columnsToImpute _ _ c); auto.
    + now injection Hm as <-.
  - apply first_missing_None in Hm.
    destruct (PrepareFacts.impute_cell_total data Hm) as (out & Hout & Hnames).
    exists out. split; [exact Hout|]. split; [exact Hnames|].
    intros c j Hc Himp.
    inversion Hm as [| ? ? Ho _]; subst.
    destruct (get_loc Outcome (columns data)) as [jo |] eqn:Ejo; [|contradiction].
    destruct (impute_cell_rows _ _ _ Hout Ejo) as (js & HF & _ & _ & Hkeep & _).
    apply Hkeep. intros Hin.
    assert (E : existsb (Nat.eqb j) js = true).
    { apply existsb_exists. exists j. split; [exact Hin | apply Nat.eqb_refl]. }
    rewrite (locs_existsb _ _ _ _ _ HF Hc) in E.
    fold (is_imputed c) in E. congruence.
Qed.

(** X2. After the imputation a zero is left in one of the five imputed
    columns only in a class whose median of that column is itself zero: in
    a class with a non-zero median no zero remains. *)
Theorem impute_leaves_zero_only_at_zero_median {P : Pandas} data out jo :
  impute_cell data = Ok out ->
  get_loc Outcome (columns data) = Some jo ->
  forall r' c j,
    In r' (rows out) ->
    get_loc c (columns data) = Some j ->
    is_imputed c = true ->
    (cell j r' =? zero)%float = true ->
    exists k,
      (k = one \/ k = zero)
      /\ in_class jo k r' = true
      /\ (class_median (rows data) jo k j =? zero)%float = true.
Proof.
  intros Hout Hjo r' c j Hin Hc Himp Hz.
  destruct (impute_cell_rows _ _ _ Hout Hjo) as (js & HF & Hnd & _ & _ & Hrows).
  rewrite Hrows in Hin. apply in_app_or in Hin.
  assert (Hk : exists k r, (k = one \/ k = zero)
                           /\ In r (class_rows jo k (rows data))
                           /\ r' = impute_row js (class_rows jo k (rows data)) r).
  { destruct Hin as [Hin | Hin]; apply in_map_iff in Hin as (r & <- & Hr);
      [exists one, r | exists zero, r]; auto. }
  destruct Hk as (k & r & Hk & Hr & ->).
  exists k. split; [exact Hk|]. split.
  - rewrite (in_class_impute_row _ _ _ _ _ _ HF Hnd Hjo).
    now apply filter_In in Hr.
  - rewrite cell_impute_row in Hz by assumption.
    rewrite (locs_existsb _ _ _ _ _ HF Hc) in Hz.
    fold (is_imputed c) in Hz. rewrite Himp in Hz. cbn [andb] in Hz.
    unfold class_median.
    destruct (cell j r =? zero)%float eqn:E; [exact Hz | congruence].
Qed.

Lemma impute_leaves_zero_only_at_zero_median_witness :
  exists k,
    (k = one \/ k = zero)
    /\ in_class 8 k (hd (mkRow 0 []) (rows imputed_sample)) = true
    /\ (class_median (rows sample_table) 8 k 4 =? zero)%float = true.
Proof.
  assert (H : impute_cell (P := sample_pandas) sample_table = Ok imputed_sample)
    by (vm_compute; reflexivity).
  apply (impute_leaves_zero_only_at_zero_median (P := sample_pandas)
           sample_table imputed_sample 8
           H eq_refl (hd (mkRow 0 []) (rows imputed_sample)) "Insulin"%string 4).
  - vm_compute. left. reflexivity.
  - reflexivity.
  - reflexivity.
  - vm_compute. reflexivity.
Defined.

End ImputeMore.

(** ** More on the encoding cell *)

Module EncodeMore.

Import Frame Notebook NotebookMore FrameFacts CategoryFacts PrepareFacts EncodeFacts.
Local Open Scope nat_scope.

(** The label of an indicator column of Pregnancies or of Outcome reads as
    such, and not as an indicator of the other column. *)
Lemma indicator_label_dummy_name c level :
  is_encoded c = true -> indicator_label c (dummy_name c level) = true.
Proof.
  intros H. apply is_encoded_spec in H as [-> | ->]; now destruct level.
Qed.

Lemma indicator_label_other c c' level :
  is_encoded c = true -> is_encoded c' = true ->
  indicator_label c (dummy_name c' level) = true -> c' = c.
Proof.
  intros H H'.
  apply is_encoded_spec in H as [-> | ->];
    apply is_encoded_spec in H' as [-> | ->];
    try reflexivity; intros E; vm_compute in E; discriminate.
Qed.

Lemma plain_not_indicator c h :
  plain h = true -> is_encoded c = true -> indicator_label c (name h) = false.
Proof.
  unfold plain. intros Hp Hc. apply andb_true_iff in Hp as [H1 H2].
  apply negb_true_iff in H1, H2.
  apply is_encoded_spec in Hc as [-> | ->]; assumption.
Qed.

Lemma NoDup_dedupe l :
  Forall (fun x => is_nan x = false) l -> NoDup (dedupe l).
Proof.
  induction 1 as [| x l Hx _ IH]; simpl; constructor.
  - intros Hin. apply filter_In in Hin as [_ Hin].
    rewrite (eqb_refl x Hx) in Hin. discriminate.
  - now apply NoDup_filter.
Qed.

Lemma NoDup_categories xs : NoDup (categories xs).
Proof.
  unfold categories.
  eapply Permutation_NoDup; [symmetry; apply Permutation_sort|].
  apply NoDup_dedupe. apply Forall_forall. intros x Hin.
  apply filter_In in Hin as [_ Hin]. now apply negb_true_iff in Hin.
Qed.

Lemma nth_error_flat_map_at {X A} (f : X -> list A) pre x post i :
  i < length (f x) ->
  nth_error (flat_map f (pre ++ x :: post)) (length (flat_map f pre) + i)
  = nth_error (f x) i.
Proof.
  intros Hi. rewrite flat_map_app. cbn [flat_map].
  rewrite nth_error_app2 by lia.
  replace (length (flat_map f pre) + i - length (flat_map f pre)) with i by lia.
  now rewrite nth_error_app1.
Qed.

Lemma nth_error_flat_map_inv {X A} (f : X -> list A) xs k a :
  nth_error (flat_map f xs) k = Some a ->
  exists pre x post i,
    xs = pre ++ x :: post
    /\ nth_error (f x) i = Some a
    /\ k = length (flat_map f pre) + i.
Proof.
  revert k. induction xs as [| y xs IH]; intros k; simpl; [now destruct k|].
  intros H. destruct (Nat.lt_ge_cases k (length (f y))) as [Hlt | Hge].
  - rewrite nth_error_app1 in H by assumption.
    exists [], y, xs, k. auto.
  - rewrite nth_error_app2 in H by assumption.
    destruct (IH _ H) as (pre & x & post & i & -> & Hi & Hk).
    exists (y :: pre), x, post, i. simpl. rewrite length_app.
    repeat split; auto. lia.
Qed.

Lemma length_flat_map_same {X A B} (f : X -> list A) (g : X -> list B) xs :
  (forall y, length (g y) = length (f y)) ->
  length (flat_map g xs) = length (flat_map f xs).
Proof.
  intros H. induction xs as [| y xs IH]; simpl; [reflexivity|].
  now rewrite !length_app, H, IH.
Qed.

Lemma NoDup_split_unique {A} (p1 p2 q1 q2 : list A) x :
  NoDup (p1 ++ x :: q1) -> p1 ++ x :: q1 = p2 ++ x :: q2 -> p1 = p2.
Proof.
  revert p2. induction p1 as [| a p1 IH]; intros p2 Hnd Heq.
  - destruct p2 as [| b p2]; [reflexivity|].
    simpl in Heq. injection Heq as <- Hq. simpl in Hnd.
    inversion Hnd as [| ? ? Hnotin _]; subst.
    exfalso. apply Hnotin. apply in_or_app. right. now left.
  - destruct p2 as [| b p2]; simpl in *.
    + injection Heq as -> Hq. inversion Hnd as [| ? ? Hnotin _]; subst.
      exfalso. apply Hnotin. apply in_or_app. right. now left.
    + injection Heq as <- Hq. inversion Hnd; subst. f_equal. now apply IH.
Qed.

Lemma get_loc_NoDup hs i h :
  NoDup (map name hs) -> nth_error hs i = Some h -> get_loc (name h) hs = Some i.
Proof.
  revert i. induction hs as [| a hs IH]; intros i Hnd; [now destruct i|].
  simpl in Hnd. inversion Hnd as [| ? ? Hnotin Hnd']; subst.
  destruct i as [| i]; simpl.
  - intros [= ->]. now rewrite colname_eqb_refl.
  - intros H. rewrite colname_eqb_neq.
    + now rewrite (IH i Hnd' H).
    + intros E. apply Hnotin. rewrite <- E. apply in_map, (nth_error_In _ _ H).
Qed.

Lemma NoDup_enum_from {A} (l : list A) s : NoDup (enum_from s l).
Proof.
  revert s. induction l as [| x l IH]; intros s; [constructor|].
  change (enum_from s (x :: l)) with ((s, x) :: enum_from (S s) l).
  constructor; [|apply IH].
  intros Hin. apply In_enum_from_inv in Hin as (j & Hj & _). lia.
Qed.

Lemma Forall2_map_In {A B} (R : A -> B -> Prop) (F : A -> B) l :
  (forall x, In x l -> R x (F x)) -> Forall2 R l (map F l).
Proof.
  induction l as [| x l IH]; intros H; simpl; constructor.
  - apply H. now left.
  - apply IH. intros y Hy. apply H. now right.
Qed.

(** X3. One-hot encoding proper.  On a table with distinct plain column
    labels and no categorical column, take one of the two encoded columns,
    Pregnancies or Outcome: in every row whose value in that column is not
    NaN, exactly one of the indicator columns of that column holds 1, and
    every other one holds 0. *)
Theorem encode_is_one_hot {P : Pandas} data out c j :
  encode_cell data = Ok out ->
  Forall (fun h => is_category h = false /\ plain h = true) (columns data) ->
  NoDup (map name (columns data)) ->
  c = Pregnancies \/ c = Outcome ->
  get_loc c (columns data) = Some j ->
  Forall2 (fun r r' =>
             is_nan (cell j r) = false ->
             exists j' h',
               nth_error (columns out) j' = Some h'
               /\ is_indicator_of c h'
               /\ cell j' r' = one
               /\ forall j'' h'',
                    nth_error (columns out) j'' = Some h'' ->
                    is_indicator_of c h'' ->
                    j'' <> j' ->
                    cell j'' r' = zero)
          (rows data) (rows out).
Proof.
  intros Hout Hcols Hnd Hpo Hc. apply encode_cell_inv in Hout. subst out.
  assert (Hnum : Forall (fun h => is_category h = false) (columns data)).
  { eapply Forall_impl; [|exact Hcols]. now intros h [H _]. }
  assert (He : is_encoded c = true) by now apply is_encoded_spec.
  destruct (get_loc_nth_error _ _ _ Hc) as (h & Hj & Hname).
  set (df := mkFrame (map cast (columns data)) (rows data)).
  assert (Hcat : is_category (cast h) = true).
  { rewrite Forall_forall in Hnum.
    rewrite is_category_cast by (apply Hnum; eapply nth_error_In; eauto).
    now rewrite Hname. }
  assert (Hin : In (j, cast h) (encoded_columns df)).
  { unfold encoded_columns. apply filter_In. split; [|exact Hcat].
    rewrite enumerate_enum_from.
    apply (In_enum_from (map cast (columns data)) 0 j).
    rewrite nth_error_map, Hj. reflexivity. }
  assert (Hndenc : NoDup (encoded_columns df)).
  { unfold encoded_columns. apply NoDup_filter. rewrite enumerate_enum_from.
    apply NoDup_enum_from. }
  destruct (in_split _ _ Hin) as (pre & post & Henc).
  set (cats := categories (column_values j (rows data))).
  set (K := kept_columns df).
  set (off := length (flat_map (indicator_headers df) pre)).
  assert (Hblock_h : forall i, i < length cats ->
            nth_error (columns (get_dummies df)) (length K + off + i)
            = option_map (fun v => mkHeader (dummy_name c (str_level (levels_of h) v))
                                             (Numeric Uint8))
                         (nth_error cats i)).
  { intros i Hi. unfold get_dummies. cbn [columns]. fold K.
    rewrite nth_error_app2 by (rewrite length_map; lia).
    rewrite length_map.
    replace (length K + off + i - length K) with (off + i) by lia.
    rewrite Henc. unfold off. rewrite nth_error_flat_map_at.
    - unfold indicator_headers. cbn [fst snd]. rewrite nth_error_map.
      unfold df at 1. cbn [rows]. fold cats.
      now rewrite name_cast, levels_of_cast, Hname.
    - unfold indicator_headers. cbn [fst snd]. rewrite length_map.
      unfold df. cbn [rows]. exact Hi. }
  assert (Hblock_c : forall r i, i < length cats ->
            nth_error
              (map (fun jh => cell (fst jh) r) K
               ++ flat_map (indicator_cells df r) (encoded_columns df))
              (length K + off + i)
            = option_map (fun v => if (cell j r =? v)%float then one else zero)
                         (nth_error cats i)).
  { intros r i Hi.
    rewrite nth_error_app2 by (rewrite length_map; lia).
    rewrite length_map.
    replace (length K + off + i - length K) with (off + i) by lia.
    rewrite Henc. unfold off.
    rewrite <- (length_flat_map_same (indicator_headers df) (indicator_cells df r) pre)
      by (intros y; unfold indicator_cells, indicator_headers; now rewrite !length_map).
    rewrite nth_error_flat_map_at.
    - unfold indicator_cells. cbn [fst snd]. rewrite nth_error_map.
      unfold df at 1. cbn [rows]. reflexivity.
    - unfold indicator_cells. cbn [fst snd]. rewrite length_map.
      unfold df. cbn [rows]. exact Hi. }
  (* every indicator column of [c] lies in that block *)
  assert (Hall : forall j'' h'',
            nth_error (columns (get_dummies df)) j'' = Some h'' ->
            is_indicator_of c h'' ->
            exists i w, j'' = length K + off + i
                        /\ nth_error cats i = Some w).
  { intros j'' h'' Hn Hind. unfold is_indicator_of in Hind.
    unfold get_dummies in Hn. cbn [columns] in Hn.
    fold K in Hn.
    destruct (Nat.lt_ge_cases j'' (length (map snd K))) as [Hlt | Hge].
    - exfalso. rewrite nth_error_app1 in Hn by assumption.
      apply nth_error_In, in_map_iff in Hn as (jh & Hsnd & HinK).
      unfold K, kept_columns in HinK. apply filter_In in HinK as [HinK Hk].
      apply negb_true_iff in Hk.
      destruct (kept_is_untouched data jh Hnum HinK Hk) as [Hd _].
      rewrite Forall_forall in Hcols. destruct (Hcols _ Hd) as (_ & Hplain).
      rewrite Hsnd in Hplain.
      rewrite (plain_not_indicator c h'' Hplain He) in Hind. discriminate Hind.
    - rewrite nth_error_app2 in Hn by assumption.
      apply nth_error_flat_map_inv in Hn
        as (pre2 & x2 & post2 & i & Henc2 & Hi & Hk).
      unfold indicator_headers in Hi. rewrite nth_error_map in Hi.
      destruct (nth_error (categories (column_values (fst x2) (rows df))) i)
        as [w2 |] eqn:Ew2; [|discriminate].
      injection Hi as Hh''. subst h''. cbn [name] in Hind.
      assert (Hx2in : In x2 (encoded_columns df))
        by (rewrite Henc2; apply in_or_app; right; now left).
      unfold encoded_columns in Hx2in. apply filter_In in Hx2in as [Hx2in Hx2cat].
      unfold df in Hx2in. cbn [columns] in Hx2in.
      pose proof (encoded_is_cast data x2 Hnum Hx2in Hx2cat) as Hx2enc.
      pose proof (indicator_label_other _ _ _ He Hx2enc Hind) as Hx2.
      destruct x2 as [jx hx]. cbn [fst snd] in *.
      apply In_enum_from_inv in Hx2in as (jx' & Hjx & Hnx). simpl in Hjx. subst jx'.
      assert (Hjxj : jx = j).
      { pose proof (get_loc_NoDup (map cast (columns data)) jx hx) as Hg.
        rewrite map_map in Hg.
        rewrite (map_ext (fun x => name (cast x)) name name_cast) in Hg.
        specialize (Hg Hnd Hnx). rewrite Hx2, get_loc_cast, Hc in Hg. congruence. }
      subst jx.
      assert (hx = cast h).
      { rewrite nth_error_map, Hj in Hnx. now injection Hnx. }
      subst hx.
      assert (pre2 = pre).
      { apply (NoDup_split_unique pre2 pre post2 post (j, cast h)).
        - now rewrite <- Henc2.
        - now rewrite <- Henc2, <- Henc. }
      subst pre2. exists i, w2. unfold df in Ew2. cbn [rows] in Ew2.
      fold cats in Ew2. repeat split; auto. fold off in Hk.
      rewrite length_map in Hk, Hge. lia. }
  unfold get_dummies at 1. cbn [rows]. fold K.
  apply Forall2_map_In. intros r Hr Hnan.
  destruct (categories_one_hot (column_values j (rows data)) (cell j r))
    as (v & Hv & Hxv & Huniq);
    [unfold column_values; now apply in_map | exact Hnan |].
  fold cats in Hv, Huniq.
  apply In_nth_error in Hv as (iv & Hiv).
  assert (Hivlt : iv < length cats) by (apply nth_error_Some; congruence).
  exists (length K + off + iv),
         (mkHeader (dummy_name c (str_level (levels_of h) v)) (Numeric Uint8)).
  split; [now rewrite Hblock_h, Hiv|].
  split; [now apply indicator_label_dummy_name|].
  split.
  - unfold cell at 1. cbn [cells]. apply nth_error_nth.
    rewrite Hblock_c, Hiv by assumption. cbn [option_map]. now rewrite Hxv.
  - intros j'' h'' Hn Hind Hne.
    destruct (Hall j'' h'' Hn Hind) as (i & w & -> & Hi).
    assert (Hilt : i < length cats) by (apply nth_error_Some; congruence).
    unfold cell at 1. cbn [cells]. apply nth_error_nth.
    rewrite Hblock_c, Hi by assumption. cbn [option_map].
    destruct (cell j r =? w)%float eqn:E; [|reflexivity].
    exfalso. apply Hne.
    assert (w = v) by (apply Huniq; [eapply nth_error_In; eauto | exact E]).
    subst w.
    assert (i = iv); [|lia].
    apply (proj1 (NoDup_nth_error cats) (NoDup_categories _) i iv Hilt).
    congruence.
Qed.

Lemma encode_is_one_hot_witness :
  Forall2 (fun r r' =>
             is_nan (cell 8 r) = false ->
             exists j' h',
               nth_error (columns model_sample) j' = Some h'
               /\ is_indicator_of Outcome h'
               /\ cell j' r' = one
               /\ forall j'' h'',
                    nth_error (columns model_sample) j'' = Some h'' ->
                    is_indicator_of Outcome h'' ->
                    j'' <> j' ->
                    cell j'' r' = zero)
          (rows imputed_sample) (rows model_sample).
Proof.
  apply (encode_is_one_hot (P := sample_pandas) imputed_sample model_sample Outcome 8).
  - vm_compute. reflexivity.
  - repeat constructor.
  - assert (E : map name (columns imputed_sample)
                = nodup string_dec (map name (columns imputed_sample)))
      by (vm_compute; reflexivity).
    rewrite E. apply NoDup_nodup.
  - now right.
  - reflexivity.
Defined.

End EncodeMore.

(** ** More on the split cell *)

Module SplitMore.

Import Frame Notebook NotebookMore FrameFacts SplitFacts.
Import Binary64 Binary64Facts.

Local Open Scope Z_scope.

Lemma round53_bounds P :
  0 <= P ->
  (2 ^ 53 - 1) * P <= 2 ^ 53 * round53 P <= (2 ^ 53 + 1) * P.
Proof. intros HP. pose proof (round53_error P HP). lia. Qed.

(** [int(0.9 * n) < n] from one row on. *)
Lemma int_mul_0_9_lt n : 1 <= n -> int_mul lit_0_9 n < n.
Proof.
  intros Hn. unfold int_mul, float_of_int.
  pose proof (round53_nonneg n ltac:(lia)) as Hf.
  pose proof (round53_bounds n ltac:(lia)) as Bn.
  set (f := round53 n) in *.
  pose proof (round53_bounds (lit_0_9 * f) ltac:(unfold lit_0_9; lia)) as B9.
  apply Z.div_lt_upper_bound; [reflexivity|].
  unfold lit_0_9 in *. change (2 ^ 53) with 9007199254740992 in *. lia.
Qed.

(** [1 <= int(0.7 * n)] from two rows on. *)
Lemma int_mul_0_7_pos n : 2 <= n -> 1 <= int_mul lit_0_7 n.
Proof.
  intros Hn. unfold int_mul, float_of_int.
  pose proof (round53_nonneg n ltac:(lia)) as Hf.
  pose proof (round53_bounds n ltac:(lia)) as Bn.
  set (f := round53 n) in *.
  pose proof (round53_bounds (lit_0_7 * f) ltac:(unfold lit_0_7; lia)) as B7.
  apply Z.div_le_lower_bound; [reflexivity|].
  unfold lit_0_7 in *. change (2 ^ 53) with 9007199254740992 in *. lia.
Qed.

(** [int(0.7 * n) < int(0.9 * n)] from four rows on, and only then. *)
Lemma int_mul_gap n : 0 <= n -> (int_mul lit_0_7 n < int_mul lit_0_9 n <-> 4 <= n).
Proof.
  intros Hn. split.
  - intros Hlt. destruct (Z.lt_ge_cases n 4) as [Hsmall | ]; [|assumption].
    exfalso. assert (Hc : n = 0 \/ n = 1 \/ n = 2 \/ n = 3) by lia.
    destruct Hc as [-> | [-> | [-> | ->]]]; vm_compute in Hlt; discriminate.
  - intros H4. destruct (Z.lt_ge_cases n 6) as [Hsmall | H6].
    + assert (Hc : n = 4 \/ n = 5) by lia.
      destruct Hc as [-> | ->]; vm_compute; reflexivity.
    + unfold int_mul, float_of_int.
      pose proof (round53_nonneg n ltac:(lia)) as Hf.
      pose proof (round53_bounds n ltac:(lia)) as Bn.
      set (f := round53 n) in *.
      pose proof (round53_bounds (lit_0_7 * f) ltac:(unfold lit_0_7; lia)) as B7.
      pose proof (round53_bounds (lit_0_9 * f) ltac:(unfold lit_0_9; lia)) as B9.
      set (R7 := round53 (lit_0_7 * f)) in *.
      set (R9 := round53 (lit_0_9 * f)) in *.
      apply Z.lt_le_trans with (R7 / 2 ^ 53 + 1); [lia|].
      replace (R7 / 2 ^ 53 + 1) with ((R7 + 1 * 2 ^ 53) / 2 ^ 53)
        by (rewrite Z.div_add by (apply Z.pow_nonzero; lia); reflexivity).
      apply Z.div_le_mono; [reflexivity|].
      unfold lit_0_7, lit_0_9 in *. change (2 ^ 53) with 9007199254740992 in *. lia.
Qed.

Local Open Scope nat_scope.

Lemma split_points_small n :
  (1 <= n -> split_point_90 n < n)
  /\ (2 <= n -> 1 <= split_point_70 n)
  /\ (split_point_70 n < split_point_90 n <-> 4 <= n).
Proof.
  unfold split_point_70, split_point_90.
  pose proof (int_mul_nonneg lit_0_7 (Z.of_nat n) ltac:(unfold lit_0_7; lia) ltac:(lia)).
  pose proof (int_mul_nonneg lit_0_9 (Z.of_nat n) ltac:(unfold lit_0_9; lia) ltac:(lia)).
  split; [|split].
  - intros Hn. pose proof (int_mul_0_9_lt (Z.of_nat n) ltac:(lia)). lia.
  - intros Hn. pose proof (int_mul_0_7_pos (Z.of_nat n) ltac:(lia)). lia.
  - pose proof (int_mul_gap (Z.of_nat n) ltac:(lia)) as Hg. lia.
Qed.

Section Shuffle.

Variable G : Generator.
Hypothesis permutation_ok :
  forall g n, Permutation (fst (permutation G g n)) (seq 0 n).

Lemma split_cell_lengths (ambient : rng_state G) model_data :
  let n := length (rows model_data) in
  exists s,
    fst (split_cell G ambient model_data) = Ok s
    /\ length (rows (train_data s)) = split_point_70 n
    /\ length (rows (validation_data s)) = split_point_90 n - split_point_70 n
    /\ length (rows (test_data s)) = n - split_point_90 n
    /\ columns (train_data s) = columns model_data
    /\ columns (validation_data s) = columns model_data
    /\ columns (test_data s) = columns model_data.
Proof.
  intros n.
  pose proof (split_points_ordered n) as [Hab Hbn].
  pose proof (take_Permutation
                (fst (permutation G (seeded G 1729%Z) n)) model_data
                (permutation_ok _ _)) as Hperm.
  apply Permutation_length in Hperm.
  eexists. split; [apply split_cell_Ok|].
  cbn [train_data validation_data test_data rows columns]. fold n.
  unfold slice. rewrite !length_firstn, !length_skipn, Hperm. fold n.
  repeat split; lia.
Qed.

(** X4. Which of the three frames can be empty: the test frame is never
    empty once the frame has a row, the training frame has a row as soon as
    the frame has two, and the validation frame has a row exactly when the
    frame has at least four. *)
Theorem split_empty_frames (ambient : rng_state G) model_data :
  let n := length (rows model_data) in
  exists s,
    fst (split_cell G ambient model_data) = Ok s
    /\ (1 <= n -> rows (test_data s) <> [])
    /\ (2 <= n -> rows (train_data s) <> [])
    /\ (rows (validation_data s) <> [] <-> 4 <= n).
Proof.
  intros n.
  destruct (split_cell_lengths ambient model_data) as (s & Hs & Htr & Hva & Hte & _).
  fold n in Htr, Hva, Hte.
  destruct (split_points_small n) as (H9 & H7 & Hgap).
  assert (Hnil : forall (l : list Row), l <> [] <-> 1 <= length l).
  { intros [| x l]; simpl; split; intros H; try lia; try congruence; try discriminate. }
  exists s. split; [exact Hs|]. rewrite !Hnil, Htr, Hva, Hte.
  split; [|split]; lia.
Qed.

End Shuffle.

Lemma split_empty_frames_witness :
  exists s,
    fst (split_cell reversing 0 sample_table) = Ok s
    /\ (1 <= 6 -> rows (test_data s) <> [])
    /\ (2 <= 6 -> rows (train_data s) <> [])
    /\ (rows (validation_data s) <> [] <-> 4 <= 6).
Proof.
  apply (split_empty_frames reversing reversing_ok 0 sample_table).
Defined.

End SplitMore.

(** ** More on the export cell *)

Module ExportMore.

Import Frame Notebook NotebookMore FrameFacts ExportFacts.
Local Open Scope nat_scope.
Local Open Scope string_scope.

Lemma read_file_app_other path (new fs : files) :
  ~ In path (map fst new) -> read_file path (new ++ fs)%list = read_file path fs.
Proof.
  induction new as [| [p c] new IH]; simpl; [reflexivity|].
  intros Hnot. destruct (String.eqb_spec path p) as [-> | _]; [tauto|].
  apply IH. tauto.
Qed.

(** A line of test-no-outcomes.csv is the line of test.csv without its
    leading fields, one per column labelled Outcome_1. *)
Lemma rest_line_skipn hs r :
  rest_line hs r = skipn (length (labelled Outcome_1 hs)) (target_line hs r).
Proof.
  unfold rest_line, target_line. rewrite map_app.
  rewrite skipn_app, !length_map, Nat.sub_diag, skipn_all2
    by (rewrite !length_map; lia).
  reflexivity.
Qed.

(** X5. How the exported files relate.  When the three frames share their
    columns and have the labels Outcome_0 and Outcome_1, the export cell
    runs to the end; merged.csv is train.csv followed by validation.csv,
    line for line; test-no-outcomes.csv is test.csv with the leading fields
    of every line removed, as many as there are columns labelled Outcome_1
    (the first field alone when there is one such column), so that its
    lines are aligned with the targets of test.csv; and every file other
    than the five written is left as it was. *)
Theorem export_files_agree {P : Pandas} s fs d1 :
  columns (validation_data s) = columns (train_data s) ->
  columns (test_data s) = columns (train_data s) ->
  get_loc Outcome_0 (columns (train_data s)) <> None ->
  get_loc Outcome_1 (columns (train_data s)) <> None ->
  length (labelled Outcome_1 (columns (train_data s))) = d1 ->
  exists fs' train validation test,
    export_cell s fs = (Ok tt, fs')
    /\ read_file "train.csv" fs' = Some train
    /\ read_file "validation.csv" fs' = Some validation
    /\ read_file "test.csv" fs' = Some test
    /\ read_file "merged.csv" fs' = Some (train ++ validation)%list
    /\ read_file "test-no-outcomes.csv" fs' = Some (map (skipn d1) test)
    /\ 1 <= d1
    /\ (d1 = 1 -> map (skipn d1) test = map (@tl field) test)
    /\ forall path, ~ In path exported -> read_file path fs' = read_file path fs.
Proof.
  intros Hv Ht H0 H1 Hd1.
  eexists _, _, _, _.
  split; [apply (export_cell_Ok s fs); [now rewrite Hv | now rewrite Ht | | ]; assumption|].
  repeat (split; [reflexivity|]).
  split; [|split; [|split; [|split]]].
  - cbn [app read_file String.eqb Ascii.eqb Bool.eqb]. now rewrite map_app.
  - cbn [app read_file String.eqb Ascii.eqb Bool.eqb].
    rewrite map_map. f_equal. apply map_ext. intros r.
    rewrite <- Hd1. apply rest_line_skipn.
  - rewrite <- Hd1. rewrite get_loc_labelled in H1.
    destruct (labelled Outcome_1 (columns (train_data s))); [contradiction|].
    cbn [length]. lia.
  - intros ->. reflexivity.
  - intros path Hnot. apply read_file_app_other.
    intros Hin. apply Hnot. unfold exported. simpl in *. tauto.
Qed.

Lemma export_files_agree_witness :
  exists fs' train validation test,
    export_cell (P := sample_pandas) sample_splits [] = (Ok tt, fs')
    /\ read_file "train.csv" fs' = Some train
    /\ read_file "validation.csv" fs' = Some validation
    /\ read_file "test.csv" fs' = Some test
    /\ read_file "merged.csv" fs' = Some (train ++ validation)%list
    /\ read_file "test-no-outcomes.csv" fs' = Some (map (skipn 1) test)
    /\ 1 <= 1
    /\ (1 = 1 -> map (skipn 1) test = map (@tl field) test)
    /\ forall path, ~ In path exported -> read_file path fs' = read_file path [].
Proof.
  apply (export_files_agree (P := sample_pandas) sample_splits [] 1);
    vm_compute; first [reflexivity | discriminate].
Defined.

End ExportMore.

(** ** The notebook from the table to the files *)

Module RunFacts.

Import Frame Notebook NotebookMore FrameFacts CategoryFacts ImputeFacts SplitFacts.
Import PrepareFacts EncodeFacts EncodeMore SplitMore ExportFacts ExportMore.
Local Open Scope nat_scope.
Local Open Scope string_scope.

(** *** The labels Outcome_0 and Outcome_1 *)

Lemma append_eqb c a b : String.eqb (c ++ a) (c ++ b) = String.eqb a b.
Proof.
  induction c as [| x c IH]; cbn [append String.eqb]; [reflexivity|].
  now rewrite Ascii.eqb_refl.
Qed.

Lemma dummy_name_eqb c a b :
  colname_eqb (dummy_name c a) (dummy_name c b) = String.eqb a b.
Proof. unfold colname_eqb, dummy_name. now rewrite !append_eqb. Qed.

Ltac peel c H :=
  destruct c as [| ? c]; cbn in H; [discriminate H | injection H as ? H; subst].

(** Only an indicator column of a column labelled Outcome can be labelled
    Outcome_0 or Outcome_1, and its level then reads 0 or 1. *)
Lemma dummy_name_Outcome c level l0 :
  l0 = "0" \/ l0 = "1" ->
  dummy_name c level = dummy_name Outcome l0 -> c = Outcome /\ level = l0.
Proof.
  unfold dummy_name, Outcome.
  intros [-> | ->] H; do 7 peel c H;
    (destruct c as [| ? c]; cbn in H;
     [ injection H as ->; split; reflexivity
     | injection H as ? H; subst;
       destruct c as [| ? c]; cbn in H; [discriminate H|];
       injection H as ? H; destruct c; discriminate H ]).
Qed.

Lemma trunc_eqb_zero v : (v =? zero)%float = true -> Binary64.trunc v = 0%Z.
Proof.
  rewrite eqb_spec. intros H. apply SFeqb_true in H.
  change (Prim2SF zero) with (S754_zero false) in H.
  unfold Binary64.trunc. now destruct (Prim2SF v).
Qed.

(** The level of a value of an [int64] Outcome column that is 1 or 0 reads
    as the level of the class [k] exactly when the value is in the class. *)
Lemma class_level v k :
  k = one \/ k = zero ->
  (v =? one)%float = true \/ (v =? zero)%float = true ->
  String.eqb (str_int (Binary64.trunc k)) (str_int (Binary64.trunc v))
  = (v =? k)%float.
Proof.
  intros Hk [Hv | Hv].
  - apply eqb_one_eq in Hv. subst v. destruct Hk as [-> | ->]; reflexivity.
  - rewrite (trunc_eqb_zero v Hv).
    destruct Hk as [-> | ->]; [|now rewrite Hv].
    destruct (v =? one)%float eqn:E; [|reflexivity].
    apply eqb_one_not_zero in E. congruence.
Qed.

(** *** Counting the columns that carry a label *)

Lemma length_labelled c hs :
  length (labelled c hs) = length (filter (colname_eqb c) (map name hs)).
Proof.
  unfold labelled. induction hs as [| h hs IH]; [reflexivity|].
  rewrite positions_cons. cbn [map filter].
  rewrite length_app, length_map, IH.
  now destruct (colname_eqb c (name h)).
Qed.

Lemma get_loc_None_length c hs :
  get_loc c hs = None <-> length (labelled c hs) = 0.
Proof.
  rewrite get_loc_labelled. destruct (labelled c hs); cbn; split;
    first [reflexivity | discriminate].
Qed.

Lemma map_flat_map_names {A B C} (f : B -> C) (g : A -> list B) l :
  map f (flat_map g l) = flat_map (fun x => map f (g x)) l.
Proof.
  induction l as [| x l IH]; cbn [flat_map map]; [reflexivity|].
  now rewrite map_app, IH.
Qed.

Lemma filter_of_flat_map {A B} (p : B -> bool) (g : A -> list B) l :
  filter p (flat_map g l) = flat_map (fun x => filter p (g x)) l.
Proof.
  induction l as [| x l IH]; cbn [flat_map filter]; [reflexivity|].
  now rewrite filter_app, IH.
Qed.

Lemma flat_map_all_nil {A B} (g : A -> list B) l :
  (forall x, In x l -> g x = []) -> flat_map g l = [].
Proof.
  induction l as [| x l IH]; intros H; cbn [flat_map]; [reflexivity|].
  rewrite (H x (or_introl eq_refl)), IH; [reflexivity|].
  intros y Hy. apply H. now right.
Qed.

Lemma filter_none {A} (p : A -> bool) l :
  (forall x, In x l -> p x = false) -> filter p l = [].
Proof.
  induction l as [| x l IH]; intros H; cbn [filter]; [reflexivity|].
  rewrite (H x (or_introl eq_refl)). apply IH. intros y Hy. apply H. now right.
Qed.

Lemma length_filter_map {A B} (p : B -> bool) (f : A -> B) l :
  length (filter p (map f l)) = length (filter (fun x => p (f x)) l).
Proof.
  induction l as [| x l IH]; cbn [map filter]; [reflexivity|].
  destruct (p (f x)); cbn [length]; now rewrite IH.
Qed.

Lemma NoDup_single {A} (l : list A) v :
  NoDup l -> In v l -> (forall w, In w l -> w = v) -> length l = 1.
Proof.
  intros Hnd Hin Hall. destruct l as [| a [| b l]]; [contradiction | reflexivity |].
  exfalso. assert (a = v) by (apply Hall; now left).
  assert (b = v) by (apply Hall; right; now left). subst.
  inversion Hnd as [| ? ? Hnot _]. apply Hnot. now left.
Qed.

(** The labels of the frame [get_dummies] returns. *)
Lemma names_get_dummies {P : Pandas} df :
  map name (columns (get_dummies df))
  = (map (fun jh => name (snd jh)) (kept_columns df)
     ++ flat_map (fun jh =>
                    map (fun v => dummy_name (name (snd jh))
                                             (str_level (levels_of (snd jh)) v))
                        (categories (column_values (fst jh) (rows df))))
                 (encoded_columns df))%list.
Proof.
  unfold get_dummies. cbn [columns]. rewrite map_app, map_map, map_flat_map_names.
  f_equal. apply flat_map_ext. intros jh. unfold indicator_headers.
  now rewrite map_map.
Qed.

(** How many categories of a column are equal to [k]: one if a value of the
    column is, none otherwise. *)
Lemma length_filter_class xs k :
  length (filter (fun v => (v =? k)%float) (categories xs))
  = if existsb (fun x => (x =? k)%float) xs then 1 else 0.
Proof.
  destruct (existsb _ xs) eqn:E.
  - apply existsb_exists in E as (x & Hx & Hxk).
    assert (Hnan : is_nan x = false).
    { unfold is_nan. apply negb_false_iff.
      eapply eqb_trans; [exact Hxk | now apply eqb_sym]. }
    destruct (categories_one_hot xs x Hx Hnan) as (v & Hv & Hxv & Huniq).
    apply (NoDup_single _ v).
    + apply NoDup_filter, NoDup_categories.
    + apply filter_In. split; [exact Hv|].
      eapply eqb_trans; [apply eqb_sym; exact Hxv | exact Hxk].
    + intros w Hw. apply filter_In in Hw as [Hw Hwk]. apply Huniq; [exact Hw|].
      eapply eqb_trans; [exact Hxk | now apply eqb_sym].
  - rewrite filter_none; [reflexivity|].
    intros w Hw. apply categories_incl in Hw.
    destruct (w =? k)%float eqn:Ew; [|reflexivity].
    assert (existsb (fun x => (x =? k)%float) xs = true); [|congruence].
    apply existsb_exists. eauto.
Qed.

(** The columns labelled Outcome_0, or Outcome_1, in the encoding of a
    frame with distinct labels and an [int64] Outcome column of zeros and
    ones: none carries the label in the frame, no indicator column of
    another column can carry it, and the Outcome column yields one for the
    class if the class has a row. *)
Lemma outcome_indicators {P : Pandas} hs rs jo k :
  NoDup (map name hs) ->
  get_loc Outcome hs = Some jo ->
  nth_error hs jo = Some (mkHeader Outcome (Numeric Int64)) ->
  k = one \/ k = zero ->
  ~ In (dummy_name Outcome (str_int (Binary64.trunc k))) (map name hs) ->
  Forall (fun v => (v =? one)%float = true \/ (v =? zero)%float = true)
         (column_values jo rs) ->
  length (labelled (dummy_name Outcome (str_int (Binary64.trunc k)))
                   (columns (get_dummies (mkFrame (map cast hs) rs))))
  = if existsb (fun x => (x =? k)%float) (column_values jo rs) then 1 else 0.
Proof.
  intros Hnd Hjo Hho Hk Hnot Hvals.
  set (L := dummy_name Outcome (str_int (Binary64.trunc k))) in *.
  set (df := mkFrame (map cast hs) rs).
  assert (Hl0 : str_int (Binary64.trunc k) = "0" \/ str_int (Binary64.trunc k) = "1").
  { destruct Hk as [-> | ->]; [right | left]; reflexivity. }
  assert (Hindex : forall jx hx,
            In (jx, hx) (enumerate (map cast hs)) -> name hx = Outcome ->
            (jx, hx) = (jo, mkHeader Outcome (Category Int64))).
  { intros jx hx Hin Hname. rewrite enumerate_enum_from in Hin.
    apply In_enum_from_inv in Hin as (jx' & Hjx & Hnx). simpl in Hjx. subst jx'.
    apply nth_error_cast in Hnx as (h & Hh & ->).
    rewrite name_cast in Hname.
    pose proof (get_loc_NoDup hs jx h Hnd Hh) as Hg.
    rewrite Hname, Hjo in Hg. injection Hg as <-.
    rewrite Hho in Hh. injection Hh as <-. reflexivity. }
  rewrite length_labelled, names_get_dummies, filter_app, length_app.
  rewrite filter_none.
  2:{ intros c Hc. apply in_map_iff in Hc as ([jx hx] & <- & Hin).
      unfold kept_columns in Hin. apply filter_In in Hin as [Hin _].
      unfold df in Hin. cbn [columns snd] in *.
      rewrite enumerate_enum_from in Hin.
      apply In_enum_from_inv in Hin as (jx' & _ & Hnx).
      apply nth_error_cast in Hnx as (h & Hh & ->). rewrite name_cast.
      apply colname_eqb_neq. intros E. apply Hnot. rewrite E.
      apply in_map. eapply nth_error_In; eauto. }
  cbn [length Nat.add]. rewrite filter_of_flat_map.
  assert (Hin0 : In (jo, mkHeader Outcome (Category Int64)) (encoded_columns df)).
  { unfold encoded_columns. apply filter_In. split; [|reflexivity].
    unfold df. cbn [columns]. rewrite enumerate_enum_from.
    apply (In_enum_from (map cast hs) 0 jo). now rewrite nth_error_map, Hho. }
  assert (Hndenc : NoDup (encoded_columns df)).
  { unfold encoded_columns. apply NoDup_filter. rewrite enumerate_enum_from.
    apply NoDup_enum_from. }
  destruct (in_split _ _ Hin0) as (pre & post & Henc).
  assert (Hother : forall x, In x (pre ++ post)%list ->
            filter (colname_eqb L)
              (map (fun v => dummy_name (name (snd x)) (str_level (levels_of (snd x)) v))
                   (categories (column_values (fst x) (rows df)))) = []).
  { intros [jx hx] Hx. apply filter_none. intros c Hc.
    apply in_map_iff in Hc as (v & <- & _). cbn [fst snd].
    destruct (colname_eqb L _) eqn:E; [|reflexivity]. exfalso.
    apply colname_eqb_eq in E. symmetry in E.
    apply (dummy_name_Outcome _ _ _ Hl0) in E as [Hname _].
    assert (Hxin : In (jx, hx) (encoded_columns df)).
    { rewrite Henc. apply in_app_or in Hx. apply in_or_app.
      destruct Hx; [now left | right; now right]. }
    unfold encoded_columns in Hxin. apply filter_In in Hxin as [Hxin _].
    unfold df in Hxin. cbn [columns] in Hxin.
    rewrite (Hindex jx hx Hxin Hname) in Hx.
    rewrite Henc in Hndenc. apply NoDup_remove_2 in Hndenc. contradiction. }
  rewrite Henc, flat_map_app. cbn [flat_map].
  rewrite !flat_map_all_nil
    by (intros x Hx; apply Hother; apply in_or_app; auto).
  cbn [app fst snd name]. rewrite app_nil_r.
  unfold df. cbn [rows].
  rewrite length_filter_map, <- length_filter_class.
  f_equal. apply filter_ext_in. intros v Hv.
  unfold L, levels_of. cbn [kind str_level]. rewrite dummy_name_eqb.
  apply class_level; [exact Hk|].
  rewrite Forall_forall in Hvals. apply Hvals. now apply categories_incl.
Qed.

(** *** Tables in the shape of the dataset *)

Lemma shaped_outcome data jo :
  dataset_shaped data ->
  get_loc Outcome (columns data) = Some jo ->
  nth_error (columns data) jo = Some (mkHeader Outcome (Numeric Int64)).
Proof.
  intros (_ & Hnd & _ & Hin) Hjo.
  apply In_nth_error in Hin as (i & Hi).
  pose proof (get_loc_NoDup _ _ _ Hnd Hi) as Hg. cbn [name] in Hg.
  rewrite Hjo in Hg. now injection Hg as ->.
Qed.

Lemma shaped_no_indicator data level :
  dataset_shaped data ->
  ~ In (dummy_name Outcome level) (map name (columns data)).
Proof.
  intros (Hplain & _) Hin. apply in_map_iff in Hin as (h & Hname & Hh).
  rewrite Forall_forall in Hplain. destruct (Hplain h Hh) as [_ Hp].
  pose proof (plain_not_indicator Outcome h Hp eq_refl) as E.
  rewrite Hname, indicator_label_dummy_name in E by reflexivity. discriminate.
Qed.

(** The imputation leaves the Outcome column as it is, row for row. *)
Lemma impute_outcome_column {P : Pandas} data out jo :
  impute_cell data = Ok out ->
  get_loc Outcome (columns data) = Some jo ->
  map name (columns out) = map name (columns data)
  /\ nth_error (columns out) jo = nth_error (columns data) jo
  /\ column_values jo (rows out)
     = column_values jo (class_rows jo one (rows data) ++ class_rows jo zero (rows data))%list
  /\ length (rows out)
     = length (class_rows jo one (rows data)) + length (class_rows jo zero (rows data)).
Proof.
  intros Hout Hjo.
  destruct (impute_cell_rows _ _ _ Hout Hjo) as (js & HF & Hnd & Hcols & Hkeep & Hrows).
  split; [exact Hcols|]. split.
  { apply Hkeep. intros Hin.
    assert (E : existsb (Nat.eqb jo) js = true).
    { apply existsb_exists. exists jo. split; [exact Hin | apply Nat.eqb_refl]. }
    rewrite (locs_existsb _ _ _ _ _ HF Hjo) in E.
    fold (is_imputed Outcome) in E. rewrite Outcome_not_imputed in E. discriminate. }
  rewrite Hrows. split.
  - unfold column_values. rewrite !map_app, !map_map.
    f_equal; apply map_ext; intros r;
      apply (cell_outcome_kept _ _ _ _ _ HF Hnd Hjo).
  - now rewrite length_app, !length_map.
Qed.

(** The values of the Outcome column after imputation. *)
Lemma In_imputed_outcome {P : Pandas} data out jo v :
  impute_cell data = Ok out ->
  get_loc Outcome (columns data) = Some jo ->
  In v (column_values jo (rows out)) <->
  exists r, In r (rows data) /\ cell jo r = v
            /\ (in_class jo one r = true \/ in_class jo zero r = true).
Proof.
  intros Hout Hjo.
  destruct (impute_outcome_column _ _ _ Hout Hjo) as (_ & _ & -> & _).
  unfold column_values, class_rows. rewrite map_app, in_app_iff, !in_map_iff.
  split.
  - intros [(r & <- & Hr) | (r & <- & Hr)]; apply filter_In in Hr as [Hr Hc];
      exists r; auto.
  - intros (r & Hr & <- & [Hc | Hc]); [left | right]; exists r;
      (split; [reflexivity | apply filter_In; auto]).
Qed.

(** Whether the class [k] has a row after the imputation. *)
Lemma imputed_class_present {P : Pandas} data out jo k :
  impute_cell data = Ok out ->
  get_loc Outcome (columns data) = Some jo ->
  k = one \/ k = zero ->
  Exists (fun r => in_class jo k r = true) (rows data) ->
  existsb (fun x => (x =? k)%float) (column_values jo (rows out)) = true.
Proof.
  intros Hout Hjo Hk Hex. apply Exists_exists in Hex as (r & Hr & Hc).
  apply existsb_exists. exists (cell jo r). split; [|exact Hc].
  apply (In_imputed_outcome data out jo _ Hout Hjo). exists r.
  split; [exact Hr|]. split; [reflexivity|].
  destruct Hk as [-> | ->]; auto.
Qed.

Lemma imputed_class_absent {P : Pandas} data out jo k :
  impute_cell data = Ok out ->
  get_loc Outcome (columns data) = Some jo ->
  Forall (fun r => in_class jo k r = false) (rows data) ->
  existsb (fun x => (x =? k)%float) (column_values jo (rows out)) = false.
Proof.
  intros Hout Hjo Hall.
  destruct (existsb _ _) eqn:E; [|reflexivity].
  apply existsb_exists in E as (v & Hv & Hvk).
  apply (In_imputed_outcome data out jo _ Hout Hjo) in Hv as (r & Hr & <- & _).
  rewrite Forall_forall in Hall. specialize (Hall r Hr).
  unfold in_class in Hall. congruence.
Qed.

Lemma length_get_dummies {P : Pandas} df :
  length (rows (get_dummies df)) = length (rows df).
Proof. unfold get_dummies. cbn [rows]. apply length_map. Qed.

Lemma export_cell_raises_no_target {P : Pandas} s fs :
  get_loc Outcome_1 (columns (train_data s)) = None ->
  export_cell s fs = (Raise (KeyError Outcome_1), fs).
Proof.
  intros H.
  unfold export_cell, export_labelled, io_bind, lift, target_first, getitem_all.
  rewrite get_loc_labelled in H. unfold labelled in H.
  now destruct (positions _ (columns (train_data s))).
Qed.

Lemma export_cell_raises_no_other {P : Pandas} s fs :
  get_loc Outcome_1 (columns (train_data s)) <> None ->
  get_loc Outcome_0 (columns (train_data s)) = None ->
  export_cell s fs
  = (Raise (KeyError_not_found
              (if is_unique (map name (columns (train_data s)))
               then [Outcome_0] else [Outcome_0; Outcome_1])), fs).
Proof.
  intros H1 H0.
  unfold export_cell, export_labelled, io_bind, lift, target_first.
  rewrite (getitem_all_Ok _ _ H1). cbn [bind]. unfold drop. cbn [filter].
  rewrite H0.
  destruct (get_loc Outcome_1 (columns (train_data s))); [|contradiction].
  reflexivity.
Qed.

Section Pipeline.

Context {P : Pandas}.
Variable G : Generator.
Hypothesis permutation_ok :
  forall g n, Permutation (fst (permutation G g n)) (seq 0 n).

(** The preparation of a table in the shape of the dataset: the imputed
    table, the frame of model data and the three frames cut from it; the
    frames have one column labelled Outcome_1 if the class 1 has a row and
    none otherwise, and likewise for Outcome_0 and the class 0. *)
Lemma prepare_shaped (ambient : rng_state G) data jo :
  dataset_shaped data ->
  get_loc Outcome (columns data) = Some jo ->
  exists out s,
    impute_cell data = Ok out
    /\ fst (prepare G ambient data) = Ok s
    /\ (let n := length (rows out) in
        length (rows (train_data s)) = split_point_70 n
        /\ length (rows (validation_data s)) = split_point_90 n - split_point_70 n
        /\ length (rows (test_data s)) = n - split_point_90 n)
    /\ columns (validation_data s) = columns (train_data s)
    /\ columns (test_data s) = columns (train_data s)
    /\ forall k, k = one \/ k = zero ->
         length (labelled (dummy_name Outcome (str_int (Binary64.trunc k)))
                          (columns (train_data s)))
         = if existsb (fun x => (x =? k)%float) (column_values jo (rows out))
           then 1 else 0.
Proof.
  intros Hshape Hjo.
  pose proof Hshape as (_ & Hnd & Hall & _).
  inversion Hall as [| ? ? Hp Hall']; subst.
  destruct (impute_cell_total data Hall') as (out & Hout & Hcols).
  inversion Hall' as [| ? ? Ho _]; subst.
  assert (He : exists model, encode_cell out = Ok model).
  { eexists. apply encode_cell_Ok; now rewrite (get_loc_names _ _ _ Hcols). }
  destruct He as [model He].
  pose proof (encode_cell_inv _ _ He) as Hm.
  destruct (split_cell_lengths G permutation_ok ambient model)
    as (s & Hs & Htr & Hva & Hte & Hc1 & Hc2 & Hc3).
  exists out, s. split; [exact Hout|]. split.
  { unfold prepare. rewrite Hout. cbn [bind]. now rewrite He. }
  split.
  { cbn zeta. rewrite Hm, length_get_dummies in Htr, Hva, Hte.
    cbn [rows] in Htr, Hva, Hte. repeat split; assumption. }
  split; [congruence|]. split; [congruence|].
  intros k Hk. rewrite Hc1, Hm.
  destruct (impute_outcome_column _ _ _ Hout Hjo) as (_ & Hho & _).
  apply outcome_indicators.
  - now rewrite Hcols.
  - now rewrite (get_loc_names _ _ _ Hcols).
  - rewrite Hho. now apply shaped_outcome.
  - exact Hk.
  - rewrite Hcols. now apply shaped_no_indicator.
  - apply Forall_forall. intros v Hv.
    apply (In_imputed_outcome data out jo v Hout Hjo) in Hv
      as (r & _ & <- & Hc). exact Hc.
Qed.

(** X6. A table with a missing class breaks the export, not the
    preparation.  With no row of Outcome 1 the data preparation succeeds
    and the export cell raises [KeyError] at the lookup of Outcome_1,
    before writing any file; with rows of Outcome 1 and none of Outcome 0,
    [drop] raises [KeyError], for it does not find Outcome_0. *)
Theorem run_raises_on_missing_class (ambient : rng_state G) data jo k :
  dataset_shaped data ->
  get_loc Outcome (columns data) = Some jo ->
  k = one \/ (k = zero /\ Exists (fun r => in_class jo one r = true) (rows data)) ->
  Forall (fun r => in_class jo k r = false) (rows data) ->
  exists s,
    fst (prepare G ambient data) = Ok s
    /\ run G ambient data
       = (Raise (missing_indicator k (columns (train_data s))), []).
Proof.
  intros Hshape Hjo Hk Hnone.
  destruct (prepare_shaped ambient data jo Hshape Hjo)
    as (out & s & Hout & Hs & _ & _ & _ & Hcount).
  exists s. split; [exact Hs|].
  assert (Hk' : k = one \/ k = zero) by (destruct Hk as [-> | [-> _]]; auto).
  assert (Habsent : get_loc (dummy_name Outcome (str_int (Binary64.trunc k)))
                            (columns (train_data s)) = None).
  { apply get_loc_None_length. rewrite (Hcount k Hk').
    now rewrite (imputed_class_absent data out jo k Hout Hjo Hnone). }
  unfold run. rewrite Hs.
  destruct Hk as [-> | [-> Hone]].
  - now rewrite (export_cell_raises_no_target s [] Habsent).
  - rewrite (export_cell_raises_no_other s []); [reflexivity | | exact Habsent].
    intros E. apply (get_loc_None_length Outcome_1) in E.
    change Outcome_1 with (dummy_name Outcome (str_int (Binary64.trunc one))) in E.
    rewrite (Hcount one (or_introl eq_refl)) in E.
    rewrite (imputed_class_present data out jo one Hout Hjo) in E;
      [discriminate | now left | exact Hone].
Qed.

(** X7. On a table in the shape of the dataset whose Outcome cells are all 0
    or 1, with both present, the run raises nothing and writes the five
    files; train.csv, validation.csv and test.csv have as many lines as the
    split points say, together as many as the table has rows, merged.csv is
    train.csv followed by validation.csv, and test-no-outcomes.csv is
    test.csv without its first field. *)
Theorem run_writes_the_five_files (ambient : rng_state G) data jo :
  dataset_shaped data ->
  get_loc Outcome (columns data) = Some jo ->
  Forall (fun r => binary jo r = true) (rows data) ->
  Exists (fun r => in_class jo one r = true) (rows data) ->
  Exists (fun r => in_class jo zero r = true) (rows data) ->
  let n := length (rows data) in
  exists s fs train validation test,
    run G ambient data = (Ok s, fs)
    /\ read_file "train.csv" fs = Some train
    /\ read_file "validation.csv" fs = Some validation
    /\ read_file "test.csv" fs = Some test
    /\ read_file "merged.csv" fs = Some (train ++ validation)%list
    /\ read_file "test-no-outcomes.csv" fs = Some (map (@tl field) test)
    /\ length train = split_point_70 n
    /\ length validation = split_point_90 n - split_point_70 n
    /\ length test = n - split_point_90 n
    /\ length train + length validation + length test = n.
Proof.
  intros Hshape Hjo Hbin Hone Hzero n.
  destruct (prepare_shaped ambient data jo Hshape Hjo)
    as (out & s & Hout & Hs & (Htr & Hva & Hte) & Hcva & Hcte & Hcount).
  assert (Hn : length (rows out) = n).
  { destruct (impute_outcome_column _ _ _ Hout Hjo) as (_ & _ & _ & ->).
    pose proof (class_count jo (rows data)) as Hc.
    pose proof (proj2 (no_other_class_iff jo (rows data)) Hbin) as Hrest.
    unfold n. lia. }
  rewrite Hn in Htr, Hva, Hte.
  assert (H1 : length (labelled Outcome_1 (columns (train_data s))) = 1).
  { change Outcome_1 with (dummy_name Outcome (str_int (Binary64.trunc one))).
    rewrite (Hcount one (or_introl eq_refl)).
    now rewrite (imputed_class_present data out jo one Hout Hjo (or_introl eq_refl) Hone). }
  assert (H0 : length (labelled Outcome_0 (columns (train_data s))) = 1).
  { change Outcome_0 with (dummy_name Outcome (str_int (Binary64.trunc zero))).
    rewrite (Hcount zero (or_intror eq_refl)).
    now rewrite (imputed_class_present data out jo zero Hout Hjo (or_intror eq_refl) Hzero). }
  assert (G1 : get_loc Outcome_1 (columns (train_data s)) <> None).
  { intros E. apply get_loc_None_length in E. lia. }
  assert (G0 : get_loc Outcome_0 (columns (train_data s)) <> None).
  { intros E. apply get_loc_None_length in E. lia. }
  pose proof (split_points_ordered n) as [Hab Hbn].
  exists s. eexists.
  exists (map (target_line (columns (train_data s))) (rows (train_data s))),
         (map (target_line (columns (train_data s))) (rows (validation_data s))),
         (map (target_line (columns (train_data s))) (rows (test_data s))).
  split.
  { unfold run. rewrite Hs.
    rewrite (export_cell_Ok s []); [reflexivity | | | exact G0 | exact G1];
      congruence. }
  cbn [app read_file String.eqb Ascii.eqb Bool.eqb].
  rewrite map_app, map_map, !length_map.
  repeat split; try assumption; try lia.
  f_equal. apply map_ext. intros r. rewrite rest_line_skipn, H1. reflexivity.
Qed.

End Pipeline.

Lemma diabetes_columns_shaped rs : dataset_shaped (mkFrame diabetes_columns rs).
Proof.
  unfold dataset_shaped. cbn [columns]. split; [|split; [|split]].
  - repeat (constructor; [split; reflexivity|]). constructor.
  - repeat (constructor; [cbn; intuition discriminate|]). constructor.
  - repeat (constructor; [discriminate|]). constructor.
  - cbn. tauto.
Qed.

Lemma run_raises_on_missing_class_witness :
  exists s,
    fst (prepare (P := sample_pandas) reversing 0 negatives) = Ok s
    /\ run (P := sample_pandas) reversing 0 negatives
       = (Raise (missing_indicator one (columns (train_data s))), []).
Proof.
  apply (run_raises_on_missing_class (P := sample_pandas)
           reversing reversing_ok 0 negatives 8 one).
  - apply diabetes_columns_shaped.
  - reflexivity.
  - left. reflexivity.
  - repeat constructor.
Defined.

Lemma run_writes_the_five_files_witness :
  exists s fs train validation test,
    run (P := sample_pandas) reversing 0 sample_table = (Ok s, fs)
    /\ read_file "train.csv" fs = Some train
    /\ read_file "validation.csv" fs = Some validation
    /\ read_file "test.csv" fs = Some test
    /\ read_file "merged.csv" fs = Some (train ++ validation)%list
    /\ read_file "test-no-outcomes.csv" fs = Some (map (@tl field) test)
    /\ length train = split_point_70 6
    /\ length validation = split_point_90 6 - split_point_70 6
    /\ length test = 6 - split_point_90 6
    /\ length train + length validation + length test = 6.
Proof.
  apply (run_writes_the_five_files (P := sample_pandas)
           reversing reversing_ok 0 sample_table 8).
  - apply diabetes_columns_shaped.
  - reflexivity.
  - repeat constructor.
  - apply Exists_cons_hd. reflexivity.
  - apply Exists_cons_tl, Exists_cons_hd. reflexivity.
Defined.

(** The two errors on the small table: without the rows of Outcome 1 and
    without the rows of Outcome 0. *)
Example run_on_one_class :
  run (P := sample_pandas) reversing 0 negatives = (Raise (KeyError Outcome_1), [])
  /\ run (P := sample_pandas) reversing 0 positives
     = (Raise (KeyError_not_found [Outcome_0]), []).
Proof. vm_compute. split; reflexivity. Qed.

(** A table whose Outcome column is [float64], as [read_csv] makes it when
    a value is missing: the indicator columns are labelled after the text
    of the floats, the label Outcome_1 is not among them, and the export
    cell raises. *)
Example run_with_float_outcome :
  let data :=
    mkFrame
      [ mkHeader "Pregnancies" (Numeric Int64);
        mkHeader "Glucose" (Numeric Int64);
        mkHeader "BloodPressure" (Numeric Int64);
        mkHeader "SkinThickness" (Numeric Int64);
        mkHeader "Insulin" (Numeric Int64);
        mkHeader "BMI" (Numeric Float64);
        mkHeader "Outcome" (Numeric Float64) ]
      [ mkRow 0 [6; 148; 72; 35; 0; 33.5; 1]%float;
        mkRow 1 [1; 85; 66; 29; 0; 26.5; nan]%float;
        mkRow 2 [1; 89; 66; 23; 94; 28.125; 0]%float ] in
  match fst (prepare (P := sample_pandas) reversing 0 data) with
  | Ok s => map name (columns (train_data s))
  | Raise _ => []
  end
  = [ "Glucose"; "BloodPressure"; "SkinThickness"; "Insulin"; "BMI";
      "Pregnancies_1"; "Pregnancies_6"; "Outcome_0.0"; "Outcome_1.0" ]
  /\ run (P := sample_pandas) reversing 0 data = (Raise (KeyError Outcome_1), []).
Proof. vm_compute. split; reflexivity. Qed.

End RunFacts.

(** ** The width of the exported lines *)

Module WidthFacts.

Import Frame Notebook NotebookMore FrameFacts ImputeFacts EncodeFacts EncodeMore.
Import SplitFacts ExportFacts ExportMore RunFacts.
Local Open Scope nat_scope.
Local Open Scope string_scope.

(** Whatever the frame, the rows [get_dummies] returns have one cell per
    column. *)
Lemma get_dummies_rectangular {P : Pandas} df : rectangular (get_dummies df).
Proof.
  unfold rectangular, get_dummies. cbn [rows columns].
  apply Forall_forall. intros r Hr. apply in_map_iff in Hr as (r0 & <- & _).
  cbn [cells]. rewrite !length_app, !length_map. f_equal.
  apply length_flat_map_same. intros jh.
  unfold indicator_cells, indicator_headers. now rewrite !length_map.
Qed.

Lemma In_slice {A} st en (l : list A) x : In x (slice st en l) -> In x l.
Proof.
  unfold slice. intros H.
  rewrite <- (firstn_skipn st l). apply in_or_app. right.
  rewrite <- (firstn_skipn (en - st) (skipn st l)). apply in_or_app. now left.
Qed.

Lemma In_take p df r : In r (rows (take p df)) -> In r (rows df).
Proof.
  unfold take. cbn [rows]. intros H. apply in_flat_map in H as (i & _ & Hi).
  destruct (nth_error (rows df) i) as [r' |] eqn:E; [|contradiction].
  destruct Hi as [<- | []]. eapply nth_error_In; eauto.
Qed.

(** The three frames have the columns of the frame that is split, and rows
    of that frame. *)
Lemma split_cell_rows G (ambient : rng_state G) model s :
  fst (split_cell G ambient model) = Ok s ->
  (columns (train_data s) = columns model
   /\ columns (validation_data s) = columns model
   /\ columns (test_data s) = columns model)
  /\ forall r, In r (rows (train_data s)) \/ In r (rows (validation_data s))
               \/ In r (rows (test_data s)) -> In r (rows model).
Proof.
  rewrite split_cell_Ok. intros [= <-].
  cbn [train_data validation_data test_data columns rows].
  split; [auto|].
  intros r [H | [H | H]]; apply In_slice in H; now apply In_take in H.
Qed.

Lemma prepare_inv {P : Pandas} G (ambient : rng_state G) data s :
  fst (prepare G ambient data) = Ok s ->
  exists out model,
    impute_cell data = Ok out /\ encode_cell out = Ok model
    /\ fst (split_cell G ambient model) = Ok s.
Proof.
  unfold prepare.
  destruct (impute_cell data) as [out | e]; cbn [bind]; [|simpl; discriminate].
  destruct (encode_cell out) as [model | e] eqn:He; [|simpl; discriminate].
  intros H. exists out, model. repeat split; assumption.
Qed.

(** Removing positions: only the positions from the current one on count. *)
Lemma remove_positions_ext {A} js js' s (l : list A) :
  (forall i, s <= i -> existsb (Nat.eqb i) js = existsb (Nat.eqb i) js') ->
  remove_positions js s l = remove_positions js' s l.
Proof.
  revert s. induction l as [| x l IH]; intros s H; cbn [remove_positions];
    [reflexivity|].
  rewrite (H s (Nat.le_refl s)), (IH (S s)); [reflexivity|].
  intros i Hi. apply H. lia.
Qed.

Lemma existsb_eqb_shifted s (js : list nat) :
  existsb (Nat.eqb s) (map (fun j => s + S j) js) = false.
Proof.
  induction js as [| j js IH]; cbn [map existsb]; [reflexivity|].
  rewrite IH, orb_false_r. apply Nat.eqb_neq. lia.
Qed.

(** Removing the columns that satisfy [p] from a row that has one cell per
    column leaves as many cells as there are other columns. *)
Lemma length_remove_positions {A} p hs (l : list A) s :
  length l = length hs ->
  length (remove_positions (map (Nat.add s) (positions p hs)) s l)
  + length (positions p hs)
  = length l.
Proof.
  revert l s. induction hs as [| h hs IH]; intros [| x l] s; try discriminate;
    [reflexivity|].
  cbn [length]. intros [= Hlen].
  rewrite positions_cons, map_app, map_map. cbn [remove_positions].
  rewrite existsb_app, existsb_eqb_shifted, orb_false_r.
  rewrite (remove_positions_ext _ (map (Nat.add (S s)) (positions p hs)) (S s) l).
  - specialize (IH l (S s) Hlen). rewrite length_app, length_map.
    destruct (p h); cbn [map existsb length].
    + rewrite Nat.add_0_r, Nat.eqb_refl. cbn [orb length]. lia.
    + cbn [length]. lia.
  - intros i Hi. rewrite existsb_app.
    replace (existsb (Nat.eqb i) (map (Nat.add s) (if p h then [0] else [])))
      with false.
    + cbn [orb]. f_equal. apply map_ext. intros j. lia.
    + destruct (p h); cbn [map existsb]; [|reflexivity].
      rewrite orb_false_r. symmetry. apply Nat.eqb_neq. lia.
Qed.

(** The columns that are dropped are those labelled Outcome_0 and those
    labelled Outcome_1. *)
Lemma length_dropped hs :
  length (dropped hs)
  = length (labelled Outcome_0 hs) + length (labelled Outcome_1 hs).
Proof.
  unfold dropped, labelled. induction hs as [| h hs IH]; [reflexivity|].
  rewrite !positions_cons, !length_app, !length_map, IH. cbn [existsb].
  unfold colname_eqb.
  destruct (String.eqb_spec (name h) Outcome_0) as [E0 | E0];
    destruct (String.eqb_spec Outcome_0 (name h)) as [E0' | E0'];
    destruct (String.eqb_spec (name h) Outcome_1) as [E1 | E1];
    destruct (String.eqb_spec Outcome_1 (name h)) as [E1' | E1'];
    try congruence; cbn [orb length]; try lia.
  rewrite E0 in E1. discriminate E1.
Qed.

Lemma length_rest_line hs r :
  length (cells r) = length hs ->
  length (rest_line hs r)
  + (length (labelled Outcome_0 hs) + length (labelled Outcome_1 hs))
  = length hs.
Proof.
  intros Hlen. unfold rest_line. rewrite length_map, <- length_dropped.
  unfold dropped.
  pose proof (length_remove_positions
                (fun h => existsb (colname_eqb (name h)) [Outcome_0; Outcome_1])
                hs (cells r) 0 Hlen) as H.
  rewrite (map_ext (Nat.add 0) (fun j => j)), map_id in H by reflexivity.
  lia.
Qed.

Lemma length_target_line hs r :
  length (cells r) = length hs ->
  length (target_line hs r) + length (labelled Outcome_0 hs) = length hs.
Proof.
  intros Hlen. pose proof (length_rest_line hs r Hlen) as H.
  unfold target_line, rest_line in *.
  rewrite length_map in H. rewrite length_map, length_app, length_map. lia.
Qed.

(** X8. When the run raises nothing, each exported file is a table with as
    many fields on every line.  With [w] the number of columns of the
    encoded frames, [d0] the number of those labelled Outcome_0 and [d1] the
    number of those labelled Outcome_1 (one each for a table in the shape
    of the dataset), every line of train.csv, validation.csv, test.csv and
    merged.csv has [w - d0] fields and every line of test-no-outcomes.csv
    has [w - d0 - d1]. *)
Theorem exported_lines_have_one_width {P : Pandas} G (ambient : rng_state G)
    data s fs :
  run G ambient data = (Ok s, fs) ->
  let hs := columns (train_data s) in
  let w := length hs in
  let d0 := length (labelled Outcome_0 hs) in
  let d1 := length (labelled Outcome_1 hs) in
  1 <= d0 /\ 1 <= d1 /\ d0 + d1 <= w
  /\ (forall path content line,
        In path ["train.csv"; "validation.csv"; "test.csv"; "merged.csv"] ->
        read_file path fs = Some content -> In line content ->
        length line = w - d0)
  /\ (forall content line,
        read_file "test-no-outcomes.csv" fs = Some content -> In line content ->
        length line = w - d0 - d1).
Proof.
  intros Hrun hs w d0 d1. unfold run in Hrun.
  destruct (fst (prepare G ambient data)) as [s' | e] eqn:Hs; [|discriminate].
  destruct (export_cell s' []) as [[[] | e] fs'] eqn:Hx; [|discriminate].
  injection Hrun as -> ->.
  destruct (prepare_inv _ _ _ _ Hs) as (out & model & _ & Hm & Hsplit).
  apply encode_cell_inv in Hm.
  destruct (split_cell_rows _ _ _ _ Hsplit) as ((Hc1 & Hc2 & Hc3) & Hrows).
  assert (G1 : get_loc Outcome_1 hs <> None).
  { intros E. rewrite (export_cell_raises_no_target s [] E) in Hx. discriminate. }
  assert (G0 : get_loc Outcome_0 hs <> None).
  { intros E. rewrite (export_cell_raises_no_other s [] G1 E) in Hx. discriminate. }
  assert (Hd0 : 1 <= d0).
  { destruct d0 eqn:E; [|lia]. exfalso. apply G0. now apply get_loc_None_length. }
  assert (Hd1 : 1 <= d1).
  { destruct d1 eqn:E; [|lia]. exfalso. apply G1. now apply get_loc_None_length. }
  assert (Hcells : forall r,
            In r (rows (train_data s)) \/ In r (rows (validation_data s))
            \/ In r (rows (test_data s)) -> length (cells r) = w).
  { intros r Hr. apply Hrows in Hr.
    pose proof (get_dummies_rectangular (mkFrame (map cast (columns out)) (rows out)))
      as Hrect.
    rewrite <- Hm in Hrect. unfold rectangular in Hrect.
    rewrite Forall_forall in Hrect. specialize (Hrect r Hr).
    unfold w, hs. now rewrite Hc1. }
  assert (Hw : d0 + d1 <= w).
  { pose proof (length_remove_positions
                  (fun h => existsb (colname_eqb (name h)) [Outcome_0; Outcome_1])
                  hs hs 0 eq_refl) as H.
    fold (dropped hs) in H. rewrite length_dropped in H. fold d0 d1 w in H. lia. }
  rewrite (export_cell_Ok s []) in Hx;
    [| now rewrite Hc2, Hc1 | now rewrite Hc3, Hc1 | exact G0 | exact G1].
  injection Hx as <-. fold hs.
  split; [exact Hd0|]. split; [exact Hd1|]. split; [exact Hw|]. split.
  - intros path content line Hp Hread Hin.
    assert (Hl : exists r, line = target_line hs r
                 /\ (In r (rows (train_data s)) \/ In r (rows (validation_data s))
                     \/ In r (rows (test_data s)))).
    { cbn [In] in Hp.
      destruct Hp as [<- | [<- | [<- | [<- | []]]]];
        cbn [app read_file String.eqb Ascii.eqb Bool.eqb] in Hread;
        injection Hread as <-; apply in_map_iff in Hin as (r & <- & Hr);
        exists r; (split; [reflexivity|]); auto.
      apply in_app_or in Hr. tauto. }
    destruct Hl as (r & -> & Hr).
    pose proof (length_target_line hs r (Hcells r Hr)) as H.
    fold d0 w in H. lia.
  - intros content line Hread Hin.
    cbn [app read_file String.eqb Ascii.eqb Bool.eqb] in Hread.
    injection Hread as <-. apply in_map_iff in Hin as (r & <- & Hr).
    pose proof (length_rest_line hs r (Hcells r (or_intror (or_intror Hr)))) as H.
    fold d0 d1 w in H. lia.
Qed.

Lemma exported_lines_have_one_width_witness :
  1 <= 1 /\ 1 <= 1 /\ 1 + 1 <= 14
  /\ (forall path content line,
        In path ["train.csv"; "validation.csv"; "test.csv"; "merged.csv"] ->
        read_file path sample_files = Some content -> In line content ->
        length line = 14 - 1)
  /\ (forall content line,
        read_file "test-no-outcomes.csv" sample_files = Some content ->
        In line content -> length line = 14 - 1 - 1).
Proof.
  apply (exported_lines_have_one_width (P := sample_pandas)
           reversing 0 sample_table sample_splits sample_files).
  vm_compute. reflexivity.
Defined.

End WidthFacts.
